(** * Low-stock alert pipeline and product creation: a shallow embedding

    The development follows the two Python modules of the repository:

    - [LowStockAlert] embeds [lowstocklert.py]: the three arithmetic helpers
      ([calculate_days_until_stockout], [calculate_urgency],
      [calculate_reorder_quantity]), the two read helpers
      ([get_preferred_supplier], [get_recent_sales_data]) and the endpoint
      [get_low_stock_alerts] with its cache-aside layer;
    - [ProductApi] embeds [create_product] of [productapi.py];
    - [Binary64] embeds [calculate_days_until_stockout] once more, over IEEE
      doubles, with the exceptions Python raises.

    Integers are [Z].  In the pipeline a sales velocity is the quotient of an
    integer total by the window length; it is kept as an exact rational [Q],
    and so is the threshold multiplier: what is proved of the pipeline does
    not depend on how a quotient is rounded.  What does depend on it, the
    number of days predicted for a stock in hand, is proved in [Binary64],
    where the velocity is a double as in Python.  Text is text of the ASCII
    range.  Timestamps are seconds, in [Z].  Database tables are lists of
    records in row order and a query is a filter over them; the Python dict
    of velocities is a [gmap].

    Both modules use names they do not import ([db], the model classes,
    [redis_client], [json], [datetime], [get_current_user]); each is taken to
    be bound to what its use says.  The database is taken to answer every
    read; the exceptions that are modelled are those of the cache client in
    [lowstocklert.py] and those [productapi.py] handles by name. *)

From Stdlib Require Import ZArith QArith Qround Bool List String Ascii Lia.
From Stdlib Require Import SpecFloat.
From Stdlib Require Import Sorting.Sorted Sorting.Permutation.
From stdpp Require Import gmap.
Import ListNotations.

Local Open Scope Z_scope.

(** ** Python primitives shared by both modules *)

Module Py.

(** [int(x)] on a number: truncation toward zero. *)
Definition int_of_Q (q : Q) : Z := Z.quot (Qnum q) (Zpos (Qden q)).

(** [x / y], true division of an integer by a number, as an exact quotient;
    [Binary64.truediv] is the division Python performs on doubles. *)
Definition truediv (x : Z) (y : Q) : Q := (inject_Z x / y)%Q.

(** [l[:n]]: a negative bound counts from the end of the list. *)
Definition slice_to {A : Type} (n : Z) (l : list A) : list A :=
  if 0 <=? n then firstn (Z.to_nat n) l
  else firstn (Z.to_nat (Z.of_nat (List.length l) + n)) l.

(** Truthiness of an optional integer: [None] and [0] are falsy. *)
Definition truthy_int (o : option Z) : bool :=
  match o with
  | Some n => negb (n =? 0)
  | None => false
  end.

(** [round(x, 2)] on an exact number: nearest multiple of 1/100, a tie going
    to the even one. *)
Definition round2 (x : Q) : Q :=
  let scaled := (x * 100)%Q in
  let lo := Qfloor scaled in
  let frac := (scaled - inject_Z lo)%Q in
  let n :=
    match (frac ?= 1 # 2)%Q with
    | Lt => lo
    | Gt => lo + 1
    | Eq => if Z.even lo then lo else lo + 1
    end in
  (inject_Z n / 100)%Q.

(** [str.isspace] on a character of the ASCII range. *)
Definition isspace (c : ascii) : bool :=
  let n := N_of_ascii c in
  (((9 <=? n) && (n <=? 13)) || ((28 <=? n) && (n <=? 32)))%N.

(** [str.upper] on a character of the ASCII range. *)
Definition upper_char (c : ascii) : ascii :=
  let n := N_of_ascii c in
  if ((97 <=? n) && (n <=? 122))%N then ascii_of_N (n - 32) else c.

Fixpoint upper (s : string) : string :=
  match s with
  | EmptyString => EmptyString
  | String c s' => String (upper_char c) (upper s')
  end.

Fixpoint lstrip (s : string) : string :=
  match s with
  | EmptyString => EmptyString
  | String c s' => if isspace c then lstrip s' else s
  end.

Fixpoint rstrip (s : string) : string :=
  match s with
  | EmptyString => EmptyString
  | String c s' =>
      match rstrip s' with
      | EmptyString => if isspace c then EmptyString else String c EmptyString
      | r => String c r
      end
  end.

(** [s.strip()]. *)
Definition strip (s : string) : string := rstrip (lstrip s).

End Py.

(** ** lowstocklert.py *)

Module LowStockAlert.

(** *** Helper functions *)

Definition calculate_days_until_stockout
    (current_stock : Z) (avg_daily_sales : option Q) : option Z :=
  match avg_daily_sales with
  | None => None
  | Some avg =>
      if Qle_bool avg 0 then None
      else if current_stock <=? 0 then Some 0
      else
        let days := Py.truediv current_stock avg in
        Some (Py.int_of_Q days)
  end.

Inductive Urgency : Set := critical | high | medium | low.

Definition calculate_urgency
    (days_until_stockout : option Z) (current_stock : Z) : Urgency :=
  if current_stock <=? 0 then critical
  else
    match days_until_stockout with
    | None => low
    | Some days =>
        if days <=? 3 then critical
        else if days <=? 7 then high
        else if days <=? 14 then medium
        else low
    end.

(** The dict returned by [get_preferred_supplier]. *)
Record SupplierInfo : Type := mkSupplierInfo {
  si_id : Z;
  si_name : string;
  si_contact_email : string;
  si_contact_phone : string;
  si_lead_time_days : option Z;
  si_minimum_order_quantity : option Z;
  si_cost_price : option Q
}.

Definition calculate_reorder_quantity
    (threshold current_stock : Z) (supplier_info : option SupplierInfo) : Z :=
  let target_stock := threshold * 2 in
  let needed := target_stock - current_stock in
  let needed :=
    match supplier_info with
    | Some info =>
        if Py.truthy_int (si_minimum_order_quantity info) then
          match si_minimum_order_quantity info with
          | Some moq => if needed <? moq then moq else needed
          | None => needed
          end
        else needed
    | None => needed
    end in
  Z.max 10 (((needed + 9) / 10) * 10).

(** *** Tables read by the endpoint

    Only the columns the module touches are kept. *)

Record Organization : Type := mkOrganization {
  org_id : Z;
  org_is_active : bool
}.

Record Product : Type := mkProduct {
  prod_id : Z;
  prod_organization_id : Z;
  prod_name : string;
  prod_sku : string;
  prod_category : option string;
  prod_low_stock_threshold : Z;
  prod_is_deleted : bool
}.

Record Warehouse : Type := mkWarehouse {
  wh_id : Z;
  wh_name : string;
  wh_is_active : bool
}.

Record Inventory : Type := mkInventory {
  inv_product_id : Z;
  inv_warehouse_id : Z;
  inv_quantity_available : Z;
  inv_last_counted_at : option Z
}.

Record SalesOrder : Type := mkSalesOrder {
  so_id : Z;
  so_organization_id : Z;
  so_order_date : Z;
  so_status : string
}.

Record SalesOrderItem : Type := mkSalesOrderItem {
  soi_order_id : Z;
  soi_product_id : Z;
  soi_quantity : Z;
  soi_warehouse_id : Z
}.

Record Supplier : Type := mkSupplier {
  sup_id : Z;
  sup_name : string;
  sup_contact_email : string;
  sup_contact_phone : string;
  sup_is_active : bool
}.

Record ProductSupplier : Type := mkProductSupplier {
  ps_product_id : Z;
  ps_supplier_id : Z;
  ps_is_preferred : bool;
  ps_lead_time_days : option Z;
  ps_minimum_order_quantity : option Z;
  ps_cost_price : option Q
}.

Record Database : Type := mkDatabase {
  organizations : list Organization;
  products : list Product;
  warehouses : list Warehouse;
  inventory : list Inventory;
  sales_orders : list SalesOrder;
  sales_order_items : list SalesOrderItem;
  suppliers : list Supplier;
  product_suppliers : list ProductSupplier
}.

(** [Organization.query.get(id)]. *)
Definition Organization_get (d : Database) (id : Z) : option Organization :=
  find (fun o => org_id o =? id) (organizations d).

(** [ProductSupplier.query.filter_by(...).join(Supplier).filter(
    Supplier.is_active == True)], as the joined pairs in table order. *)
Definition active_supplier_relations
    (d : Database) (product_id : Z) (only_preferred : bool)
    : list (ProductSupplier * Supplier) :=
  flat_map
    (fun ps =>
       if (ps_product_id ps =? product_id)
          && (if only_preferred then ps_is_preferred ps else true)
       then
         map (fun s => (ps, s))
             (List.filter (fun s => (sup_id s =? ps_supplier_id ps) && sup_is_active s)
                     (suppliers d))
       else [])
    (product_suppliers d).

Definition get_preferred_supplier
    (d : Database) (product_id : Z) : option SupplierInfo :=
  let supplier_relation := head (active_supplier_relations d product_id true) in
  let supplier_relation :=
    match supplier_relation with
    | Some r => Some r
    | None => head (active_supplier_relations d product_id false)
    end in
  match supplier_relation with
  | None => None
  | Some (relation, supplier) =>
      Some {| si_id := sup_id supplier;
              si_name := sup_name supplier;
              si_contact_email := sup_contact_email supplier;
              si_contact_phone := sup_contact_phone supplier;
              si_lead_time_days := ps_lead_time_days relation;
              si_minimum_order_quantity := ps_minimum_order_quantity relation;
              si_cost_price :=
                match ps_cost_price relation with
                | Some c => if Qeq_bool c 0 then None else Some c
                | None => None
                end |}
  end.

Definition seconds_per_day : Z := 86400.

Definition confirmed_statuses : list string :=
  ["completed"; "shipped"; "delivered"]%string.

(** The grouped query of [get_recent_sales_data]: the quantity of every item
    of a confirmed order of the organization inside the window, summed per
    (product, warehouse). *)
Definition recent_sales_totals
    (d : Database) (cutoff_date organization_id : Z) : gmap (Z * Z) Z :=
  fold_right
    (fun item totals =>
       let k := (soi_product_id item, soi_warehouse_id item) in
       fold_right
         (fun order totals =>
            if (soi_order_id item =? so_id order)
               && (so_organization_id order =? organization_id)
               && (cutoff_date <=? so_order_date order)
               && existsb (String.eqb (so_status order)) confirmed_statuses
            then <[k := default 0 (totals !! k) + soi_quantity item]> totals
            else totals)
         totals (sales_orders d))
    ∅ (sales_order_items d).

(** [total_quantity / days] is kept as the exact quotient; the endpoint calls
    the function with [days = 30], the only call there is. *)
Definition get_recent_sales_data
    (d : Database) (utcnow organization_id days : Z) : gmap (Z * Z) Q :=
  let cutoff_date := utcnow - days * seconds_per_day in
  (fun total_quantity => (inject_Z total_quantity / inject_Z days)%Q)
    <$> recent_sales_totals d cutoff_date organization_id.

(** *** The endpoint's data *)

(** A row of the low-stock query. *)
Record StockRow : Type := mkStockRow {
  row_product_id : Z;
  row_product_name : string;
  row_sku : string;
  row_low_stock_threshold : Z;
  row_category : option string;
  row_warehouse_id : Z;
  row_warehouse_name : string;
  row_current_stock : Z;
  row_last_counted_at : option Z
}.

Record Alert : Type := mkAlert {
  product_id : Z;
  product_name : string;
  sku : string;
  category : option string;
  warehouse_id : Z;
  warehouse_name : string;
  current_stock : Z;
  threshold : Z;
  days_until_stockout : option Z;
  avg_daily_sales : option Q;
  last_counted_at : option Z;
  supplier : option SupplierInfo;
  urgency : Urgency;
  recommended_reorder_quantity : Z
}.

Record Parameters : Type := mkParameters {
  par_organization_id : Z;
  par_warehouse_id : option Z;
  par_threshold_multiplier : Q;
  par_include_no_sales : bool;
  par_sales_period_days : Z
}.

(** The response envelope; this is the value serialised into the cache. *)
Record Envelope : Type := mkEnvelope {
  alerts : list Alert;
  total_alerts : Z;
  generated_at : Z;
  parameters : Parameters
}.

(** The parsed query string together with the path parameter.  The
    multiplier is a number: a NaN, which [float] also parses, is not
    represented. *)
Record Request : Type := mkRequest {
  req_company_id : Z;
  req_warehouse_id : option Z;
  req_threshold_multiplier : Q;
  req_include_no_sales : bool;
  req_limit : Z
}.

(** The same request with another [limit]. *)
Definition with_limit (req : Request) (limit : Z) : Request :=
  {| req_company_id := req_company_id req;
     req_warehouse_id := req_warehouse_id req;
     req_threshold_multiplier := req_threshold_multiplier req;
     req_include_no_sales := req_include_no_sales req;
     req_limit := limit |}.

Record User : Type := mkUser {
  user_id : Z;
  user_organizations : list Z
}.

Definition has_access_to_organization (u : User) (organization_id : Z) : bool :=
  existsb (Z.eqb organization_id) (user_organizations u).

(** *** The cache client

    The key is the f-string
    [low_stock_alerts:{company_id}:{warehouse_id}:{threshold_multiplier}:{include_no_sales}];
    it is kept as the tuple of the four values it prints, and two keys are the
    same string when the four values are equal. *)
Record CacheKey : Type := mkCacheKey {
  key_company_id : Z;
  key_warehouse_id : option Z;
  key_threshold_multiplier : Q;
  key_include_no_sales : bool
}.

Definition option_Z_eqb (a b : option Z) : bool :=
  match a, b with
  | Some x, Some y => x =? y
  | None, None => true
  | _, _ => false
  end.

Definition cache_key_eqb (a b : CacheKey) : bool :=
  (key_company_id a =? key_company_id b)
  && option_Z_eqb (key_warehouse_id a) (key_warehouse_id b)
  && Qeq_bool (key_threshold_multiplier a) (key_threshold_multiplier b)
  && Bool.eqb (key_include_no_sales a) (key_include_no_sales b).

Record CacheEntry : Type := mkCacheEntry {
  entry_key : CacheKey;
  entry_expires_at : Z;
  entry_value : Envelope
}.

(** The store with its entries, and whether the client currently raises on a
    read or on a write. *)
Record Redis : Type := mkRedis {
  entries : list CacheEntry;
  read_fails : bool;
  write_fails : bool
}.

Inductive Exception : Set :=
| RedisConnectionError.

Inductive result (A : Type) : Type :=
| Return (a : A)
| Raise (e : Exception).

Arguments Return {A} a.
Arguments Raise {A} e.

(** [redis_client.get(key)]: the live entry under the key, if any. *)
Definition redis_get (r : Redis) (utcnow : Z) (key : CacheKey)
    : result (option Envelope) :=
  if read_fails r then Raise RedisConnectionError
  else
    Return
      (option_map entry_value
         (find (fun e => cache_key_eqb (entry_key e) key
                         && (utcnow <? entry_expires_at e))
               (entries r))).

(** [redis_client.setex(key, ttl, value)]: replaces the entry under the key. *)
Definition redis_setex (r : Redis) (utcnow : Z) (key : CacheKey) (ttl : Z)
    (value : Envelope) : result Redis :=
  if write_fails r then Raise RedisConnectionError
  else
    Return
      {| entries :=
           {| entry_key := key;
              entry_expires_at := utcnow + ttl;
              entry_value := value |}
           :: List.filter (fun e => negb (cache_key_eqb (entry_key e) key)) (entries r);
         read_fails := read_fails r;
         write_fails := write_fails r |}.

(** Everything outside the function that a call reads. *)
Record World : Type := mkWorld {
  db : Database;
  redis_client : Redis;
  utcnow : Z;
  current_user : option User;
  next_request_id : string
}.

(** The world as the next call finds it: the cache left by a call, at a
    later time. *)
Definition later (w : World) (r : Redis) (t : Z) : World :=
  {| db := db w;
     redis_client := r;
     utcnow := t;
     current_user := current_user w;
     next_request_id := next_request_id w |}.

Definition with_redis (w : World) (r : Redis) : World := later w r (utcnow w).

(** *** Responses *)

Inductive Body : Type :=
| ErrorBody (error : string)
| InternalErrorBody (error message request_id : string)
| AlertsBody (envelope : Envelope).

Definition Response : Type := Body * Z.

Definition status (r : Response) : Z := snd r.

Definition internal_error (w : World) : Response :=
  (InternalErrorBody "An error occurred while generating alerts"
                     "Please try again or contact support"
                     (next_request_id w), 500).

(** *** The low-stock query *)

(** Inventory joined with its product and its warehouse, restricted to the
    organization, to live products and active warehouses, and to
    [quantity_available < low_stock_threshold * threshold_multiplier]. *)
Definition low_stock_base_query
    (d : Database) (company_id : Z) (threshold_multiplier : Q) : list StockRow :=
  flat_map
    (fun inv =>
       flat_map
         (fun p =>
            if inv_product_id inv =? prod_id p then
              flat_map
                (fun wh =>
                   if (inv_warehouse_id inv =? wh_id wh)
                      && (prod_organization_id p =? company_id)
                      && negb (prod_is_deleted p)
                      && wh_is_active wh
                      && negb (Qle_bool
                                 (inject_Z (prod_low_stock_threshold p)
                                  * threshold_multiplier)
                                 (inject_Z (inv_quantity_available inv)))
                   then
                     [{| row_product_id := prod_id p;
                         row_product_name := prod_name p;
                         row_sku := prod_sku p;
                         row_low_stock_threshold := prod_low_stock_threshold p;
                         row_category := prod_category p;
                         row_warehouse_id := inv_warehouse_id inv;
                         row_warehouse_name := wh_name wh;
                         row_current_stock := inv_quantity_available inv;
                         row_last_counted_at := inv_last_counted_at inv |}]
                   else [])
                (warehouses d)
            else [])
         (products d))
    (inventory d).

(** The optional warehouse filter is added when [warehouse_id] is truthy. *)
Definition low_stock_query
    (d : Database) (company_id : Z) (warehouse_id : option Z)
    (threshold_multiplier : Q) : list StockRow :=
  let query := low_stock_base_query d company_id threshold_multiplier in
  if Py.truthy_int warehouse_id then
    List.filter (fun row => option_Z_eqb (Some (row_warehouse_id row)) warehouse_id)
           query
  else query.

(** *** Building and ordering the alerts *)

(** One turn of the loop over the query rows: [None] when the row is skipped
    by [continue]. *)
Definition build_alert
    (d : Database) (sales_data : gmap (Z * Z) Q) (include_no_sales : bool)
    (item : StockRow) : option Alert :=
  let product_id := row_product_id item in
  let warehouse_id := row_warehouse_id item in
  let avg_daily_sales := default 0%Q (sales_data !! (product_id, warehouse_id)) in
  if negb include_no_sales && Qeq_bool avg_daily_sales 0 then None
  else
    let days_until_stockout :=
      calculate_days_until_stockout (row_current_stock item)
                                    (Some avg_daily_sales) in
    let supplier_info := get_preferred_supplier d product_id in
    Some
      {| product_id := row_product_id item;
         product_name := row_product_name item;
         sku := row_sku item;
         category := row_category item;
         warehouse_id := row_warehouse_id item;
         warehouse_name := row_warehouse_name item;
         current_stock := row_current_stock item;
         threshold := row_low_stock_threshold item;
         days_until_stockout := days_until_stockout;
         avg_daily_sales :=
           if negb (Qle_bool avg_daily_sales 0)
           then Some (Py.round2 avg_daily_sales) else None;
         last_counted_at := row_last_counted_at item;
         supplier := supplier_info;
         urgency := calculate_urgency days_until_stockout (row_current_stock item);
         recommended_reorder_quantity :=
           calculate_reorder_quantity (row_low_stock_threshold item)
                                      (row_current_stock item) supplier_info |}.

(** The whole loop.  Its state is the list of alerts and the local variable
    [warehouse_id], which every turn overwrites with the row's warehouse. *)
Definition build_alerts
    (d : Database) (sales_data : gmap (Z * Z) Q) (include_no_sales : bool)
    (warehouse_id : option Z) (low_stock_items : list StockRow)
    : list Alert * option Z :=
  fold_left
    (fun st item =>
       (match build_alert d sales_data include_no_sales item with
        | Some alert => fst st ++ [alert]
        | None => fst st
        end,
        Some (row_warehouse_id item)))
    low_stock_items ([], warehouse_id).

(** The key of [alerts.sort]. *)
Definition sort_key (x : Alert) : Z * Z :=
  (match days_until_stockout x with
   | Some days => days
   | None => 999
   end,
   current_stock x).

(** [<] on a pair of integers, as Python compares tuples. *)
Definition tuple_ltb (a b : Z * Z) : bool :=
  (fst a <? fst b) || ((fst a =? fst b) && (snd a <? snd b)).

(** [list.sort(key=...)] is a stable sort that compares keys with [<] only;
    there is one stable ordering of a list, computed here by insertion. *)
Fixpoint sort_insert {A : Type} (key : A -> Z * Z) (x : A) (l : list A) : list A :=
  match l with
  | [] => [x]
  | y :: l' =>
      if tuple_ltb (key y) (key x) then y :: sort_insert key x l'
      else x :: y :: l'
  end.

Definition list_sort {A : Type} (key : A -> Z * Z) (l : list A) : list A :=
  fold_right (sort_insert key) [] l.

(** [a] may stand before [b]: the key of [b] is not below the key of [a]. *)
Definition in_order {A : Type} (key : A -> Z * Z) (a b : A) : Prop :=
  tuple_ltb (key b) (key a) = false.

(** *** The endpoint *)

Definition cache_ttl : Z := 300.

Definition make_cache_key (req : Request) : CacheKey :=
  {| key_company_id := req_company_id req;
     key_warehouse_id := req_warehouse_id req;
     key_threshold_multiplier := req_threshold_multiplier req;
     key_include_no_sales := req_include_no_sales req |}.

(** Steps 4 to 11: what a request computes when the cache does not answer. *)
Definition compute_response (w : World) (req : Request) : Envelope :=
  let company_id := req_company_id req in
  let sales_data := get_recent_sales_data (db w) (utcnow w) company_id 30 in
  let low_stock_items :=
    low_stock_query (db w) company_id (req_warehouse_id req)
                    (req_threshold_multiplier req) in
  let '(alerts, warehouse_id) :=
    build_alerts (db w) sales_data (req_include_no_sales req)
                 (req_warehouse_id req) low_stock_items in
  let alerts := list_sort sort_key alerts in
  let alerts := Py.slice_to (req_limit req) alerts in
  {| alerts := alerts;
     total_alerts := Z.of_nat (List.length alerts);
     generated_at := utcnow w;
     parameters :=
       {| par_organization_id := company_id;
          par_warehouse_id := warehouse_id;
          par_threshold_multiplier := req_threshold_multiplier req;
          par_include_no_sales := req_include_no_sales req;
          par_sales_period_days := 30 |} |}.

(** Steps 3 and 12 around them: answer from the cache, or compute, store and
    answer. *)
Definition cache_step (w : World) (req : Request) : result (Response * Redis) :=
  let cache_key := make_cache_key req in
  match redis_get (redis_client w) (utcnow w) cache_key with
  | Raise e => Raise e
  | Return (Some cached_result) =>
      Return ((AlertsBody cached_result, 200), redis_client w)
  | Return None =>
      let response := compute_response w req in
      match redis_setex (redis_client w) (utcnow w) cache_key
                        cache_ttl response with
      | Raise e => Raise e
      | Return redis' => Return ((AlertsBody response, 200), redis')
      end
  end.

(** The body of the [try] block: the response and the cache it leaves, or the
    exception that escaped. *)
Definition try_get_low_stock_alerts (w : World) (req : Request)
    : result (Response * Redis) :=
  let unchanged (r : Response) := Return (r, redis_client w) in
  match current_user w with
  | None => unchanged (ErrorBody "Unauthorized", 401)
  | Some user =>
      if negb (has_access_to_organization user (req_company_id req)) then
        unchanged (ErrorBody "Access denied", 403)
      else if Qle_bool (req_threshold_multiplier req) 0 then
        unchanged (ErrorBody "threshold_multiplier must be positive", 400)
      else if req_limit req >? 1000 then
        unchanged (ErrorBody "limit cannot exceed 1000", 400)
      else
        match Organization_get (db w) (req_company_id req) with
        | None => unchanged (ErrorBody "Organization not found", 404)
        | Some organization =>
            if negb (org_is_active organization) then
              unchanged (ErrorBody "Organization not found", 404)
            else cache_step w req
        end
  end.

(** [except Exception]: whatever escapes becomes the generic 500 response. *)
Definition get_low_stock_alerts (w : World) (req : Request) : Response * Redis :=
  match try_get_low_stock_alerts w req with
  | Return out => out
  | Raise _ => (internal_error w, redis_client w)
  end.

End LowStockAlert.

(** ** productapi.py *)

Module ProductApi.

(** A value of the request's JSON object.  Numbers with a fraction are kept
    exact; arrays and nested objects do not occur in the fields read here. *)
Inductive json : Type :=
| JNull
| JBool (b : bool)
| JInt (n : Z)
| JFloat (q : Q)
| JStr (s : string).

(** The parsed body, a dict. *)
Definition JsonObject : Type := list (string * json).

Fixpoint dict_get (data : JsonObject) (field : string) : option json :=
  match data with
  | [] => None
  | (k, v) :: rest => if String.eqb k field then Some v else dict_get rest field
  end.

Definition dict_in (field : string) (data : JsonObject) : bool :=
  match dict_get data field with
  | Some _ => true
  | None => false
  end.

Record Product : Type := mkProduct {
  prod_id : Z;
  prod_name : string;
  prod_sku : string;
  prod_price : Q;
  prod_created_by : Z;
  prod_created_at : Z
}.

Record Inventory : Type := mkInventory {
  inv_product_id : Z;
  inv_warehouse_id : Z;
  inv_quantity : Z;
  inv_created_by : Z;
  inv_created_at : Z;
  inv_updated_by : option Z;
  inv_updated_at : option Z
}.

Record Warehouse : Type := mkWarehouse {
  wh_id : Z
}.

(** The tables, the product id sequence, and the one fact of the schema that
    the module depends on but does not declare: whether the [sku] column
    carries a unique constraint. *)
Record Database : Type := mkDatabase {
  products : list Product;
  inventory : list Inventory;
  warehouses : list Warehouse;
  next_product_id : Z;
  sku_unique : bool
}.

Record User : Type := mkUser {
  user_id : Z;
  user_warehouses : list Z
}.

Definition has_access_to_warehouse (u : User) (warehouse_id : Z) : bool :=
  existsb (Z.eqb warehouse_id) (user_warehouses u).

Record World : Type := mkWorld {
  db : Database;
  utcnow : Z;
  get_current_user : option User
}.

(** The [product] object of the 201 response. *)
Record CreatedProduct : Type := mkCreatedProduct {
  cp_id : Z;
  cp_name : string;
  cp_sku : string;
  cp_price : Q;
  cp_warehouse_id : json;
  cp_initial_quantity : Z
}.

Inductive Body : Type :=
| ErrorBody (error : string)
| MissingFieldsBody (error : string) (missing_fields : list string)
| SkuExistsBody (error : string) (existing_product_id : Z)
| ConstraintBody (error : string)
| ErrorMessageBody (error message : string)
| CreatedBody (message : string) (product : CreatedProduct).

Definition Response : Type := Body * Z.

Definition status (r : Response) : Z := snd r.

Definition required_fields : list string :=
  ["name"; "sku"; "price"; "warehouse_id"; "initial_quantity"]%string.

(** [Warehouse.query.get(data['warehouse_id'])]: an integer key finds the row
    with that id.  For a key that is not an integer the answer is the
    database's; it is taken to find no row. *)
Definition Warehouse_get (d : Database) (key : json) : option Warehouse :=
  match key with
  | JInt n => find (fun w => wh_id w =? n) (warehouses d)
  | _ => None
  end.

(** [Product.query.filter_by(sku=value).first()]: the column is compared
    with the text as given.  For a value that is not text the comparison is
    the database's; it is taken to find no row. *)
Definition Product_first_by_sku (d : Database) (value : json) : option Product :=
  match value with
  | JStr s => find (fun p => String.eqb (prod_sku p) s) (products d)
  | _ => None
  end.

Definition Inventory_first (d : Database) (product_id warehouse_id : Z)
    : option Inventory :=
  find (fun i => (inv_product_id i =? product_id)
                 && (inv_warehouse_id i =? warehouse_id))
       (inventory d).

Inductive Exception : Set :=
| AttributeError
| IntegrityError
| SQLAlchemyError.

Inductive result (A : Type) : Type :=
| Return (a : A)
| Raise (e : Exception).

Arguments Return {A} a.
Arguments Raise {A} e.

(** [value.strip()]: only a string has the method. *)
Definition json_strip (value : json) : result string :=
  match value with
  | JStr s => Return (Py.strip s)
  | _ => Raise AttributeError
  end.

(** [db.session.add(product); db.session.flush()]: the row takes the next id
    of the sequence; a unique [sku] column refuses a value already stored. *)
Definition add_product
    (d : Database) (name sku : string) (price : Q) (created_by created_at : Z)
    : result (Product * Database) :=
  if sku_unique d && existsb (fun p => String.eqb (prod_sku p) sku) (products d)
  then Raise IntegrityError
  else
    let product :=
      {| prod_id := next_product_id d;
         prod_name := name;
         prod_sku := sku;
         prod_price := price;
         prod_created_by := created_by;
         prod_created_at := created_at |} in
    Return (product,
            {| products := products d ++ [product];
               inventory := inventory d;
               warehouses := warehouses d;
               next_product_id := next_product_id d + 1;
               sku_unique := sku_unique d |}).

(** [existing_inventory.quantity += initial_quantity] on the first row of
    (product, warehouse). *)
Fixpoint update_first_inventory
    (l : list Inventory) (product_id warehouse_id initial_quantity user now : Z)
    : list Inventory :=
  match l with
  | [] => []
  | i :: l' =>
      if (inv_product_id i =? product_id) && (inv_warehouse_id i =? warehouse_id)
      then
        {| inv_product_id := inv_product_id i;
           inv_warehouse_id := inv_warehouse_id i;
           inv_quantity := inv_quantity i + initial_quantity;
           inv_created_by := inv_created_by i;
           inv_created_at := inv_created_at i;
           inv_updated_by := Some user;
           inv_updated_at := Some now |} :: l'
      else
        i :: update_first_inventory l' product_id warehouse_id
                                    initial_quantity user now
  end.

(** The inventory step: add to the row of (product, warehouse) when there is
    one, insert a new row otherwise. *)
Definition upsert_inventory
    (d : Database) (product_id warehouse_id initial_quantity user now : Z)
    : Database :=
  let inventory' :=
    match Inventory_first d product_id warehouse_id with
    | Some _ =>
        update_first_inventory (inventory d) product_id warehouse_id
                               initial_quantity user now
    | None =>
        inventory d ++
        [{| inv_product_id := product_id;
            inv_warehouse_id := warehouse_id;
            inv_quantity := initial_quantity;
            inv_created_by := user;
            inv_created_at := now;
            inv_updated_by := None;
            inv_updated_at := None |}]
    end in
  {| products := products d;
     inventory := inventory';
     warehouses := warehouses d;
     next_product_id := next_product_id d;
     sku_unique := sku_unique d |}.

Section Parsers.

(** The two parsers of text that Python supplies: [Decimal(s)] and [int(s)],
    [None] standing for the exception each raises on text it rejects. *)
Variable Decimal_of_string : string -> option Q.
Variable int_of_string : string -> option Z.

(** [Decimal(str(value))]. *)
Definition parse_price (value : json) : option Q :=
  match value with
  | JInt n => Some (inject_Z n)
  | JFloat q => Some q
  | JStr s => Decimal_of_string s
  | JBool _ | JNull => None
  end.

(** [int(value)]. *)
Definition parse_quantity (value : json) : option Z :=
  match value with
  | JInt n => Some n
  | JFloat q => Some (Py.int_of_Q q)
  | JBool b => Some (if b then 1 else 0)
  | JStr s => int_of_string s
  | JNull => None
  end.

(** The inner [try]: the transaction, from building the product to the
    commit. *)
Definition create_transaction
    (w : World) (current_user : User) (name_field sku_field warehouse_field : json)
    (warehouse : Warehouse) (price : Q) (initial_quantity : Z)
    : result (Response * Database) :=
  match json_strip name_field with
  | Raise e => Raise e
  | Return name =>
      match json_strip sku_field with
      | Raise e => Raise e
      | Return stripped =>
          let sku := Py.upper stripped in
          match add_product (db w) name sku price (user_id current_user)
                            (utcnow w) with
          | Raise e => Raise e
          | Return (product, d1) =>
              let d2 :=
                upsert_inventory d1 (prod_id product) (wh_id warehouse)
                                 initial_quantity (user_id current_user)
                                 (utcnow w) in
              Return
                ((CreatedBody "Product created successfully"
                    {| cp_id := prod_id product;
                       cp_name := prod_name product;
                       cp_sku := prod_sku product;
                       cp_price := prod_price product;
                       cp_warehouse_id := warehouse_field;
                       cp_initial_quantity := initial_quantity |},
                  201), d2)
          end
      end
  end.

(** The decorated view function: the response and the database it leaves. *)
Definition create_product (w : World) (data : JsonObject) : Response * Database :=
  let unchanged (r : Response) := (r, db w) in
  match get_current_user w with
  | None => unchanged (ErrorBody "Unauthorized", 401)
  | Some current_user =>
      let missing_fields :=
        List.filter (fun field => negb (dict_in field data)) required_fields in
      match missing_fields,
            dict_get data "name", dict_get data "sku", dict_get data "price",
            dict_get data "warehouse_id", dict_get data "initial_quantity" with
      | [], Some name_field, Some sku_field, Some price_field,
        Some warehouse_field, Some quantity_field =>
          match parse_price price_field with
          | None => unchanged (ErrorBody "Invalid price format", 400)
          | Some price =>
              if negb (Qle_bool 0 price) then
                unchanged (ErrorBody "Price cannot be negative", 400)
              else
                match parse_quantity quantity_field with
                | None => unchanged (ErrorBody "Invalid quantity format", 400)
                | Some initial_quantity =>
                    if initial_quantity <? 0 then
                      unchanged (ErrorBody "Initial quantity cannot be negative", 400)
                    else
                      match Warehouse_get (db w) warehouse_field with
                      | None => unchanged (ErrorBody "Warehouse not found", 404)
                      | Some warehouse =>
                          if negb (has_access_to_warehouse current_user
                                                           (wh_id warehouse))
                          then unchanged (ErrorBody "Access denied to this warehouse", 403)
                          else
                            match Product_first_by_sku (db w) sku_field with
                            | Some existing_product =>
                                unchanged (SkuExistsBody "SKU already exists"
                                             (prod_id existing_product), 409)
                            | None =>
                                match create_transaction w current_user name_field
                                        sku_field warehouse_field warehouse price
                                        initial_quantity with
                                | Return out => out
                                | Raise IntegrityError =>
                                    unchanged (ConstraintBody
                                                 "Database constraint violation", 409)
                                | Raise SQLAlchemyError =>
                                    unchanged (ErrorMessageBody
                                                 "Database error occurred"
                                                 "Please try again or contact support",
                                               500)
                                | Raise AttributeError =>
                                    unchanged (ErrorMessageBody
                                                 "An unexpected error occurred"
                                                 "Please contact support", 500)
                                end
                            end
                      end
                end
          end
      | _, _, _, _, _, _ =>
          unchanged (MissingFieldsBody "Missing required fields" missing_fields, 400)
      end
  end.

End Parsers.

End ProductApi.

(** ** The stockout prediction over IEEE doubles

    [calculate_days_until_stockout] divides an integer by a float and
    truncates the quotient.  Here the velocity is a binary64 number, in the
    standard library's specification of IEEE 754 arithmetic (53 bits of
    precision, round to nearest even), and the three Python operations the
    function uses raise what Python raises. *)

Module Binary64.

Definition prec : Z := 53.
Definition emax : Z := 1024.

Definition float : Type := spec_float.

Definition zero : float := S754_zero false.

Inductive Exception : Set :=
| OverflowError
| ValueError
| ZeroDivisionError.

Inductive result (A : Type) : Type :=
| Return (a : A)
| Raise (e : Exception).

Arguments Return {A} a.
Arguments Raise {A} e.

(** [x <= y] and [x < y]; both are false when an operand is NaN. *)
Definition leb (x y : float) : bool := SFleb x y.
Definition ltb (x y : float) : bool := SFltb x y.

(** [float(n)]: the nearest double; an integer beyond the range is refused. *)
Definition of_int (n : Z) : result float :=
  match binary_normalize prec emax n 0 false with
  | S754_infinity _ => Raise OverflowError
  | x => Return x
  end.

(** [x / y] on floats. *)
Definition div (x y : float) : result float :=
  match y with
  | S754_zero _ => Raise ZeroDivisionError
  | _ => Return (SFdiv prec emax x y)
  end.

(** [n / y] with an integer on the left: the integer is converted first. *)
Definition truediv (n : Z) (y : float) : result float :=
  match of_int n with
  | Raise e => Raise e
  | Return x => div x y
  end.

(** [int(x)]: truncation toward zero; infinities and NaN are refused. *)
Definition int (x : float) : result Z :=
  match x with
  | S754_zero _ => Return 0
  | S754_finite s m e =>
      Return (cond_Zopp s (if 0 <=? e then Zpos m * 2 ^ e
                           else Zpos m / 2 ^ (- e)))
  | S754_infinity _ => Raise OverflowError
  | S754_nan => Raise ValueError
  end.

(** The number a finite double stands for. *)
Definition value (x : float) : Q :=
  match x with
  | S754_finite s m e =>
      if 0 <=? e then inject_Z (cond_Zopp s (Zpos m * 2 ^ e))
      else Qmake (cond_Zopp s (Zpos m)) (Z.to_pos (2 ^ (- e)))
  | _ => 0%Q
  end.

Definition is_finite (x : float) : bool :=
  match x with
  | S754_zero _ | S754_finite _ _ _ => true
  | _ => false
  end.

(** The quotient [n / d] of two integers as Python computes it, for integers
    that doubles hold exactly. *)
Definition ratio (n d : Z) : float :=
  SFdiv prec emax (binary_normalize prec emax n 0 false)
                  (binary_normalize prec emax d 0 false).

Definition calculate_days_until_stockout
    (current_stock : Z) (avg_daily_sales : option float) : result (option Z) :=
  match avg_daily_sales with
  | None => Return None
  | Some avg =>
      if leb avg zero then Return None
      else if current_stock <=? 0 then Return (Some 0)
      else
        match truediv current_stock avg with
        | Raise e => Raise e
        | Return days =>
            match int days with
            | Raise e => Raise e
            | Return n => Return (Some n)
            end
        end
  end.

(** The smallest positive double, 2^-1074. *)
Definition tiny : float := S754_finite false 1 (-1074).

End Binary64.

(** ** The design document's own wording

    Two definitions written from the prose of the design document, against
    which the code above is compared. *)

Module Spec.

(** "Round needed up to the next multiple of 10". *)
Definition round_up_to_multiple_of_10 (n : Z) : Z :=
  if n mod 10 =? 0 then n else n + (10 - n mod 10).

(** The reorder recommendation: target of twice the threshold, the shortfall
    floored at 0, raised to a known minimum order quantity that exceeds it,
    rounded up to a multiple of 10 with a floor of 10. *)
Definition recommend
    (threshold current_stock : Z)
    (supplier : option LowStockAlert.SupplierInfo) : Z :=
  let target := 2 * threshold in
  let needed := Z.max 0 (target - current_stock) in
  let needed :=
    match supplier with
    | Some info =>
        match LowStockAlert.si_minimum_order_quantity info with
        | Some minimum => if needed <? minimum then minimum else needed
        | None => needed
        end
    | None => needed
    end in
  Z.max 10 (round_up_to_multiple_of_10 needed).

(** Days to stockout as a sort key: an absent prediction is +infinity. *)
Inductive Days : Set :=
| Finite (d : Z)
| Infinite.

Definition days_key (days_until_stockout : option Z) : Days :=
  match days_until_stockout with
  | Some d => Finite d
  | None => Infinite
  end.

Definition days_leb (a b : Days) : bool :=
  match a, b with
  | Finite x, Finite y => x <=? y
  | _, Infinite => true
  | Infinite, Finite _ => false
  end.

Definition days_eqb (a b : Days) : bool :=
  match a, b with
  | Finite x, Finite y => x =? y
  | Infinite, Infinite => true
  | _, _ => false
  end.

(** The pair (days to stockout, current stock) of an alert, and the
    lexicographic order on such pairs. *)
Definition sort_pair (x : LowStockAlert.Alert) : Days * Z :=
  (days_key (LowStockAlert.days_until_stockout x), LowStockAlert.current_stock x).

Definition pair_leb (a b : Days * Z) : bool :=
  if days_eqb (fst a) (fst b) then snd a <=? snd b
  else days_leb (fst a) (fst b).

(** "If A's pair is at most B's, A appears no later than B": no alert is
    followed, anywhere later in the list, by one with a strictly smaller
    pair. *)
Definition ranked (l : list LowStockAlert.Alert) : Prop :=
  forall (i j : nat) (a b : LowStockAlert.Alert),
    nth_error l i = Some a -> nth_error l j = Some b -> (i < j)%nat ->
    pair_leb (sort_pair a) (sort_pair b) = true.


(** The conditions under which a request gets past the early returns and
    reaches the cache lookup. *)
Definition authorised (w : LowStockAlert.World) (req : LowStockAlert.Request) : Prop :=
  exists user,
    LowStockAlert.current_user w = Some user /\
    LowStockAlert.has_access_to_organization
      user (LowStockAlert.req_company_id req) = true.

Definition valid_parameters (req : LowStockAlert.Request) : Prop :=
  (0 < LowStockAlert.req_threshold_multiplier req)%Q /\
  LowStockAlert.req_limit req <= 1000.

Definition organization_active
    (w : LowStockAlert.World) (req : LowStockAlert.Request) : Prop :=
  exists organization,
    LowStockAlert.Organization_get
      (LowStockAlert.db w) (LowStockAlert.req_company_id req) = Some organization /\
    LowStockAlert.org_is_active organization = true.

End Spec.

(** ** Concrete worlds *)

Module Scenarios.

Import LowStockAlert.

Definition today : Z := 100 * seconds_per_day.

(** Organization 42 with one warehouse (7) and two products below their
    threshold of 50: a slow mover (34 in stock, one unit sold in the window)
    and one with no sales at all (40 in stock). *)
Definition slow_mover_db : Database :=
  {| organizations := [ {| org_id := 42; org_is_active := true |} ];
     products :=
       [ {| prod_id := 1; prod_organization_id := 42; prod_name := "Widget";
            prod_sku := "WID-1"; prod_category := None;
            prod_low_stock_threshold := 50; prod_is_deleted := false |};
         {| prod_id := 2; prod_organization_id := 42; prod_name := "Gadget";
            prod_sku := "GAD-1"; prod_category := None;
            prod_low_stock_threshold := 50; prod_is_deleted := false |} ];
     warehouses := [ {| wh_id := 7; wh_name := "Main"; wh_is_active := true |} ];
     inventory :=
       [ {| inv_product_id := 1; inv_warehouse_id := 7;
            inv_quantity_available := 34; inv_last_counted_at := None |};
         {| inv_product_id := 2; inv_warehouse_id := 7;
            inv_quantity_available := 40; inv_last_counted_at := None |} ];
     sales_orders :=
       [ {| so_id := 1; so_organization_id := 42;
            so_order_date := today - seconds_per_day;
            so_status := "completed" |} ];
     sales_order_items :=
       [ {| soi_order_id := 1; soi_product_id := 1; soi_quantity := 1;
            soi_warehouse_id := 7 |} ];
     suppliers := [];
     product_suppliers := [] |}.

Definition empty_redis : Redis :=
  {| entries := []; read_fails := false; write_fails := false |}.

Definition slow_mover_world : World :=
  {| db := slow_mover_db;
     redis_client := empty_redis;
     utcnow := today;
     current_user := Some {| user_id := 1; user_organizations := [42] |};
     next_request_id := "00000000-0000-4000-8000-000000000000" |}.

(** All low-stock rows of organization 42, products without sales included. *)
Definition all_rows (limit : Z) : Request :=
  {| req_company_id := 42;
     req_warehouse_id := None;
     req_threshold_multiplier := 1;
     req_include_no_sales := true;
     req_limit := limit |}.

(** The design document's end-to-end scenario: product WID-1, threshold 20,
    5 in stock in warehouse 7, 90 units sold in the window. *)
Definition widget_db : Database :=
  {| organizations := [ {| org_id := 42; org_is_active := true |} ];
     products :=
       [ {| prod_id := 1; prod_organization_id := 42; prod_name := "Widget";
            prod_sku := "WID-1"; prod_category := None;
            prod_low_stock_threshold := 20; prod_is_deleted := false |} ];
     warehouses := [ {| wh_id := 7; wh_name := "Main"; wh_is_active := true |} ];
     inventory :=
       [ {| inv_product_id := 1; inv_warehouse_id := 7;
            inv_quantity_available := 5; inv_last_counted_at := None |} ];
     sales_orders :=
       [ {| so_id := 1; so_organization_id := 42;
            so_order_date := today - seconds_per_day;
            so_status := "shipped" |} ];
     sales_order_items :=
       [ {| soi_order_id := 1; soi_product_id := 1; soi_quantity := 90;
            soi_warehouse_id := 7 |} ];
     suppliers := [];
     product_suppliers := [] |}.

Definition widget_world : World :=
  {| db := widget_db;
     redis_client := empty_redis;
     utcnow := today;
     current_user := Some {| user_id := 1; user_organizations := [42] |};
     next_request_id := "00000000-0000-4000-8000-000000000000" |}.

(** The same product sold out, with no order in the window. *)
Definition sold_out_db : Database :=
  {| organizations := organizations widget_db;
     products := products widget_db;
     warehouses := warehouses widget_db;
     inventory :=
       [ {| inv_product_id := 1; inv_warehouse_id := 7;
            inv_quantity_available := 0; inv_last_counted_at := None |} ];
     sales_orders := [];
     sales_order_items := [];
     suppliers := [];
     product_suppliers := [] |}.

Definition sold_out_world : World :=
  {| db := sold_out_db;
     redis_client := empty_redis;
     utcnow := today;
     current_user := Some {| user_id := 1; user_organizations := [42] |};
     next_request_id := "00000000-0000-4000-8000-000000000000" |}.

Definition default_request : Request :=
  {| req_company_id := 42;
     req_warehouse_id := None;
     req_threshold_multiplier := 1;
     req_include_no_sales := false;
     req_limit := 100 |}.

(** A cache client whose reads raise, and one whose writes raise. *)
Definition unreadable_redis : Redis :=
  {| entries := []; read_fails := true; write_fails := false |}.

Definition unwritable_redis : Redis :=
  {| entries := []; read_fails := false; write_fails := true |}.

(** The filter names warehouse 99; the only warehouse is 7. *)
Definition unknown_warehouse : Request :=
  {| req_company_id := 42;
     req_warehouse_id := Some 99;
     req_threshold_multiplier := 1;
     req_include_no_sales := true;
     req_limit := 100 |}.

(** The request of [all_rows] with another multiplier and limit. *)
Definition tuned (threshold_multiplier : Q) (limit : Z) : Request :=
  {| req_company_id := 42;
     req_warehouse_id := None;
     req_threshold_multiplier := threshold_multiplier;
     req_include_no_sales := true;
     req_limit := limit |}.

(** What a test reads off a response: per alert, the product, the predicted
    days, the stock, the tier and the recommended quantity. *)
Definition summary (r : Response) : option (list (Z * option Z * Z * Urgency * Z)) :=
  match fst r with
  | AlertsBody e =>
      Some (map (fun a => (product_id a, days_until_stockout a, current_stock a,
                           urgency a, recommended_reorder_quantity a))
                (alerts e))
  | _ => None
  end.

End Scenarios.

Module ProductScenarios.

Import ProductApi.

(** One product with SKU ABC, one warehouse, no unique constraint on the SKU
    column. *)
Definition catalogue : Database :=
  {| products :=
       [ {| prod_id := 1; prod_name := "Widget"; prod_sku := "ABC";
            prod_price := 10; prod_created_by := 1; prod_created_at := 0 |} ];
     inventory :=
       [ {| inv_product_id := 1; inv_warehouse_id := 7; inv_quantity := 3;
            inv_created_by := 1; inv_created_at := 0;
            inv_updated_by := None; inv_updated_at := None |} ];
     warehouses := [ {| wh_id := 7 |} ];
     next_product_id := 2;
     sku_unique := false |}.

Definition constrained (d : Database) : Database :=
  {| products := products d;
     inventory := inventory d;
     warehouses := warehouses d;
     next_product_id := next_product_id d;
     sku_unique := true |}.

Definition shop (d : Database) : World :=
  {| db := d;
     utcnow := 1000;
     get_current_user := Some {| user_id := 1; user_warehouses := [7] |} |}.

(** A well-formed creation request with the given SKU text. *)
Definition new_product (sku : string) : JsonObject :=
  [ ("name", JStr "Widget again"); ("sku", JStr sku); ("price", JInt 12);
    ("warehouse_id", JInt 7); ("initial_quantity", JInt 5) ]%string.

End ProductScenarios.

(** ** Notions used to state properties of the code *)

Module Notions.

Import LowStockAlert.

(** The tiers as an ordinal: the larger, the more urgent. *)
Definition urgency_rank (u : Urgency) : Z :=
  match u with
  | critical => 3
  | high => 2
  | medium => 1
  | low => 0
  end.

(** The minimum order quantity a supplier dict carries, 0 when there is no
    supplier or no minimum. *)
Definition known_minimum (supplier_info : option SupplierInfo) : Z :=
  match supplier_info with
  | Some info => default 0 (si_minimum_order_quantity info)
  | None => 0
  end.

(** [<=] on a pair of integers, lexicographic. *)
Definition tuple_leb (a b : Z * Z) : bool :=
  (fst a <? fst b) || ((fst a =? fst b) && (snd a <=? snd b)).

(** The rows that the grouped sales query sums for one (product, warehouse):
    the quantity of each item of that pair, once per order it joins with
    that belongs to the organization, is dated inside the window and has a
    confirmed status. *)
Definition qualifying_quantities
    (d : Database) (cutoff_date organization_id : Z) (k : Z * Z) : list Z :=
  flat_map
    (fun item =>
       flat_map
         (fun order =>
            if (soi_order_id item =? so_id order)
               && (so_organization_id order =? organization_id)
               && (cutoff_date <=? so_order_date order)
               && existsb (String.eqb (so_status order)) confirmed_statuses
               && (soi_product_id item =? fst k)
               && (soi_warehouse_id item =? snd k)
            then [soi_quantity item]
            else [])
         (sales_orders d))
    (sales_order_items d).

Definition sum (l : list Z) : Z := fold_right Z.add 0 l.

(** The total of a group of the query: no row, no group. *)
Definition total_of (l : list Z) : option Z :=
  match l with
  | [] => None
  | _ => Some (sum l)
  end.

(** A supplier relation of the product whose supplier is active. *)
Definition active_relation
    (d : Database) (product_id : Z) (ps : ProductSupplier) (s : Supplier) : Prop :=
  In ps (product_suppliers d) /\ In s (suppliers d) /\
  ps_product_id ps = product_id /\
  sup_id s = ps_supplier_id ps /\ sup_is_active s = true.

(** The alert describes a stock row of the organization that the query
    selects: an inventory row of a live product of the organization in an
    active warehouse, with the stock below the scaled threshold. *)
Definition alert_of_low_stock
    (d : Database) (company_id : Z) (threshold_multiplier : Q) (a : Alert) : Prop :=
  exists inv p wh,
    In inv (inventory d) /\ In p (products d) /\ In wh (warehouses d) /\
    inv_product_id inv = prod_id p /\ inv_warehouse_id inv = wh_id wh /\
    product_id a = prod_id p /\ warehouse_id a = wh_id wh /\
    current_stock a = inv_quantity_available inv /\
    threshold a = prod_low_stock_threshold p /\
    prod_organization_id p = company_id /\
    prod_is_deleted p = false /\ wh_is_active wh = true /\
    (inject_Z (current_stock a) < inject_Z (threshold a) * threshold_multiplier)%Q.

(** What every alert satisfies by the way it is built. *)
Definition alert_consistent (a : Alert) : Prop :=
  (days_until_stockout a = None <-> avg_daily_sales a = None) /\
  (forall d, days_until_stockout a = Some d -> 0 <= d) /\
  (current_stock a <= 0 -> urgency a = critical) /\
  (0 < current_stock a -> days_until_stockout a = None -> urgency a = low) /\
  10 <= recommended_reorder_quantity a /\
  recommended_reorder_quantity a mod 10 = 0 /\
  2 * threshold a <= current_stock a + recommended_reorder_quantity a.

(** The same request with another warehouse filter. *)
Definition with_warehouse (req : Request) (warehouse_id : option Z) : Request :=
  {| req_company_id := req_company_id req;
     req_warehouse_id := warehouse_id;
     req_threshold_multiplier := req_threshold_multiplier req;
     req_include_no_sales := req_include_no_sales req;
     req_limit := req_limit req |}.

End Notions.

(** ** More concrete worlds *)

Module Fixtures.

Import LowStockAlert.

(** Product 1 has three supplier relations, in this order: a preferred one
    with an inactive supplier, a plain one with an active supplier, and a
    preferred one with an active supplier. *)
Definition supplier_db : Database :=
  {| organizations := organizations Scenarios.slow_mover_db;
     products := products Scenarios.slow_mover_db;
     warehouses :=
       [ {| wh_id := 7; wh_name := "Main"; wh_is_active := true |};
         {| wh_id := 8; wh_name := "Annex"; wh_is_active := true |} ];
     inventory :=
       [ {| inv_product_id := 1; inv_warehouse_id := 7;
            inv_quantity_available := 34; inv_last_counted_at := None |};
         {| inv_product_id := 2; inv_warehouse_id := 8;
            inv_quantity_available := 40; inv_last_counted_at := None |};
         {| inv_product_id := 1; inv_warehouse_id := 8;
            inv_quantity_available := 2; inv_last_counted_at := None |} ];
     sales_orders :=
       [ {| so_id := 1; so_organization_id := 42;
            so_order_date := Scenarios.today - seconds_per_day;
            so_status := "completed" |};
         {| so_id := 2; so_organization_id := 42;
            so_order_date := Scenarios.today - 31 * seconds_per_day;
            so_status := "completed" |};
         {| so_id := 3; so_organization_id := 42;
            so_order_date := Scenarios.today - seconds_per_day;
            so_status := "cancelled" |} ];
     sales_order_items :=
       [ {| soi_order_id := 1; soi_product_id := 1; soi_quantity := 60;
            soi_warehouse_id := 7 |};
         {| soi_order_id := 1; soi_product_id := 1; soi_quantity := 30;
            soi_warehouse_id := 7 |};
         {| soi_order_id := 2; soi_product_id := 1; soi_quantity := 500;
            soi_warehouse_id := 7 |};
         {| soi_order_id := 3; soi_product_id := 1; soi_quantity := 700;
            soi_warehouse_id := 7 |} ];
     suppliers :=
       [ {| sup_id := 1; sup_name := "Acme"; sup_contact_email := "a@acme.test";
            sup_contact_phone := "1"; sup_is_active := true |};
         {| sup_id := 2; sup_name := "Bolt"; sup_contact_email := "b@bolt.test";
            sup_contact_phone := "2"; sup_is_active := false |};
         {| sup_id := 3; sup_name := "Core"; sup_contact_email := "c@core.test";
            sup_contact_phone := "3"; sup_is_active := true |} ];
     product_suppliers :=
       [ {| ps_product_id := 1; ps_supplier_id := 2; ps_is_preferred := true;
            ps_lead_time_days := Some 2; ps_minimum_order_quantity := Some 5;
            ps_cost_price := Some (3 # 1) |};
         {| ps_product_id := 1; ps_supplier_id := 3; ps_is_preferred := false;
            ps_lead_time_days := Some 9; ps_minimum_order_quantity := Some 25;
            ps_cost_price := Some 0%Q |};
         {| ps_product_id := 1; ps_supplier_id := 1; ps_is_preferred := true;
            ps_lead_time_days := Some 4; ps_minimum_order_quantity := Some 120;
            ps_cost_price := Some (5 # 2) |} ] |}.

Definition supplier_world : World :=
  {| db := supplier_db;
     redis_client := Scenarios.empty_redis;
     utcnow := Scenarios.today;
     current_user := Some {| user_id := 1; user_organizations := [42] |};
     next_request_id := "00000000-0000-4000-8000-000000000000" |}.

End Fixtures.

(** ** Notions used to state properties of product creation *)

Module ProductNotions.

Import ProductApi.

(** The request gets past every check that precedes the SKU pre-check: a
    caller, the five fields, a price and a quantity that parse and are not
    negative, a warehouse that exists and that the caller may use. *)
Definition passes_validation
    (Decimal_of_string : string -> option Q)
    (int_of_string : string -> option Z)
    (w : World) (data : JsonObject) (user : User)
    (name_field sku_field warehouse_field : json)
    (price : Q) (initial_quantity : Z) (warehouse : Warehouse) : Prop :=
  get_current_user w = Some user /\
  dict_get data "name" = Some name_field /\
  dict_get data "sku" = Some sku_field /\
  (exists price_field,
      dict_get data "price" = Some price_field /\
      parse_price Decimal_of_string price_field = Some price) /\
  (0 <= price)%Q /\
  dict_get data "warehouse_id" = Some warehouse_field /\
  (exists quantity_field,
      dict_get data "initial_quantity" = Some quantity_field /\
      parse_quantity int_of_string quantity_field = Some initial_quantity) /\
  0 <= initial_quantity /\
  Warehouse_get (db w) warehouse_field = Some warehouse /\
  has_access_to_warehouse user (wh_id warehouse) = true.

(** The SKU text in normal form: stripped, then upper-cased. *)
Definition normalise (sku : string) : string := Py.upper (Py.strip sku).

(** Text of the ASCII range: every character is below 128.  On such text
    Python's [str.strip] and [str.upper], which work on Unicode code points,
    are the functions [Py.strip] and [Py.upper]. *)
Definition is_ascii_char (c : ascii) : bool := (N_of_ascii c <? 128)%N.

Fixpoint is_ascii (s : string) : bool :=
  match s with
  | EmptyString => true
  | String c s' => is_ascii_char c && is_ascii s'
  end.

End ProductNotions.

(** * Properties of lowstocklert.py *)

Module LowStockAlertFacts.

Import LowStockAlert.

(** ** Stockout prediction *)

Lemma Qle_bool_false (x y : Q) : Qle_bool x y = false <-> (y < x)%Q.
Proof.
  split.
  - intros H. apply Qnot_le_lt. intros Hle.
    apply Qle_bool_iff in Hle. congruence.
  - intros H. destruct (Qle_bool x y) eqn:E; [|reflexivity].
    apply Qle_bool_iff in E. exfalso. exact (Qlt_not_le _ _ H E).
Qed.

(** Truncation and floor agree on a number that is not negative. *)
Lemma int_of_Q_nonneg (q : Q) : (0 <= q)%Q -> Py.int_of_Q q = Qfloor q.
Proof.
  destruct q as [n d]. unfold Qle, Py.int_of_Q, Qfloor. simpl. intros H.
  apply Z.quot_div_nonneg; lia.
Qed.

Lemma truediv_pos (x : Z) (y : Q) : 0 < x -> (0 < y)%Q -> (0 < Py.truediv x y)%Q.
Proof.
  intros Hx Hy. unfold Py.truediv.
  apply Qlt_shift_div_l; [exact Hy|].
  rewrite Qmult_0_l. unfold Qlt. simpl. lia.
Qed.

(** Velocity absent or not positive: no prediction, whatever the stock. *)
Lemma days_none_without_velocity (current_stock : Z) (avg : option Q) :
  (avg = None \/ exists a, avg = Some a /\ (a <= 0)%Q) ->
  calculate_days_until_stockout current_stock avg = None.
Proof.
  intros [-> | [a [-> Ha]]]; [reflexivity|].
  unfold calculate_days_until_stockout.
  apply Qle_bool_iff in Ha. now rewrite Ha.
Qed.

Lemma days_zero_when_out_of_stock (current_stock : Z) (a : Q) :
  current_stock <= 0 -> (0 < a)%Q ->
  calculate_days_until_stockout current_stock (Some a) = Some 0.
Proof.
  intros Hs Ha. unfold calculate_days_until_stockout.
  apply Qle_bool_false in Ha. rewrite Ha.
  destruct (Z.leb_spec current_stock 0); [reflexivity | lia].
Qed.

(** C1, as stated, fails: with no stock and no sales data the function
    answers [None], not [0]; the velocity guard comes first. *)
Lemma no_stock_no_sales_gives_none :
  calculate_days_until_stockout 0 None = None /\
  calculate_days_until_stockout 0 (Some 0%Q) = None /\
  Scenarios.summary
    (fst (get_low_stock_alerts Scenarios.sold_out_world (Scenarios.all_rows 100)))
    = Some [(1, None, 0, critical, 40)] /\
  ~ (forall (current_stock : Z) (avg : option Q),
        current_stock <= 0 ->
        calculate_days_until_stockout current_stock avg = Some 0).
Proof.
  split; [reflexivity|]. split; [reflexivity|].
  split; [vm_compute; reflexivity|].
  intros H. specialize (H 0 None ltac:(lia)). discriminate H.
Qed.

(** C1, amended: with [current_stock <= 0] the function returns [0] exactly
    when a positive velocity is given; with the velocity absent or not
    positive it returns [None]. *)
Theorem days_until_stockout_out_of_stock (current_stock : Z) (avg : option Q) :
  current_stock <= 0 ->
  (forall a, avg = Some a -> (0 < a)%Q ->
     calculate_days_until_stockout current_stock avg = Some 0) /\
  ((avg = None \/ exists a, avg = Some a /\ (a <= 0)%Q) ->
     calculate_days_until_stockout current_stock avg = None).
Proof.
  intros Hs. split.
  - intros a -> Ha. now apply days_zero_when_out_of_stock.
  - apply days_none_without_velocity.
Qed.

Lemma days_until_stockout_out_of_stock_witness :
  calculate_days_until_stockout (-2) (Some (3 # 2)) = Some 0.
Proof.
  assert (Hs : -2 <= 0) by lia.
  exact (proj1 (days_until_stockout_out_of_stock (-2) (Some (3 # 2)) Hs)
               (3 # 2)%Q eq_refl eq_refl).
Defined.

(** *** The prediction over doubles *)

Lemma shr_1_nonneg (mrs : shr_record) : 0 <= shr_m mrs -> 0 <= shr_m (shr_1 mrs).
Proof.
  destruct mrs as [m r s]. simpl.
  destruct m as [| [p | p |] | [p | p |]]; simpl; lia.
Qed.

Lemma iter_pos_invariant {A : Type} (P : A -> Prop) (f : A -> A) :
  (forall x, P x -> P (f x)) ->
  forall (n : positive) (x : A), P x -> P (SpecFloat.iter_pos f n x).
Proof.
  intros Hf. induction n as [n IH | n IH |]; intros x Hx; simpl; auto.
Qed.

Lemma shr_fexp_nonneg (m e : Z) (l : location) :
  0 <= m ->
  0 <= shr_m (fst (shr_fexp Binary64.prec Binary64.emax m e l)).
Proof.
  intros Hm. unfold shr_fexp, shr.
  assert (H0 : 0 <= shr_m (shr_record_of_loc m l))
    by (destruct l as [| []]; exact Hm).
  destruct (fexp Binary64.prec Binary64.emax (Zdigits2 m + e) - e) as [| p | p];
    simpl; try exact H0.
  apply (iter_pos_invariant (fun mrs => 0 <= shr_m mrs)); [|exact H0].
  apply shr_1_nonneg.
Qed.

Lemma round_nearest_even_nonneg (m : Z) (l : location) :
  0 <= m -> 0 <= round_nearest_even m l.
Proof.
  intros Hm. destruct l as [| []]; simpl; try lia.
  destruct (Z.even m); lia.
Qed.

(** Rounding a magnitude keeps the sign it is given: the result is a zero, a
    finite number or an infinity of that sign, never NaN. *)
Lemma binary_round_aux_sign (sx : bool) (mx ex : Z) (lx : location) :
  0 <= mx ->
  let x := binary_round_aux Binary64.prec Binary64.emax sx mx ex lx in
  x = S754_zero sx \/ x = S754_infinity sx \/ exists m e, x = S754_finite sx m e.
Proof.
  intros Hm. cbv zeta. unfold binary_round_aux.
  pose proof (shr_fexp_nonneg mx ex lx Hm) as H1.
  destruct (shr_fexp Binary64.prec Binary64.emax mx ex lx) as [mrs' e'].
  simpl in H1.
  pose proof (shr_fexp_nonneg _ e' loc_Exact
                (round_nearest_even_nonneg _ (loc_of_shr_record mrs') H1)) as H2.
  destruct (shr_fexp Binary64.prec Binary64.emax _ e' loc_Exact) as [mrs'' e''].
  simpl in H2.
  destruct (shr_m mrs'') as [| m | m]; [now left | | lia].
  destruct (e'' <=? Binary64.emax - Binary64.prec); eauto.
Qed.

Lemma of_int_positive (n : Z) (x : Binary64.float) :
  0 < n -> Binary64.of_int n = Binary64.Return x ->
  x = S754_zero false \/ exists m e, x = S754_finite false m e.
Proof.
  intros Hn. unfold Binary64.of_int, binary_normalize.
  destruct n as [| p | p]; try lia.
  unfold binary_round.
  destruct (shl_align p 0 _) as [mz ez].
  destruct (binary_round_aux_sign false (Zpos mz) ez loc_Exact ltac:(lia))
    as [-> | [-> | [m [e ->]]]].
  - intros H. injection H as <-. now left.
  - discriminate.
  - intros H. injection H as <-. right. eauto.
Qed.

Lemma of_int_raises (n : Z) (e : Binary64.Exception) :
  Binary64.of_int n = Binary64.Raise e -> e = Binary64.OverflowError.
Proof.
  unfold Binary64.of_int.
  destruct (binary_normalize _ _ n 0 false); try discriminate.
  now intros [= <-].
Qed.

Lemma positive_float (a : Binary64.float) :
  Binary64.ltb Binary64.zero a = true ->
  Binary64.leb a Binary64.zero = false /\
  (a = S754_infinity false \/ exists m e, a = S754_finite false m e).
Proof.
  unfold Binary64.ltb, Binary64.leb, Binary64.zero, SFltb, SFleb.
  destruct a as [s | [] | | [] m e]; simpl; try discriminate; eauto.
Qed.

Lemma SFdiv_positive (mx my : positive) (ex ey : Z) :
  let q := SFdiv Binary64.prec Binary64.emax
                 (S754_finite false mx ex) (S754_finite false my ey) in
  q = S754_zero false \/ q = S754_infinity false \/
  exists m e, q = S754_finite false m e.
Proof.
  cbv zeta. unfold SFdiv, SFdiv_core_binary.
  set (shifted := match _ - _ - _ with
                  | Zpos _ => _ | Z0 => _ | Zneg _ => _ end).
  assert (Hs : 0 <= shifted).
  { subst shifted.
    destruct (ex - ey - _) as [| p | p]; try lia.
    apply Z.shiftl_nonneg. lia. }
  pose proof (Z_div_mod shifted (Zpos my) ltac:(lia)) as Hdm.
  destruct (Z.div_eucl shifted (Zpos my)) as [q r].
  assert (Hq : 0 <= q) by nia.
  exact (binary_round_aux_sign (xorb false false) q _ _ Hq).
Qed.

(** What the quotient of a positive integer by a positive double can be. *)
Lemma truediv_positive (n : Z) (a q : Binary64.float) :
  0 < n -> Binary64.ltb Binary64.zero a = true ->
  Binary64.truediv n a = Binary64.Return q ->
  q = S754_zero false \/ q = S754_infinity false \/
  exists m e, q = S754_finite false m e.
Proof.
  intros Hn Ha. unfold Binary64.truediv.
  destruct (Binary64.of_int n) as [x | e] eqn:Hx; [|discriminate].
  apply of_int_positive in Hx; [|exact Hn].
  destruct (positive_float a Ha) as [_ [-> | [my [ey ->]]]];
    destruct Hx as [-> | [mx [ex ->]]]; unfold Binary64.div;
    intros H; injection H as <-.
  - now left.
  - now left.
  - now left.
  - apply SFdiv_positive.
Qed.

Lemma truediv_raises (n : Z) (a : Binary64.float) (e : Binary64.Exception) :
  Binary64.ltb Binary64.zero a = true ->
  Binary64.truediv n a = Binary64.Raise e -> e = Binary64.OverflowError.
Proof.
  intros Ha. unfold Binary64.truediv.
  destruct (Binary64.of_int n) as [x | e'] eqn:Hx.
  - destruct (positive_float a Ha) as [_ [-> | [my [ey ->]]]]; discriminate.
  - intros [= <-]. exact (of_int_raises n e' Hx).
Qed.

(** On a double that is not negative, [int] is the floor of its value. *)
Lemma int_is_floor (m : positive) (e : Z) :
  Binary64.int (S754_finite false m e)
    = Binary64.Return (Qfloor (Binary64.value (S754_finite false m e))) /\
  0 <= Qfloor (Binary64.value (S754_finite false m e)).
Proof.
  unfold Binary64.int, Binary64.value. simpl cond_Zopp.
  destruct (Z.leb_spec 0 e) as [He | He].
  - rewrite Qfloor_Z. split; [reflexivity|].
    apply Z.mul_nonneg_nonneg; [lia | now apply Z.pow_nonneg].
  - unfold Qfloor.
    assert (Hp : 0 < 2 ^ (- e)) by (apply Z.pow_pos_nonneg; lia).
    rewrite Z2Pos.id by exact Hp. split; [reflexivity|].
    apply Z.div_pos; lia.
Qed.

(** The quotient the function truncates is the rounded one: for a stock of
    3 and the double nearest to 1/10 the exact quotient is just below 30 and
    its floor is 29, where the function returns 30. *)
Example rounded_quotient_is_truncated :
  Binary64.calculate_days_until_stockout 3 (Some (Binary64.ratio 1 10))
    = Binary64.Return (Some 30) /\
  Qfloor (inject_Z 3 / Binary64.value (Binary64.ratio 1 10)) = 29.
Proof. split; vm_compute; reflexivity. Qed.

(** C6, as stated, fails on a velocity so small that the quotient leaves
    the range of doubles: the call raises and returns nothing. *)
Lemma tiny_velocity_overflows :
  Binary64.ltb Binary64.zero Binary64.tiny = true /\
  Binary64.truediv 1 Binary64.tiny = Binary64.Return (S754_infinity false) /\
  Binary64.calculate_days_until_stockout 1 (Some Binary64.tiny)
    = Binary64.Raise Binary64.OverflowError /\
  ~ (forall (current_stock : Z) (a : Binary64.float),
        0 < current_stock -> Binary64.ltb Binary64.zero a = true ->
        exists days,
          Binary64.calculate_days_until_stockout current_stock (Some a)
            = Binary64.Return (Some days)).
Proof.
  split; [reflexivity|]. split; [vm_compute; reflexivity|].
  split; [vm_compute; reflexivity|].
  intros H. destruct (H 1 Binary64.tiny ltac:(lia) eq_refl) as [days Hd].
  vm_compute in Hd. discriminate Hd.
Qed.

(** C6, amended: with stock in hand, a velocity that is absent or not
    positive gives [None]; with a positive velocity the function divides in
    binary64, the quotient is never negative, and when it is finite the
    function returns its floor, which is not negative; when the quotient is
    infinite, or the stock too large to convert, the call raises
    [OverflowError]. *)
Theorem days_until_stockout_binary64
    (current_stock : Z) (avg : option Binary64.float) :
  0 < current_stock ->
  ((avg = None \/
    exists a, avg = Some a /\ Binary64.leb a Binary64.zero = true) ->
   Binary64.calculate_days_until_stockout current_stock avg
     = Binary64.Return None) /\
  (forall a, avg = Some a -> Binary64.ltb Binary64.zero a = true ->
     (forall q, Binary64.truediv current_stock a = Binary64.Return q ->
                Binary64.is_finite q = true ->
                Binary64.calculate_days_until_stockout current_stock avg
                  = Binary64.Return (Some (Qfloor (Binary64.value q))) /\
                0 <= Qfloor (Binary64.value q)) /\
     (forall q, Binary64.truediv current_stock a = Binary64.Return q ->
                Binary64.is_finite q = false ->
                q = S754_infinity false /\
                Binary64.calculate_days_until_stockout current_stock avg
                  = Binary64.Raise Binary64.OverflowError) /\
     (forall e, Binary64.truediv current_stock a = Binary64.Raise e ->
                e = Binary64.OverflowError /\
                Binary64.calculate_days_until_stockout current_stock avg
                  = Binary64.Raise Binary64.OverflowError)).
Proof.
  intros Hs. split.
  - intros [-> | [a [-> Ha]]]; [reflexivity|].
    unfold Binary64.calculate_days_until_stockout. now rewrite Ha.
  - intros a -> Ha.
    destruct (positive_float a Ha) as [Hle _].
    unfold Binary64.calculate_days_until_stockout. rewrite Hle.
    destruct (Z.leb_spec current_stock 0); [lia|].
    split; [|split].
    + intros q Hq Hfin. rewrite Hq.
      destruct (truediv_positive _ _ _ Hs Ha Hq) as [-> | [-> | [m [e ->]]]].
      * split; [reflexivity | vm_compute; discriminate].
      * discriminate Hfin.
      * destruct (int_is_floor m e) as [-> Hnn]. split; [reflexivity | exact Hnn].
    + intros q Hq Hfin. rewrite Hq.
      destruct (truediv_positive _ _ _ Hs Ha Hq) as [-> | [-> | [m [e ->]]]];
        try discriminate Hfin.
      split; reflexivity.
    + intros e He. rewrite He.
      rewrite (truediv_raises _ _ _ Ha He). split; reflexivity.
Qed.

(** Three units at 0.1 a day last 30 days, 23 units at 46/30 a day last 14:
    the floor is that of the rounded quotient. *)
Lemma days_until_stockout_binary64_witness :
  Binary64.calculate_days_until_stockout 3 (Some (Binary64.ratio 1 10))
    = Binary64.Return (Some 30) /\
  Binary64.calculate_days_until_stockout 23 (Some (Binary64.ratio 46 30))
    = Binary64.Return (Some 14) /\
  Binary64.calculate_days_until_stockout 5 None = Binary64.Return None.
Proof.
  assert (H3 : 0 < 3) by lia.
  assert (H23 : 0 < 23) by lia.
  assert (H5 : 0 < 5) by lia.
  refine (conj _ (conj _ _)).
  - exact (proj1 (proj1 (proj2 (days_until_stockout_binary64 3
                                  (Some (Binary64.ratio 1 10)) H3)
                               (Binary64.ratio 1 10) eq_refl eq_refl)
                        (S754_finite false 8444249301319680 (-48))
                        eq_refl eq_refl)).
  - exact (proj1 (proj1 (proj2 (days_until_stockout_binary64 23
                                  (Some (Binary64.ratio 46 30)) H23)
                               (Binary64.ratio 46 30) eq_refl eq_refl)
                        (S754_finite false 8444249301319679 (-49))
                        eq_refl eq_refl)).
  - exact (proj1 (days_until_stockout_binary64 5 None H5) (or_introl eq_refl)).
Defined.

(** ** Urgency *)

(** C5: the classifier is a function into the four tiers with the stated
    cases; each boundary (3, 7, 14) falls in the more urgent tier. *)
Theorem calculate_urgency_tiers (days : option Z) (current_stock : Z) :
  (current_stock <= 0 -> calculate_urgency days current_stock = critical) /\
  (0 < current_stock -> days = None ->
     calculate_urgency days current_stock = low) /\
  (0 < current_stock -> forall d, days = Some d ->
     (d <= 3 -> calculate_urgency days current_stock = critical) /\
     (4 <= d <= 7 -> calculate_urgency days current_stock = high) /\
     (8 <= d <= 14 -> calculate_urgency days current_stock = medium) /\
     (14 < d -> calculate_urgency days current_stock = low)).
Proof.
  unfold calculate_urgency.
  destruct (Z.leb_spec current_stock 0) as [Hs | Hs].
  - repeat split; intros; try reflexivity; lia.
  - split; [lia|]. split; [now intros _ ->|].
    intros _ d ->.
    destruct (Z.leb_spec d 3), (Z.leb_spec d 7), (Z.leb_spec d 14);
      repeat split; intros; try reflexivity; lia.
Qed.

Lemma calculate_urgency_tiers_witness :
  calculate_urgency (Some 50) 0 = critical /\
  calculate_urgency None 4 = low /\
  calculate_urgency (Some 3) 4 = critical /\
  calculate_urgency (Some 7) 4 = high /\
  calculate_urgency (Some 14) 4 = medium /\
  calculate_urgency (Some 15) 4 = low.
Proof.
  assert (Hs : 0 < 4) by lia.
  refine (conj _ (conj _ (conj _ (conj _ (conj _ _))))).
  - apply (proj1 (calculate_urgency_tiers (Some 50) 0)). lia.
  - exact (proj1 (proj2 (calculate_urgency_tiers None 4)) Hs eq_refl).
  - apply (proj2 (proj2 (calculate_urgency_tiers (Some 3) 4)) Hs 3 eq_refl). lia.
  - apply (proj2 (proj2 (calculate_urgency_tiers (Some 7) 4)) Hs 7 eq_refl). lia.
  - apply (proj2 (proj2 (calculate_urgency_tiers (Some 14) 4)) Hs 14 eq_refl). lia.
  - apply (proj2 (proj2 (calculate_urgency_tiers (Some 15) 4)) Hs 15 eq_refl). lia.
Defined.

(** ** Reorder quantity *)

Lemma round_up_code (n : Z) :
  (n + 9) / 10 * 10 = Spec.round_up_to_multiple_of_10 n.
Proof.
  unfold Spec.round_up_to_multiple_of_10.
  destruct (Z.eqb_spec (n mod 10) 0); Z.div_mod_to_equations; lia.
Qed.

Lemma round_up_floor (n : Z) :
  n <= 0 -> Z.max 10 (Spec.round_up_to_multiple_of_10 n) = 10.
Proof.
  intros Hn. rewrite <- round_up_code. Z.div_mod_to_equations. lia.
Qed.

(** Flooring the shortfall at 0 first does not change the result. *)
Lemma floor_at_zero_irrelevant (n : Z) :
  Z.max 10 (Spec.round_up_to_multiple_of_10 (Z.max 0 n))
  = Z.max 10 (Spec.round_up_to_multiple_of_10 n).
Proof.
  destruct (Z.le_gt_cases n 0) as [Hle | Hgt].
  - rewrite (Z.max_l 0 n) by lia. now rewrite !round_up_floor by lia.
  - now rewrite (Z.max_r 0 n) by lia.
Qed.

Lemma round_up_multiple (n : Z) :
  exists k, 0 < k /\ Z.max 10 (Spec.round_up_to_multiple_of_10 n) = 10 * k.
Proof.
  rewrite <- round_up_code.
  set (q := (n + 9) / 10).
  exists (Z.max 1 q). lia.
Qed.

(** C4: the function computes the documented recommendation, and the result
    is a positive multiple of 10, at least 10. *)
Theorem calculate_reorder_quantity_recommend
    (threshold current_stock : Z) (supplier_info : option SupplierInfo) :
  let quantity := calculate_reorder_quantity threshold current_stock supplier_info in
  quantity = Spec.recommend threshold current_stock supplier_info /\
  10 <= quantity /\
  exists k, 0 < k /\ quantity = 10 * k.
Proof.
  cbv zeta.
  assert (E : calculate_reorder_quantity threshold current_stock supplier_info
              = Spec.recommend threshold current_stock supplier_info).
  { unfold calculate_reorder_quantity, Spec.recommend.
    rewrite round_up_code.
    set (shortfall := threshold * 2 - current_stock).
    replace (2 * threshold - current_stock) with shortfall by (subst shortfall; lia).
    destruct supplier_info as [info|];
      [destruct (si_minimum_order_quantity info) as [moq|]; simpl|].
    - destruct (Z.eqb_spec moq 0) as [-> | Hmoq]; simpl.
      + destruct (Z.ltb_spec (Z.max 0 shortfall) 0); [lia|].
        symmetry. apply floor_at_zero_irrelevant.
      + destruct (Z.ltb_spec shortfall moq), (Z.ltb_spec (Z.max 0 shortfall) moq);
          try reflexivity; try lia.
        * rewrite !round_up_floor by lia. reflexivity.
        * symmetry. apply floor_at_zero_irrelevant.
    - symmetry. apply floor_at_zero_irrelevant.
    - symmetry. apply floor_at_zero_irrelevant. }
  split; [exact E|]. rewrite E. unfold Spec.recommend.
  split; [lia | apply round_up_multiple].
Qed.

(** ** Ordering of the alerts *)

Section Sorting.

Context {A : Type} (key : A -> Z * Z).

Lemma tuple_ltb_lt (a b : Z * Z) :
  tuple_ltb a b = true <->
  fst a < fst b \/ (fst a = fst b /\ snd a < snd b).
Proof.
  unfold tuple_ltb.
  rewrite orb_true_iff, andb_true_iff, !Z.ltb_lt, Z.eqb_eq. reflexivity.
Qed.

Lemma tuple_ltb_ge (a b : Z * Z) :
  tuple_ltb a b = false <->
  fst b < fst a \/ (fst a = fst b /\ snd b <= snd a).
Proof.
  destruct (tuple_ltb a b) eqn:E.
  - apply tuple_ltb_lt in E. split; [discriminate | lia].
  - split; [intros _ | reflexivity].
    destruct (Z.lt_trichotomy (fst a) (fst b)) as [H | [H | H]].
    + assert (tuple_ltb a b = true) by (apply tuple_ltb_lt; lia). congruence.
    + destruct (Z.lt_ge_cases (snd a) (snd b)); [|lia].
      assert (tuple_ltb a b = true) by (apply tuple_ltb_lt; lia). congruence.
    + lia.
Qed.

Lemma sort_insert_Forall (P : A -> Prop) (x : A) (l : list A) :
  P x -> Forall P l -> Forall P (sort_insert key x l).
Proof.
  intros Hx Hl. induction Hl as [| y l' Hy Hl' IH]; simpl.
  - constructor; [exact Hx | constructor].
  - destruct (tuple_ltb (key y) (key x)); repeat constructor; assumption.
Qed.

Lemma sort_insert_sorted (x : A) (l : list A) :
  StronglySorted (in_order key) l -> StronglySorted (in_order key) (sort_insert key x l).
Proof.
  induction 1 as [| y l' Hs IH Hy]; simpl.
  - repeat constructor.
  - destruct (tuple_ltb (key y) (key x)) eqn:E.
    + constructor; [exact IH|].
      apply sort_insert_Forall; [|exact Hy].
      unfold in_order. apply tuple_ltb_lt in E. apply tuple_ltb_ge. lia.
    + constructor; [constructor; assumption|].
      constructor; [exact E|].
      eapply List.Forall_impl; [|exact Hy].
      unfold in_order. intros z Hz.
      apply tuple_ltb_ge in E, Hz. apply tuple_ltb_ge. lia.
Qed.

Lemma list_sort_sorted (l : list A) : StronglySorted (in_order key) (list_sort key l).
Proof.
  induction l as [| x l IH]; simpl; [constructor|].
  now apply sort_insert_sorted.
Qed.

Lemma sort_insert_perm (x : A) (l : list A) :
  Permutation (x :: l) (sort_insert key x l).
Proof.
  induction l as [| y l IH]; simpl; [reflexivity|].
  destruct (tuple_ltb (key y) (key x)); [|reflexivity].
  rewrite perm_swap. now constructor.
Qed.

Lemma list_sort_perm (l : list A) : Permutation l (list_sort key l).
Proof.
  induction l as [| x l IH]; simpl; [reflexivity|].
  rewrite <- sort_insert_perm. now constructor.
Qed.

Lemma firstn_sorted (n : nat) (l : list A) :
  StronglySorted (in_order key) l -> StronglySorted (in_order key) (firstn n l).
Proof.
  intros H. revert n. induction H as [| x l Hs IH Hx]; intros [| n]; simpl;
    try constructor.
  - apply IH.
  - clear -Hx. revert n. induction Hx; intros [| n]; simpl; constructor; auto.
Qed.

Lemma slice_to_sorted (n : Z) (l : list A) :
  StronglySorted (in_order key) l -> StronglySorted (in_order key) (Py.slice_to n l).
Proof.
  intros H. unfold Py.slice_to.
  destruct (0 <=? n); now apply firstn_sorted.
Qed.

(** In a sorted list, what stands earlier is in order with what stands later. *)
Lemma sorted_nth (l : list A) :
  StronglySorted (in_order key) l ->
  forall (i j : nat) (a b : A),
    nth_error l i = Some a -> nth_error l j = Some b -> (i < j)%nat ->
    in_order key a b.
Proof.
  induction 1 as [| x l Hs IH Hx]; intros i j a b Hi Hj Hij.
  - destruct i; discriminate.
  - destruct j as [| j]; [lia|]. simpl in Hj.
    destruct i as [| i]; simpl in Hi.
    + injection Hi as <-.
      rewrite List.Forall_forall in Hx. apply Hx. eapply nth_error_In; eassumption.
    + eapply IH; eauto. lia.
Qed.

End Sorting.

(** The alerts of a computed response are in the order of the code's key. *)
Lemma compute_response_sorted (w : World) (req : Request) :
  StronglySorted (LowStockAlert.in_order sort_key) (alerts (compute_response w req)).
Proof.
  unfold compute_response.
  destruct (build_alerts _ _ _ _ _) as [built warehouse_id]. simpl.
  apply slice_to_sorted, list_sort_sorted.
Qed.

(** Where every prediction present is below the sentinel 999, the code's
    order is the documented one. *)
Lemma in_order_ranked_below_sentinel (a b : Alert) :
  (forall d, days_until_stockout a = Some d -> d < 999) ->
  (forall d, days_until_stockout b = Some d -> d < 999) ->
  LowStockAlert.in_order sort_key a b ->
  Spec.pair_leb (Spec.sort_pair a) (Spec.sort_pair b) = true.
Proof.
  unfold in_order, sort_key, Spec.pair_leb, Spec.sort_pair. intros Ha Hb H.
  apply tuple_ltb_ge in H. simpl in *.
  destruct (days_until_stockout a) as [da|], (days_until_stockout b) as [db|];
    simpl; try reflexivity.
  - destruct (Z.eqb_spec da db); [apply Z.leb_le | apply Z.leb_le]; lia.
  - specialize (Hb db eq_refl). lia.
  - apply Z.leb_le. lia.
Qed.

Lemma compute_response_ranked_below_sentinel (w : World) (req : Request) :
  (forall a d, In a (alerts (compute_response w req)) ->
               days_until_stockout a = Some d -> d < 999) ->
  Spec.ranked (alerts (compute_response w req)).
Proof.
  intros Hbelow i j a b Hi Hj Hij.
  apply in_order_ranked_below_sentinel.
  - intros d. eapply Hbelow, nth_error_In, Hi.
  - intros d. eapply Hbelow, nth_error_In, Hj.
  - eapply sorted_nth; eauto using compute_response_sorted.
Qed.

(** C2: the slow mover (1020 days of stock) is ranked after the product with
    no prediction, whose key is the sentinel 999 and not +infinity; the
    response is not in the documented order. *)
Theorem sentinel_outranks_slow_mover :
  let response :=
    fst (get_low_stock_alerts Scenarios.slow_mover_world (Scenarios.all_rows 100)) in
  Scenarios.summary response
    = Some [(2, None, 40, low, 60); (1, Some 1020, 34, low, 70)] /\
  exists e a b,
    response = (AlertsBody e, 200) /\
    nth_error (alerts e) 0 = Some b /\ nth_error (alerts e) 1 = Some a /\
    Spec.pair_leb (Spec.sort_pair a) (Spec.sort_pair b) = true /\
    Spec.pair_leb (Spec.sort_pair b) (Spec.sort_pair a) = false /\
    ~ Spec.ranked (alerts e).
Proof.
  cbv zeta. split; [vm_compute; reflexivity|].
  eexists. eexists. eexists.
  split; [vm_compute; reflexivity|].
  split; [reflexivity|]. split; [reflexivity|].
  split; [reflexivity|]. split; [reflexivity|].
  intros H.
  specialize (H 0%nat 1%nat _ _ eq_refl eq_refl ltac:(lia)).
  vm_compute in H. discriminate H.
Qed.

(** ** The endpoint: early returns, cache, catch-all handler *)

(** The documented end-to-end scenario runs as documented: one alert, one day
    to stockout, critical, 40 units to reorder; the envelope is stored for
    300 seconds under the key of the request. *)
Example documented_scenario :
  let out := get_low_stock_alerts Scenarios.widget_world Scenarios.default_request in
  status (fst out) = 200 /\
  Scenarios.summary (fst out) = Some [(1, Some 1, 5, critical, 40)] /\
  map (fun e => (entry_key e, entry_expires_at e)) (entries (snd out))
    = [(make_cache_key Scenarios.default_request, Scenarios.today + 300)].
Proof. cbv zeta. repeat split; vm_compute; reflexivity. Qed.

Lemma checks_passed (w : World) (req : Request) :
  Spec.authorised w req -> Spec.valid_parameters req ->
  Spec.organization_active w req ->
  try_get_low_stock_alerts w req = cache_step w req.
Proof.
  intros [user [Hu Hacc]] [Hm Hl] [org [Ho Hact]].
  unfold try_get_low_stock_alerts, cache_step.
  rewrite Hu, Hacc. simpl.
  rewrite (proj2 (Qle_bool_false _ _) Hm).
  destruct (Z.gtb_spec (req_limit req) 1000); [lia|].
  rewrite Ho, Hact. reflexivity.
Qed.

Lemma organization_missing (w : World) (req : Request) :
  Spec.authorised w req -> Spec.valid_parameters req ->
  ~ Spec.organization_active w req ->
  get_low_stock_alerts w req
    = ((ErrorBody "Organization not found", 404), redis_client w).
Proof.
  intros [user [Hu Hacc]] [Hm Hl] Hno.
  unfold get_low_stock_alerts, try_get_low_stock_alerts.
  rewrite Hu, Hacc. simpl.
  rewrite (proj2 (Qle_bool_false _ _) Hm).
  destruct (Z.gtb_spec (req_limit req) 1000); [lia|].
  destruct (Organization_get (db w) (req_company_id req)) as [org|] eqn:Ho;
    [|reflexivity].
  destruct (org_is_active org) eqn:Hact; [|reflexivity].
  exfalso. apply Hno. exists org. split; [exact Ho | exact Hact].
Qed.

Lemma cache_read_error (w : World) (req : Request) :
  read_fails (redis_client w) = true ->
  cache_step w req = Raise RedisConnectionError.
Proof. intros H. unfold cache_step, redis_get. now rewrite H. Qed.

Lemma cache_write_error (w : World) (req : Request) :
  redis_get (redis_client w) (utcnow w) (make_cache_key req) = Return None ->
  write_fails (redis_client w) = true ->
  cache_step w req = Raise RedisConnectionError.
Proof. intros Hg H. unfold cache_step, redis_setex. now rewrite Hg, H. Qed.

Lemma cache_hit (w : World) (req : Request) (cached : Envelope) :
  redis_get (redis_client w) (utcnow w) (make_cache_key req)
    = Return (Some cached) ->
  cache_step w req = Return ((AlertsBody cached, 200), redis_client w).
Proof. intros Hg. unfold cache_step. now rewrite Hg. Qed.

Lemma cache_miss (w : World) (req : Request) :
  redis_get (redis_client w) (utcnow w) (make_cache_key req) = Return None ->
  write_fails (redis_client w) = false ->
  exists redis',
    redis_setex (redis_client w) (utcnow w) (make_cache_key req) cache_ttl
                (compute_response w req) = Return redis' /\
    cache_step w req
      = Return ((AlertsBody (compute_response w req), 200), redis').
Proof.
  intros Hg Hw. unfold cache_step. rewrite Hg.
  unfold redis_setex. rewrite Hw. eexists. split; reflexivity.
Qed.

Lemma redis_get_cases (r : Redis) (now : Z) (key : CacheKey) :
  read_fails r = false ->
  redis_get r now key = Return None \/
  exists cached, redis_get r now key = Return (Some cached).
Proof.
  intros H. unfold redis_get. rewrite H.
  destruct (find _ (entries r)); simpl; eauto.
Qed.

Lemma scenario_checks (r : Redis) (t limit : Z) :
  limit <= 1000 ->
  let w := later Scenarios.slow_mover_world r t in
  Spec.authorised w (Scenarios.all_rows limit) /\
  Spec.valid_parameters (Scenarios.all_rows limit) /\
  Spec.organization_active w (Scenarios.all_rows limit).
Proof.
  intros Hl. cbv zeta. split; [|split].
  - eexists. split; reflexivity.
  - split; [reflexivity | exact Hl].
  - eexists. split; reflexivity.
Qed.

(** C3, as stated, fails: with a cache client whose read raises, a valid
    request of an authorised caller is answered with status 500. *)
Lemma cache_read_failure_fails_request :
  let w := with_redis Scenarios.slow_mover_world Scenarios.unreadable_redis in
  let req := Scenarios.all_rows 100 in
  get_low_stock_alerts w req = (internal_error w, redis_client w) /\
  status (fst (get_low_stock_alerts w req)) = 500 /\
  ~ (forall (w : World) (req : Request),
        Spec.authorised w req -> Spec.valid_parameters req ->
        Spec.organization_active w req ->
        read_fails (redis_client w) = true \/ write_fails (redis_client w) = true ->
        exists e, fst (get_low_stock_alerts w req) = (AlertsBody e, 200)).
Proof.
  cbv zeta. split; [reflexivity|]. split; [reflexivity|].
  intros H.
  destruct (scenario_checks Scenarios.unreadable_redis Scenarios.today 100
                            ltac:(lia)) as [Ha [Hv Ho]].
  destruct (H _ _ Ha Hv Ho (or_introl eq_refl)) as [e He].
  discriminate He.
Qed.

(** C3, amended: for a valid request of an authorised caller on an active
    organization, an error raised by the cache read, or by the cache write
    after a miss, is caught by the catch-all handler: the answer is the
    generic body with status 500 and the cache is left as it was.  With no
    error raised the status is 200, and on a miss the body is the computed
    envelope. *)
Theorem cache_error_is_internal_error (w : World) (req : Request) :
  Spec.authorised w req -> Spec.valid_parameters req ->
  Spec.organization_active w req ->
  (read_fails (redis_client w) = true ->
     get_low_stock_alerts w req = (internal_error w, redis_client w)) /\
  (redis_get (redis_client w) (utcnow w) (make_cache_key req) = Return None ->
     write_fails (redis_client w) = true ->
     get_low_stock_alerts w req = (internal_error w, redis_client w)) /\
  (read_fails (redis_client w) = false ->
     write_fails (redis_client w) = false ->
     status (fst (get_low_stock_alerts w req)) = 200) /\
  (redis_get (redis_client w) (utcnow w) (make_cache_key req) = Return None ->
     write_fails (redis_client w) = false ->
     fst (get_low_stock_alerts w req)
       = (AlertsBody (compute_response w req), 200)).
Proof.
  intros Ha Hv Ho. unfold get_low_stock_alerts.
  rewrite (checks_passed w req Ha Hv Ho).
  split; [|split; [|split]].
  - intros Hr. now rewrite cache_read_error.
  - intros Hg Hw. now rewrite cache_write_error.
  - intros Hr Hw.
    destruct (redis_get_cases (redis_client w) (utcnow w) (make_cache_key req) Hr)
      as [Hg | [cached Hg]].
    + destruct (cache_miss w req Hg Hw) as [redis' [_ ->]]. reflexivity.
    + now rewrite (cache_hit w req cached Hg).
  - intros Hg Hw.
    destruct (cache_miss w req Hg Hw) as [redis' [_ ->]]. reflexivity.
Qed.

Lemma cache_error_is_internal_error_witness :
  let w := with_redis Scenarios.slow_mover_world Scenarios.unwritable_redis in
  get_low_stock_alerts w (Scenarios.all_rows 100)
    = (internal_error w, redis_client w).
Proof.
  cbv zeta.
  destruct (scenario_checks Scenarios.unwritable_redis Scenarios.today 100
                            ltac:(lia)) as [Ha [Hv Ho]].
  exact (proj1 (proj2 (cache_error_is_internal_error _ _ Ha Hv Ho))
               eq_refl eq_refl).
Defined.

(** ** Parameter validation *)

(** C7: for an authorised caller, a multiplier that is not positive is
    rejected with the 400 validation error and, the multiplier being
    positive, so is a limit above 1000; whoever the caller is, such a request
    is refused before anything is computed or cached (only the
    authentication and access refusals, 401 and 403, can come first), so the
    limit is never clamped; and with a positive multiplier a limit up to
    1000, 1000 included, is never answered with 400. *)
Theorem parameter_validation (w : World) (req : Request) :
  (Spec.authorised w req ->
     ((req_threshold_multiplier req <= 0)%Q ->
        get_low_stock_alerts w req
          = ((ErrorBody "threshold_multiplier must be positive", 400),
             redis_client w)) /\
     (1000 < req_limit req ->
        status (fst (get_low_stock_alerts w req)) = 400 /\
        ((0 < req_threshold_multiplier req)%Q ->
           get_low_stock_alerts w req
             = ((ErrorBody "limit cannot exceed 1000", 400), redis_client w)))) /\
  ((req_threshold_multiplier req <= 0)%Q \/ 1000 < req_limit req ->
     In (status (fst (get_low_stock_alerts w req))) [400; 401; 403] /\
     snd (get_low_stock_alerts w req) = redis_client w) /\
  ((0 < req_threshold_multiplier req)%Q -> req_limit req <= 1000 ->
     status (fst (get_low_stock_alerts w req)) <> 400).
Proof.
  unfold get_low_stock_alerts, try_get_low_stock_alerts.
  split; [|split].
  - intros [user [Hu Hacc]]. rewrite Hu, Hacc. simpl negb. cbv iota. split.
    + intros Hm. apply Qle_bool_iff in Hm. now rewrite Hm.
    + intros Hl.
      destruct (Qle_bool (req_threshold_multiplier req) 0) eqn:Hm.
      * split; [reflexivity|].
        intros Hpos. apply Qle_bool_false in Hpos. congruence.
      * destruct (Z.gtb_spec (req_limit req) 1000); [|lia].
        split; reflexivity.
  - intros Hbad.
    destruct (current_user w) as [user|]; [|simpl; tauto].
    destruct (has_access_to_organization user (req_company_id req));
      [|simpl; tauto].
    simpl negb. cbv iota.
    destruct (Qle_bool (req_threshold_multiplier req) 0) eqn:Hm; [simpl; tauto|].
    apply Qle_bool_false in Hm.
    destruct Hbad as [Hle | Hl]; [exfalso; exact (Qlt_not_le _ _ Hm Hle)|].
    destruct (Z.gtb_spec (req_limit req) 1000); [simpl; tauto | lia].
  - intros Hm Hl.
    destruct (current_user w) as [user|]; [|simpl; discriminate].
    destruct (has_access_to_organization user (req_company_id req));
      [|simpl; discriminate].
    simpl negb. cbv iota.
    rewrite (proj2 (Qle_bool_false _ _) Hm).
    destruct (Z.gtb_spec (req_limit req) 1000); [lia|].
    destruct (Organization_get (db w) (req_company_id req)) as [org|];
      [|simpl; discriminate].
    destruct (org_is_active org); [|simpl; discriminate].
    simpl negb. cbv iota. unfold cache_step.
    destruct (redis_get _ _ _) as [[cached|]|]; try (simpl; discriminate).
    destruct (redis_setex _ _ _ _ _); simpl; discriminate.
Qed.

Lemma parameter_validation_witness :
  let w := Scenarios.slow_mover_world in
  status (fst (get_low_stock_alerts w (Scenarios.tuned 0 100))) = 400 /\
  status (fst (get_low_stock_alerts w (Scenarios.tuned (-1) 100))) = 400 /\
  status (fst (get_low_stock_alerts w (Scenarios.tuned 1 1001))) = 400 /\
  status (fst (get_low_stock_alerts w (Scenarios.tuned 1 1000))) <> 400.
Proof.
  cbv zeta.
  assert (Ha : forall m l,
             Spec.authorised Scenarios.slow_mover_world (Scenarios.tuned m l)).
  { intros m l. eexists. split; reflexivity. }
  refine (conj _ (conj _ (conj _ _))).
  - rewrite (proj1 (proj1 (parameter_validation _ _) (Ha 0%Q 100)));
      [reflexivity | discriminate].
  - rewrite (proj1 (proj1 (parameter_validation _ _) (Ha (-1)%Q 100)));
      [reflexivity | discriminate].
  - apply (proj2 (proj1 (parameter_validation _ _) (Ha 1%Q 1001))).
    simpl. lia.
  - apply (proj2 (proj2 (parameter_validation Scenarios.slow_mover_world
                                              (Scenarios.tuned 1 1000))));
      [reflexivity | simpl; lia].
Defined.

(** ** The warehouse filter *)

Lemma base_query_warehouse (d : Database) (company_id : Z) (m : Q) (row : StockRow) :
  In row (low_stock_base_query d company_id m) ->
  exists wh, In wh (warehouses d) /\ wh_id wh = row_warehouse_id row.
Proof.
  unfold low_stock_base_query. intros H.
  apply List.in_flat_map in H. destruct H as [inv [_ H]].
  apply List.in_flat_map in H. destruct H as [p [_ H]].
  destruct (inv_product_id inv =? prod_id p); [|contradiction].
  apply List.in_flat_map in H. destruct H as [wh [Hwh H]].
  destruct (inv_warehouse_id inv =? wh_id wh) eqn:E; [|contradiction].
  apply Z.eqb_eq in E.
  match type of H with In _ (if ?c then _ else _) => destruct c end;
    [|contradiction].
  destruct H as [<- | []]. exists wh. simpl. split; [exact Hwh | congruence].
Qed.

Lemma filter_none {A : Type} (f : A -> bool) (l : list A) :
  (forall x, In x l -> f x = false) -> List.filter f l = [].
Proof.
  induction l as [| x l IH]; intros H; simpl; [reflexivity|].
  rewrite (H x (or_introl eq_refl)). apply IH. intros y Hy. apply H. now right.
Qed.

(** A filter on a warehouse that is in no row of the table selects nothing. *)
Lemma unknown_warehouse_no_rows (d : Database) (company_id wid : Z) (m : Q) :
  wid <> 0 ->
  (forall wh, In wh (warehouses d) -> wh_id wh <> wid) ->
  low_stock_query d company_id (Some wid) m = [].
Proof.
  intros Hnz Hno. unfold low_stock_query. simpl.
  destruct (Z.eqb_spec wid 0); [contradiction|]. simpl.
  apply filter_none. intros row Hrow.
  apply base_query_warehouse in Hrow. destruct Hrow as [wh [Hin Hid]].
  apply Z.eqb_neq. rewrite <- Hid. now apply Hno.
Qed.

Lemma slice_to_nil {A : Type} (n : Z) : Py.slice_to n (@nil A) = [].
Proof. unfold Py.slice_to. destruct (0 <=? n); apply firstn_nil. Qed.

Lemma compute_response_no_rows (w : World) (req : Request) :
  low_stock_query (db w) (req_company_id req) (req_warehouse_id req)
                  (req_threshold_multiplier req) = [] ->
  alerts (compute_response w req) = [] /\
  total_alerts (compute_response w req) = 0.
Proof.
  intros H. unfold compute_response. rewrite H. simpl.
  rewrite slice_to_nil. split; reflexivity.
Qed.

(** C8, as stated, fails: a filter on warehouse 99, which does not exist, is
    answered with status 200 and an empty list, not with a not-found error. *)
Lemma unknown_warehouse_is_not_an_error :
  let w := Scenarios.slow_mover_world in
  let req := Scenarios.unknown_warehouse in
  (forall wh, In wh (warehouses (db w)) -> wh_id wh <> 99) /\
  status (fst (get_low_stock_alerts w req)) = 200 /\
  Scenarios.summary (fst (get_low_stock_alerts w req)) = Some [] /\
  ~ (forall (w : World) (req : Request) (wid : Z),
        Spec.authorised w req -> Spec.valid_parameters req ->
        req_warehouse_id req = Some wid ->
        (forall wh, In wh (warehouses (db w)) -> wh_id wh <> wid) ->
        status (fst (get_low_stock_alerts w req)) = 404).
Proof.
  cbv zeta.
  assert (Hno : forall wh, In wh (warehouses (db Scenarios.slow_mover_world)) ->
                           wh_id wh <> 99).
  { intros wh [<- | []]. discriminate. }
  split; [exact Hno|]. split; [reflexivity|]. split; [vm_compute; reflexivity|].
  intros H.
  specialize (H Scenarios.slow_mover_world Scenarios.unknown_warehouse 99).
  assert (Hs : status (fst (get_low_stock_alerts Scenarios.slow_mover_world
                                                 Scenarios.unknown_warehouse)) = 404).
  { apply H; [eexists; split; reflexivity | split; [reflexivity | simpl; lia]
             | reflexivity | exact Hno]. }
  vm_compute in Hs. discriminate Hs.
Qed.

(** C8, amended: a missing or inactive organization is answered with the 404
    not-found error; a warehouse filter naming a warehouse that does not
    exist is not: with the cache working the status is 200, and when the
    response is computed for a non-zero warehouse id the envelope has no
    alerts and a total of 0. *)
Theorem unknown_warehouse_is_empty_result (w : World) (req : Request) (wid : Z) :
  Spec.authorised w req -> Spec.valid_parameters req ->
  req_warehouse_id req = Some wid ->
  (forall wh, In wh (warehouses (db w)) -> wh_id wh <> wid) ->
  (~ Spec.organization_active w req ->
     get_low_stock_alerts w req
       = ((ErrorBody "Organization not found", 404), redis_client w)) /\
  (Spec.organization_active w req ->
     read_fails (redis_client w) = false ->
     write_fails (redis_client w) = false ->
     status (fst (get_low_stock_alerts w req)) = 200) /\
  (Spec.organization_active w req -> wid <> 0 ->
     redis_get (redis_client w) (utcnow w) (make_cache_key req) = Return None ->
     write_fails (redis_client w) = false ->
     exists e, fst (get_low_stock_alerts w req) = (AlertsBody e, 200) /\
               alerts e = [] /\ total_alerts e = 0).
Proof.
  intros Ha Hv Hwid Hno. split; [|split].
  - now apply organization_missing.
  - intros Ho Hr Hw. unfold get_low_stock_alerts.
    rewrite (checks_passed w req Ha Hv Ho).
    destruct (redis_get_cases (redis_client w) (utcnow w) (make_cache_key req) Hr)
      as [Hg | [cached Hg]].
    + destruct (cache_miss w req Hg Hw) as [redis' [_ ->]]. reflexivity.
    + now rewrite (cache_hit w req cached Hg).
  - intros Ho Hnz Hg Hw. unfold get_low_stock_alerts.
    rewrite (checks_passed w req Ha Hv Ho).
    destruct (cache_miss w req Hg Hw) as [redis' [_ ->]].
    exists (compute_response w req). split; [reflexivity|].
    apply compute_response_no_rows. rewrite Hwid.
    now apply unknown_warehouse_no_rows.
Qed.

Lemma unknown_warehouse_is_empty_result_witness :
  exists e,
    fst (get_low_stock_alerts Scenarios.slow_mover_world
                              Scenarios.unknown_warehouse) = (AlertsBody e, 200) /\
    alerts e = [] /\ total_alerts e = 0.
Proof.
  assert (Ha : Spec.authorised Scenarios.slow_mover_world
                               Scenarios.unknown_warehouse)
    by (eexists; split; reflexivity).
  assert (Hv : Spec.valid_parameters Scenarios.unknown_warehouse)
    by (split; [reflexivity | simpl; lia]).
  assert (Ho : Spec.organization_active Scenarios.slow_mover_world
                                        Scenarios.unknown_warehouse)
    by (eexists; split; reflexivity).
  assert (Hno : forall wh, In wh (warehouses (db Scenarios.slow_mover_world)) ->
                           wh_id wh <> 99)
    by (intros wh [<- | []]; discriminate).
  assert (Hnz : 99 <> 0) by lia.
  exact (proj2 (proj2 (unknown_warehouse_is_empty_result
                         Scenarios.slow_mover_world Scenarios.unknown_warehouse
                         99 Ha Hv eq_refl Hno))
               Ho Hnz eq_refl eq_refl).
Defined.

(** ** The cache key and the limit *)

Lemma option_Z_eqb_refl (o : option Z) : option_Z_eqb o o = true.
Proof. destruct o; simpl; [apply Z.eqb_refl | reflexivity]. Qed.

Lemma cache_key_eqb_refl (k : CacheKey) : cache_key_eqb k k = true.
Proof.
  unfold cache_key_eqb.
  rewrite Z.eqb_refl, option_Z_eqb_refl, eqb_reflx.
  rewrite (proj2 (Qeq_bool_iff _ _) (Qeq_refl _)). reflexivity.
Qed.


(** X19: a request that misses stores its envelope; until the entry expires,
    a request that differs in nothing but the limit is answered with that same
    envelope, and the cache stays as it is. *)
Lemma second_request_served_from_cache (w : World) (req : Request) (l1 l2 t : Z) :
  Spec.authorised w req -> Spec.organization_active w req ->
  (0 < req_threshold_multiplier req)%Q -> l1 <= 1000 -> l2 <= 1000 ->
  redis_get (redis_client w) (utcnow w) (make_cache_key req) = Return None ->
  write_fails (redis_client w) = false ->
  t < utcnow w + cache_ttl ->
  let first := get_low_stock_alerts w (with_limit req l1) in
  fst first = (AlertsBody (compute_response w (with_limit req l1)), 200) /\
  get_low_stock_alerts (later w (snd first) t) (with_limit req l2) = first.
Proof.
  intros Ha Ho Hm Hl1 Hl2 Hg Hw Ht. cbv zeta.
  assert (Hr : read_fails (redis_client w) = false).
  { unfold redis_get in Hg. destruct (read_fails (redis_client w));
      [discriminate | reflexivity]. }
  destruct (cache_miss w (with_limit req l1) Hg Hw) as [redis' [Hset Hstep]].
  assert (Hfirst : get_low_stock_alerts w (with_limit req l1)
                   = ((AlertsBody (compute_response w (with_limit req l1)), 200),
                      redis')).
  { unfold get_low_stock_alerts.
    rewrite (checks_passed w (with_limit req l1) Ha (conj Hm Hl1) Ho).
    now rewrite Hstep. }
  rewrite Hfirst. simpl fst. simpl snd. split; [reflexivity|].
  unfold get_low_stock_alerts.
  rewrite (checks_passed (later w redis' t) (with_limit req l2) Ha (conj Hm Hl2) Ho).
  erewrite cache_hit; [reflexivity|].
  unfold redis_setex in Hset. rewrite Hw in Hset. injection Hset as <-.
  unfold redis_get. simpl. rewrite Hr.
  change (make_cache_key (with_limit req l1)) with (make_cache_key req).
  change (make_cache_key (with_limit req l2)) with (make_cache_key req).
  rewrite cache_key_eqb_refl.
  destruct (Z.ltb_spec t (utcnow w + cache_ttl)); [reflexivity | lia].
Qed.


(** ** Further properties of the helper functions *)

(** X1: the recommended quantity brings the stock to twice the threshold at
    least, is not below the supplier's minimum order quantity, and, unless it
    is the floor of 10, exceeds the larger of the two needs by less than 10. *)
Theorem reorder_quantity_covers_need
    (threshold current_stock : Z) (supplier_info : option SupplierInfo) :
  let quantity := calculate_reorder_quantity threshold current_stock supplier_info in
  let minimum := Notions.known_minimum supplier_info in
  2 * threshold <= current_stock + quantity /\
  minimum <= quantity /\
  (quantity = 10 \/
   quantity < Z.max (2 * threshold - current_stock) minimum + 10).
Proof.
  cbv zeta. unfold calculate_reorder_quantity, Notions.known_minimum.
  set (shortfall := threshold * 2 - current_stock).
  replace (2 * threshold - current_stock) with shortfall by (subst shortfall; lia).
  assert (Hshort : 2 * threshold = current_stock + shortfall)
    by (subst shortfall; lia).
  rewrite Hshort. clearbody shortfall. clear Hshort.
  assert (Hround : forall n,
             n <= Z.max 10 ((n + 9) / 10 * 10) /\
             (Z.max 10 ((n + 9) / 10 * 10) = 10 \/
              Z.max 10 ((n + 9) / 10 * 10) < n + 10)).
  { intros n. Z.div_mod_to_equations. lia. }
  destruct supplier_info as [info|]; simpl.
  - destruct (si_minimum_order_quantity info) as [moq|]; simpl.
    + destruct (Z.eqb_spec moq 0) as [-> | Hmoq]; simpl.
      * pose proof (Hround shortfall). lia.
      * destruct (Z.ltb_spec shortfall moq).
        -- pose proof (Hround moq). lia.
        -- pose proof (Hround shortfall). lia.
    + pose proof (Hround shortfall). lia.
  - pose proof (Hround shortfall). lia.
Qed.

(** X2: for the same stock, a prediction of fewer days never gets a less
    urgent tier and an absent prediction is never more urgent than a present
    one; and a stock of 0 or less, whatever its prediction, is never less
    urgent than any other stock with any prediction. *)
Theorem urgency_is_monotone
    (current_stock d1 d2 empty_stock other_stock : Z)
    (days other_days : option Z) :
  d1 <= d2 -> empty_stock <= 0 ->
  Notions.urgency_rank (calculate_urgency (Some d2) current_stock)
    <= Notions.urgency_rank (calculate_urgency (Some d1) current_stock) /\
  Notions.urgency_rank (calculate_urgency None current_stock)
    <= Notions.urgency_rank (calculate_urgency (Some d1) current_stock) /\
  Notions.urgency_rank (calculate_urgency other_days other_stock)
    <= Notions.urgency_rank (calculate_urgency days empty_stock).
Proof.
  intros Hd He. split; [|split].
  - unfold calculate_urgency.
    destruct (Z.leb_spec current_stock 0); [simpl; lia|].
    destruct (Z.leb_spec d1 3), (Z.leb_spec d1 7), (Z.leb_spec d1 14),
      (Z.leb_spec d2 3), (Z.leb_spec d2 7), (Z.leb_spec d2 14);
      simpl; lia.
  - unfold calculate_urgency.
    destruct (Z.leb_spec current_stock 0); [simpl; lia|].
    destruct (Z.leb_spec d1 3), (Z.leb_spec d1 7), (Z.leb_spec d1 14);
      simpl; lia.
  - assert (Htop : calculate_urgency days empty_stock = critical).
    { unfold calculate_urgency.
      destruct (Z.leb_spec empty_stock 0); [reflexivity | lia]. }
    rewrite Htop.
    destruct (calculate_urgency other_days other_stock); simpl; lia.
Qed.

Lemma urgency_is_monotone_witness :
  Notions.urgency_rank (calculate_urgency (Some 9) 4)
    <= Notions.urgency_rank (calculate_urgency (Some 5) 4) /\
  Notions.urgency_rank (calculate_urgency None 4)
    <= Notions.urgency_rank (calculate_urgency (Some 5) 4) /\
  Notions.urgency_rank (calculate_urgency (Some 1) 3)
    <= Notions.urgency_rank (calculate_urgency None (-5)).
Proof.
  assert (Hd : 5 <= 9) by lia.
  assert (He : -5 <= 0) by lia.
  exact (urgency_is_monotone 4 5 9 (-5) 3 None (Some 1) Hd He).
Defined.

Lemma days_of_positive_velocity (current_stock : Z) (a : Q) :
  (0 < a)%Q ->
  calculate_days_until_stockout current_stock (Some a)
    = Some (Z.max 0 (Qfloor (inject_Z current_stock / a))).
Proof.
  intros Ha. destruct (Z.le_gt_cases current_stock 0) as [Hs | Hs].
  - rewrite days_zero_when_out_of_stock by assumption. f_equal.
    assert (H : (inject_Z current_stock / a <= 0)%Q).
    { apply Qle_shift_div_r; [exact Ha|]. rewrite Qmult_0_l.
      unfold Qle. simpl. lia. }
    apply Qfloor_resp_le in H. change (Qfloor 0) with 0 in H. lia.
  - assert (Hs' : 0 < current_stock) by lia.
    pose proof (Qlt_le_weak _ _ (truediv_pos current_stock a Hs' Ha)) as Hq.
    unfold calculate_days_until_stockout.
    rewrite (proj2 (Qle_bool_false a 0) Ha).
    destruct (Z.leb_spec current_stock 0); [lia|].
    rewrite (int_of_Q_nonneg _ Hq). unfold Py.truediv in *. f_equal.
    apply Qfloor_resp_le in Hq. change (Qfloor 0) with 0 in Hq. lia.
Qed.

(** ** The supplier lookup *)

Lemma active_supplier_relations_In
    (d : Database) (product_id : Z) (only_preferred : bool)
    (ps : ProductSupplier) (s : Supplier) :
  In (ps, s) (active_supplier_relations d product_id only_preferred) <->
  Notions.active_relation d product_id ps s /\
  (only_preferred = true -> ps_is_preferred ps = true).
Proof.
  unfold active_supplier_relations, Notions.active_relation.
  rewrite List.in_flat_map. split.
  - intros [ps' [Hps H]].
    destruct (ps_product_id ps' =? product_id) eqn:Hpid; [|contradiction].
    destruct (if only_preferred then ps_is_preferred ps' else true) eqn:Hpref;
      [|contradiction].
    simpl in H. apply List.in_map_iff in H. destruct H as [s' [E Hs]].
    injection E as -> ->.
    apply List.filter_In in Hs. destruct Hs as [Hs Hc].
    apply andb_true_iff in Hc. destruct Hc as [Hid Hact].
    apply Z.eqb_eq in Hpid, Hid.
    repeat split; try assumption.
    intros ->. exact Hpref.
  - intros [[Hps [Hs [Hpid [Hid Hact]]]] Hpref].
    exists ps. split; [exact Hps|].
    rewrite (proj2 (Z.eqb_eq _ _) Hpid).
    replace (if only_preferred then ps_is_preferred ps else true) with true
      by (destruct only_preferred; [now rewrite Hpref | reflexivity]).
    simpl. apply List.in_map. apply List.filter_In. split; [exact Hs|].
    now rewrite (proj2 (Z.eqb_eq _ _) Hid), Hact.
Qed.

Lemma head_In {A : Type} (l : list A) (x : A) : head l = Some x -> In x l.
Proof. destruct l; [discriminate|]. intros H. injection H as ->. now left. Qed.

Lemma head_None {A : Type} (l : list A) : head l = None -> l = [].
Proof. destruct l; [reflexivity | discriminate]. Qed.

(** X4: a supplier that the lookup returns is the active supplier of one of
    the product's relations, with that relation's lead time and minimum order
    quantity; and when the product has an active preferred relation, the
    relation used is a preferred one. *)
Theorem preferred_supplier_is_active_relation
    (d : Database) (product_id : Z) (info : SupplierInfo) :
  get_preferred_supplier d product_id = Some info ->
  exists ps s,
    Notions.active_relation d product_id ps s /\
    si_id info = sup_id s /\ si_name info = sup_name s /\
    si_lead_time_days info = ps_lead_time_days ps /\
    si_minimum_order_quantity info = ps_minimum_order_quantity ps /\
    ((exists ps' s', Notions.active_relation d product_id ps' s' /\
                     ps_is_preferred ps' = true) ->
     ps_is_preferred ps = true).
Proof.
  unfold get_preferred_supplier. intros H.
  destruct (head (active_supplier_relations d product_id true))
    as [[ps s]|] eqn:Hpref.
  - injection H as <-. exists ps, s.
    apply head_In, active_supplier_relations_In in Hpref.
    destruct Hpref as [Hrel Hp]. simpl. repeat split; try apply Hrel.
    intros _. now apply Hp.
  - destruct (head (active_supplier_relations d product_id false))
      as [[ps s]|] eqn:Hany; [|discriminate].
    injection H as <-. exists ps, s.
    apply head_In, active_supplier_relations_In in Hany.
    destruct Hany as [Hrel _]. simpl. repeat split; try apply Hrel.
    intros [ps' [s' [Hrel' Hp']]]. exfalso.
    apply head_None in Hpref.
    assert (Hin : In (ps', s') (active_supplier_relations d product_id true))
      by (apply active_supplier_relations_In; split; [exact Hrel' | now intros _]).
    rewrite Hpref in Hin. exact Hin.
Qed.

Lemma preferred_supplier_is_active_relation_witness :
  exists ps s,
    Notions.active_relation Fixtures.supplier_db 1 ps s /\
    1 = sup_id s /\ "Acme"%string = sup_name s /\
    Some 4 = ps_lead_time_days ps /\
    Some 120 = ps_minimum_order_quantity ps /\
    ((exists ps' s', Notions.active_relation Fixtures.supplier_db 1 ps' s' /\
                     ps_is_preferred ps' = true) ->
     ps_is_preferred ps = true).
Proof.
  exact (preferred_supplier_is_active_relation Fixtures.supplier_db 1
           {| si_id := 1; si_name := "Acme"; si_contact_email := "a@acme.test";
              si_contact_phone := "1"; si_lead_time_days := Some 4;
              si_minimum_order_quantity := Some 120;
              si_cost_price := Some (5 # 2) |} eq_refl).
Defined.

(** X5: the lookup returns nothing exactly when the product has no relation
    with an active supplier. *)
Theorem no_supplier_iff_no_active_relation (d : Database) (product_id : Z) :
  get_preferred_supplier d product_id = None <->
  (forall ps s, ~ Notions.active_relation d product_id ps s).
Proof.
  unfold get_preferred_supplier. split.
  - intros H ps s Hrel.
    destruct (head (active_supplier_relations d product_id true))
      as [[ps1 s1]|]; [discriminate|].
    destruct (head (active_supplier_relations d product_id false))
      as [[ps2 s2]|] eqn:Hany; [discriminate|].
    apply head_None in Hany.
    assert (Hin : In (ps, s) (active_supplier_relations d product_id false))
      by (apply active_supplier_relations_In; split; [exact Hrel | discriminate]).
    rewrite Hany in Hin. exact Hin.
  - intros Hno.
    destruct (head (active_supplier_relations d product_id true))
      as [[ps s]|] eqn:Hpref.
    + apply head_In, active_supplier_relations_In in Hpref.
      exfalso. exact (Hno ps s (proj1 Hpref)).
    + destruct (head (active_supplier_relations d product_id false))
        as [[ps s]|] eqn:Hany; [|reflexivity].
      apply head_In, active_supplier_relations_In in Hany.
      exfalso. exact (Hno ps s (proj1 Hany)).
Qed.

(** ** The sales velocities *)

Lemma total_of_insert (totals : gmap (Z * Z) Z) (k k' : Z * Z) (q : Z) (l : list Z) :
  totals !! k' = Notions.total_of l ->
  <[k := default 0 (totals !! k) + q]> totals !! k'
    = Notions.total_of (if decide (k = k') then q :: l else l).
Proof.
  intros H. destruct (decide (k = k')) as [-> | Hne].
  - rewrite lookup_insert_eq, H.
    destruct l as [| x l]; simpl; f_equal; unfold Notions.sum; simpl; lia.
  - now rewrite lookup_insert_ne.
Qed.

Lemma key_match (item : SalesOrderItem) (k : Z * Z) :
  (soi_product_id item =? fst k) && (soi_warehouse_id item =? snd k) = true <->
  (soi_product_id item, soi_warehouse_id item) = k.
Proof.
  destruct k as [p wh]. simpl.
  rewrite andb_true_iff, !Z.eqb_eq. split.
  - intros [-> ->]. reflexivity.
  - intros E. injection E as -> ->. split; reflexivity.
Qed.

(** One item against every order, on top of the totals of the items after
    it. *)
Lemma item_totals_lookup
    (d : Database) (cutoff_date organization_id : Z) (k : Z * Z)
    (item : SalesOrderItem) (orders : list SalesOrder)
    (totals : gmap (Z * Z) Z) (rest : list Z) :
  totals !! k = Notions.total_of rest ->
  fold_right
    (fun order (totals : gmap (Z * Z) Z) =>
       if (soi_order_id item =? so_id order)
          && (so_organization_id order =? organization_id)
          && (cutoff_date <=? so_order_date order)
          && existsb (String.eqb (so_status order)) confirmed_statuses
       then
         <[(soi_product_id item, soi_warehouse_id item)
           := default 0 (totals !! (soi_product_id item, soi_warehouse_id item))
              + soi_quantity item]> totals
       else totals)
    totals orders !! k
  = Notions.total_of
      (flat_map
         (fun order =>
            if (soi_order_id item =? so_id order)
               && (so_organization_id order =? organization_id)
               && (cutoff_date <=? so_order_date order)
               && existsb (String.eqb (so_status order)) confirmed_statuses
               && (soi_product_id item =? fst k)
               && (soi_warehouse_id item =? snd k)
            then [soi_quantity item] else [])
         orders ++ rest).
Proof.
  intros Hrest.
  induction orders as [| order orders IHo]; cbn [fold_right flat_map app];
    [exact Hrest|].
  destruct ((soi_order_id item =? so_id order)
            && (so_organization_id order =? organization_id)
            && (cutoff_date <=? so_order_date order)
            && existsb (String.eqb (so_status order)) confirmed_statuses)
    eqn:Hc; cbn [andb].
  - etrans; [apply total_of_insert; exact IHo|].
    destruct (decide ((soi_product_id item, soi_warehouse_id item) = k))
      as [E | E].
    + apply key_match in E. cbn [app flat_map]. now rewrite E.
    + destruct ((soi_product_id item =? fst k)
                && (soi_warehouse_id item =? snd k)) eqn:E'.
      * apply key_match in E'. contradiction.
      * reflexivity.
  - exact IHo.
Qed.

(** The grouped query holds, for each pair, the total of its qualifying
    rows. *)
Lemma recent_sales_totals_lookup
    (d : Database) (cutoff_date organization_id : Z) (k : Z * Z) :
  recent_sales_totals d cutoff_date organization_id !! k
    = Notions.total_of
        (Notions.qualifying_quantities d cutoff_date organization_id k).
Proof.
  unfold recent_sales_totals, Notions.qualifying_quantities.
  induction (sales_order_items d) as [| item items IH]; simpl.
  - apply lookup_empty.
  - now apply item_totals_lookup.
Qed.

(** X6: in the dict the endpoint builds, over its window of 30 days, a
    (product, warehouse) pair has an entry exactly when it has an item in an
    order of the organization that is confirmed and dated inside the window;
    and the entry is positive, zero or negative as the sum of the quantities
    of those items is. *)
Theorem recent_sales_entries
    (d : Database) (now organization_id : Z) (k : Z * Z) :
  let quantities :=
    Notions.qualifying_quantities
      d (now - 30 * seconds_per_day) organization_id k in
  let entry := get_recent_sales_data d now organization_id 30 !! k in
  (entry = None <-> quantities = []) /\
  (forall v, entry = Some v ->
     ((0 < v)%Q <-> 0 < Notions.sum quantities) /\
     ((v == 0)%Q <-> Notions.sum quantities = 0) /\
     ((v < 0)%Q <-> Notions.sum quantities < 0)).
Proof.
  cbv zeta. unfold get_recent_sales_data.
  rewrite lookup_fmap, recent_sales_totals_lookup.
  destruct (Notions.qualifying_quantities _ _ _ _) as [| q qs]; simpl.
  - split; [tauto | discriminate].
  - split; [split; discriminate|].
    intros v [= <-].
    set (total := Notions.sum (q :: qs)).
    unfold Qlt, Qeq, Qdiv, Qmult, Qinv. simpl. lia.
Qed.

(** In the fixture, of the four items of product 1 in warehouse 7 only the
    two of the confirmed order inside the window count: 90 units, 3 a day. *)
Example fixture_velocity :
  get_recent_sales_data Fixtures.supplier_db Scenarios.today 42 30 !! (1, 7)
    = Some (90 # 30)%Q /\
  get_recent_sales_data Fixtures.supplier_db Scenarios.today 42 30 !! (1, 8)
    = None.
Proof. split; vm_compute; reflexivity. Qed.

(** ** From rows to alerts *)

Lemma build_alerts_loop
    (d : Database) (sales_data : gmap (Z * Z) Q) (include_no_sales : bool)
    (rows : list StockRow) (acc : list Alert) (wid : option Z) :
  fst (fold_left
         (fun (st : list Alert * option Z) item =>
            (match build_alert d sales_data include_no_sales item with
             | Some alert => fst st ++ [alert]
             | None => fst st
             end,
             Some (row_warehouse_id item)))
         rows (acc, wid))
  = acc ++ flat_map
             (fun row =>
                match build_alert d sales_data include_no_sales row with
                | Some alert => [alert]
                | None => []
                end)
             rows.
Proof.
  revert acc wid.
  induction rows as [| row rows IH]; intros acc wid; simpl.
  - now rewrite app_nil_r.
  - rewrite IH. destruct (build_alert d sales_data include_no_sales row);
      simpl; [now rewrite <- app_assoc | reflexivity].
Qed.

(** The loop appends the alert of each row that is not skipped, in row
    order. *)
Lemma build_alerts_fst
    (d : Database) (sales_data : gmap (Z * Z) Q) (include_no_sales : bool)
    (warehouse_id : option Z) (rows : list StockRow) :
  fst (build_alerts d sales_data include_no_sales warehouse_id rows)
  = flat_map
      (fun row =>
         match build_alert d sales_data include_no_sales row with
         | Some alert => [alert]
         | None => []
         end)
      rows.
Proof. unfold build_alerts. now rewrite build_alerts_loop. Qed.

Lemma firstn_incl {A : Type} (n : nat) (l : list A) (x : A) :
  In x (firstn n l) -> In x l.
Proof.
  intros H. rewrite <- (firstn_skipn n l). apply in_or_app. now left.
Qed.

Lemma slice_to_incl {A : Type} (n : Z) (l : list A) (x : A) :
  In x (Py.slice_to n l) -> In x l.
Proof. unfold Py.slice_to. destruct (0 <=? n); apply firstn_incl. Qed.

(** Every alert of a computed response is the alert built from one of the
    rows of the query. *)
Lemma compute_response_alert_row (w : World) (req : Request) (a : Alert) :
  In a (alerts (compute_response w req)) ->
  exists row,
    In row (low_stock_query (db w) (req_company_id req) (req_warehouse_id req)
                            (req_threshold_multiplier req)) /\
    build_alert (db w)
                (get_recent_sales_data (db w) (utcnow w) (req_company_id req) 30)
                (req_include_no_sales req) row = Some a.
Proof.
  unfold compute_response.
  destruct (build_alerts _ _ _ _ _) as [built wid] eqn:Hb. simpl.
  intros H. apply slice_to_incl in H.
  apply (Permutation_in _ (Permutation_sym (list_sort_perm sort_key built))) in H.
  assert (Hf := build_alerts_fst (db w)
                  (get_recent_sales_data (db w) (utcnow w) (req_company_id req) 30)
                  (req_include_no_sales req) (req_warehouse_id req)
                  (low_stock_query (db w) (req_company_id req)
                                   (req_warehouse_id req)
                                   (req_threshold_multiplier req))).
  rewrite Hb in Hf. simpl in Hf. rewrite Hf in H.
  apply List.in_flat_map in H. destruct H as [row [Hrow Ha]].
  exists row. split; [exact Hrow|].
  destruct (build_alert _ _ _ row) as [a'|]; [|contradiction].
  destruct Ha as [-> | []]. reflexivity.
Qed.

Lemma compute_response_Forall (w : World) (req : Request) (P : Alert -> Prop) :
  (forall row a,
      In row (low_stock_query (db w) (req_company_id req) (req_warehouse_id req)
                              (req_threshold_multiplier req)) ->
      build_alert (db w)
                  (get_recent_sales_data (db w) (utcnow w) (req_company_id req) 30)
                  (req_include_no_sales req) row = Some a ->
      P a) ->
  Forall P (alerts (compute_response w req)).
Proof.
  intros H. apply List.Forall_forall. intros a Ha.
  apply compute_response_alert_row in Ha. destruct Ha as [row [Hrow Hb]].
  eauto.
Qed.

(** The fields an alert copies from its row. *)
Lemma build_alert_fields
    (d : Database) (sales_data : gmap (Z * Z) Q) (include_no_sales : bool)
    (row : StockRow) (a : Alert) :
  build_alert d sales_data include_no_sales row = Some a ->
  product_id a = row_product_id row /\
  warehouse_id a = row_warehouse_id row /\
  current_stock a = row_current_stock row /\
  threshold a = row_low_stock_threshold row.
Proof.
  unfold build_alert.
  destruct (negb include_no_sales && Qeq_bool _ 0); [discriminate|].
  intros H. injection H as <-. repeat split.
Qed.

Lemma low_stock_base_query_In
    (d : Database) (company_id : Z) (m : Q) (row : StockRow) :
  In row (low_stock_base_query d company_id m) ->
  exists inv p wh,
    In inv (inventory d) /\ In p (products d) /\ In wh (warehouses d) /\
    inv_product_id inv = prod_id p /\ inv_warehouse_id inv = wh_id wh /\
    row_product_id row = prod_id p /\ row_warehouse_id row = wh_id wh /\
    row_current_stock row = inv_quantity_available inv /\
    row_low_stock_threshold row = prod_low_stock_threshold p /\
    prod_organization_id p = company_id /\
    prod_is_deleted p = false /\ wh_is_active wh = true /\
    (inject_Z (row_current_stock row)
     < inject_Z (row_low_stock_threshold row) * m)%Q.
Proof.
  unfold low_stock_base_query. intros H.
  apply List.in_flat_map in H. destruct H as [inv [Hinv H]].
  apply List.in_flat_map in H. destruct H as [p [Hp H]].
  destruct (inv_product_id inv =? prod_id p) eqn:Epid; [|contradiction].
  apply List.in_flat_map in H. destruct H as [wh [Hwh H]].
  match type of H with In _ (if ?c then _ else _) => destruct c eqn:Ec end;
    [|contradiction].
  destruct H as [<- | []].
  apply andb_true_iff in Ec. destruct Ec as [Ec Hlow].
  apply andb_true_iff in Ec. destruct Ec as [Ec Hact].
  apply andb_true_iff in Ec. destruct Ec as [Ec Hdel].
  apply andb_true_iff in Ec. destruct Ec as [Ewid Eorg].
  apply Z.eqb_eq in Epid, Ewid, Eorg.
  apply negb_true_iff in Hdel, Hlow. apply Qle_bool_false in Hlow.
  exists inv, p, wh. simpl.
  refine (conj Hinv (conj Hp (conj Hwh (conj Epid (conj Ewid (conj eq_refl
           (conj Ewid (conj eq_refl (conj eq_refl (conj Eorg (conj Hdel
           (conj Hact Hlow)))))))))))).
Qed.

Lemma low_stock_query_base
    (d : Database) (company_id : Z) (wid : option Z) (m : Q) (row : StockRow) :
  In row (low_stock_query d company_id wid m) ->
  In row (low_stock_base_query d company_id m) /\
  (Py.truthy_int wid = true -> wid = Some (row_warehouse_id row)).
Proof.
  unfold low_stock_query. destruct (Py.truthy_int wid) eqn:Ht.
  - intros H. apply List.filter_In in H. destruct H as [H Hw].
    split; [exact H|]. intros _.
    destruct wid as [x|]; [|discriminate]. simpl in Hw.
    apply Z.eqb_eq in Hw. now rewrite Hw.
  - intros H. split; [exact H | discriminate].
Qed.

(** X7: every alert of a computed response describes an inventory row of a
    live product of the requested organization in an active warehouse whose
    stock is below the threshold times the multiplier; no alert is made up,
    and none concerns another organization, a deleted product or an inactive
    warehouse. *)
Theorem alerts_are_low_stock_rows (w : World) (req : Request) :
  Forall (Notions.alert_of_low_stock (db w) (req_company_id req)
                                     (req_threshold_multiplier req))
         (alerts (compute_response w req)).
Proof.
  apply compute_response_Forall. intros row a Hrow Hb.
  apply low_stock_query_base in Hrow. destruct Hrow as [Hrow _].
  apply low_stock_base_query_In in Hrow.
  destruct Hrow as [inv [p [wh H]]].
  apply build_alert_fields in Hb. destruct Hb as [E1 [E2 [E3 E4]]].
  exists inv, p, wh. rewrite E1, E2, E3, E4. exact H.
Qed.

(** X8: with a warehouse filter other than 0, every alert of a computed
    response is in that warehouse. *)
Theorem warehouse_filter_restricts_alerts (w : World) (req : Request) (wid : Z) :
  req_warehouse_id req = Some wid -> wid <> 0 ->
  Forall (fun a => warehouse_id a = wid) (alerts (compute_response w req)).
Proof.
  intros Hwid Hnz. apply compute_response_Forall. intros row a Hrow Hb.
  apply low_stock_query_base in Hrow. destruct Hrow as [_ Hw].
  apply build_alert_fields in Hb. destruct Hb as [_ [E _]].
  rewrite Hwid in Hw. simpl in Hw.
  destruct (Z.eqb_spec wid 0); [contradiction|].
  specialize (Hw eq_refl). injection Hw as ->. exact E.
Qed.

Lemma warehouse_filter_restricts_alerts_witness :
  Forall (fun a => warehouse_id a = 8)
         (alerts (compute_response Fixtures.supplier_world
                    (Notions.with_warehouse (Scenarios.all_rows 100) (Some 8)))).
Proof.
  assert (Hnz : 8 <> 0) by lia.
  exact (warehouse_filter_restricts_alerts Fixtures.supplier_world
           (Notions.with_warehouse (Scenarios.all_rows 100) (Some 8)) 8
           eq_refl Hnz).
Defined.

Lemma reorder_quantity_bounds
    (threshold current_stock : Z) (supplier_info : option SupplierInfo) :
  10 <= calculate_reorder_quantity threshold current_stock supplier_info /\
  calculate_reorder_quantity threshold current_stock supplier_info mod 10 = 0 /\
  2 * threshold
    <= current_stock
       + calculate_reorder_quantity threshold current_stock supplier_info.
Proof.
  unfold calculate_reorder_quantity.
  set (shortfall := threshold * 2 - current_stock).
  assert (Hround : forall n, shortfall <= n ->
             10 <= Z.max 10 ((n + 9) / 10 * 10) /\
             Z.max 10 ((n + 9) / 10 * 10) mod 10 = 0 /\
             2 * threshold <= current_stock + Z.max 10 ((n + 9) / 10 * 10)).
  { intros n Hn. split; [lia|]. split.
    - destruct (Z.max_spec 10 ((n + 9) / 10 * 10)) as [[_ ->] | [_ ->]];
        [apply Z_mod_mult | reflexivity].
    - assert (n <= (n + 9) / 10 * 10) by (Z.div_mod_to_equations; lia).
      subst shortfall. lia. }
  destruct supplier_info as [info|]; simpl; [|apply Hround; lia].
  destruct (si_minimum_order_quantity info) as [moq|]; simpl;
    [|apply Hround; lia].
  destruct (negb (moq =? 0)); [|apply Hround; lia].
  destruct (Z.ltb_spec shortfall moq); apply Hround; lia.
Qed.

(** The computed fields of an alert, in terms of the velocity looked up for
    its row. *)
Lemma build_alert_computed
    (d : Database) (sales_data : gmap (Z * Z) Q) (include_no_sales : bool)
    (row : StockRow) (a : Alert) :
  build_alert d sales_data include_no_sales row = Some a ->
  let avg :=
    default 0%Q (sales_data !! (row_product_id row, row_warehouse_id row)) in
  (negb include_no_sales && Qeq_bool avg 0 = false) /\
  days_until_stockout a
    = calculate_days_until_stockout (row_current_stock row) (Some avg) /\
  avg_daily_sales a
    = (if Qle_bool avg 0 then None else Some (Py.round2 avg)) /\
  urgency a = calculate_urgency (days_until_stockout a) (current_stock a) /\
  recommended_reorder_quantity a
    = calculate_reorder_quantity (threshold a) (current_stock a) (supplier a).
Proof.
  unfold build_alert. intros H. cbv zeta.
  destruct (negb include_no_sales && Qeq_bool _ 0) eqn:Hskip; [discriminate|].
  injection H as <-.
  split; [reflexivity|]. split; [reflexivity|].
  split; [cbn [avg_daily_sales]; now destruct (Qle_bool _ 0)|].
  split; reflexivity.
Qed.

(** X9: by the way it is built, every alert of a computed response has a
    prediction exactly when it has a velocity, a prediction that is not
    negative, the top tier when the stock is empty and the lowest when there
    is stock but no prediction, and a reorder quantity that is a multiple of
    10, at least 10, and enough to reach twice the threshold. *)
Theorem alerts_are_consistent (w : World) (req : Request) :
  Forall Notions.alert_consistent (alerts (compute_response w req)).
Proof.
  apply compute_response_Forall. intros row a _ Hb.
  destruct (build_alert_computed _ _ _ _ _ Hb) as [_ [Hd [Hv [Hu Hr]]]].
  apply build_alert_fields in Hb. destruct Hb as [_ [_ [Hs Ht]]].
  unfold Notions.alert_consistent. rewrite Hu, Hr, Hd, Hv, Hs, Ht.
  set (avg := default 0%Q (_ !! _)).
  destruct (reorder_quantity_bounds (row_low_stock_threshold row)
              (row_current_stock row) (supplier a)) as [Hq1 [Hq2 Hq3]].
  assert (Hrest :
    forall days,
      (row_current_stock row <= 0 ->
       calculate_urgency days (row_current_stock row) = critical) /\
      (0 < row_current_stock row -> days = None ->
       calculate_urgency days (row_current_stock row) = low) /\
      10 <= calculate_reorder_quantity (row_low_stock_threshold row)
              (row_current_stock row) (supplier a) /\
      calculate_reorder_quantity (row_low_stock_threshold row)
        (row_current_stock row) (supplier a) mod 10 = 0 /\
      2 * row_low_stock_threshold row
        <= row_current_stock row
           + calculate_reorder_quantity (row_low_stock_threshold row)
               (row_current_stock row) (supplier a)).
  { intros days. unfold calculate_urgency.
    destruct (Z.leb_spec (row_current_stock row) 0).
    - split; [reflexivity|]. split; [lia|]. auto.
    - split; [lia|]. split; [now intros _ ->|]. auto. }
  destruct (Qle_bool avg 0) eqn:Havg.
  - rewrite days_none_without_velocity
      by (right; exists avg; split; [reflexivity | now apply Qle_bool_iff]).
    split; [tauto|]. split; [discriminate|]. apply Hrest.
  - apply Qle_bool_false in Havg.
    rewrite (days_of_positive_velocity _ _ Havg).
    split; [split; discriminate|].
    split; [intros d E; injection E as <-; lia|]. apply Hrest.
Qed.

Lemma sum_nonneg (l : list Z) :
  (forall q, In q l -> 0 <= q) -> 0 <= Notions.sum l.
Proof.
  induction l as [| x l IH]; intros H; simpl; [reflexivity|].
  assert (0 <= x) by (apply H; now left).
  assert (0 <= Notions.sum l) by (apply IH; intros q Hq; apply H; now right).
  unfold Notions.sum in *. lia.
Qed.

Lemma qualifying_quantities_nonneg
    (d : Database) (cutoff_date organization_id : Z) (k : Z * Z) :
  Forall (fun item => 0 <= soi_quantity item) (sales_order_items d) ->
  0 <= Notions.sum (Notions.qualifying_quantities d cutoff_date organization_id k).
Proof.
  intros H. apply sum_nonneg. intros q Hq.
  unfold Notions.qualifying_quantities in Hq.
  apply List.in_flat_map in Hq. destruct Hq as [item [Hitem Hq]].
  apply List.in_flat_map in Hq. destruct Hq as [order [_ Hq]].
  rewrite List.Forall_forall in H.
  match type of Hq with In _ (if ?c then _ else _) => destruct c end;
    [|contradiction].
  destruct Hq as [<- | []]. now apply H.
Qed.

(** With sales quantities that are not negative, a velocity that is not zero
    is positive. *)
Lemma velocity_positive
    (d : Database) (now organization_id : Z) (k : Z * Z) :
  Forall (fun item => 0 <= soi_quantity item) (sales_order_items d) ->
  let avg := default 0%Q (get_recent_sales_data d now organization_id 30 !! k) in
  Qeq_bool avg 0 = false -> (0 < avg)%Q.
Proof.
  intros Hq avg Hne.
  assert (Hnn : (0 <= avg)%Q).
  { subst avg. unfold get_recent_sales_data.
    rewrite lookup_fmap, recent_sales_totals_lookup.
    pose proof (qualifying_quantities_nonneg d (now - 30 * seconds_per_day)
                  organization_id k Hq) as Hs.
    destruct (Notions.qualifying_quantities _ _ _ _) as [| q qs];
      [apply Qle_refl|].
    simpl. simpl in Hs. unfold Qle, Qdiv, Qmult, Qinv. simpl. lia. }
  destruct (Qle_lt_or_eq _ _ Hnn) as [Hlt | Heq]; [exact Hlt|].
  symmetry in Heq. apply Qeq_bool_iff in Heq. congruence.
Qed.

(** X10: when products without sales are not asked for and no sales
    quantity is negative, every alert of a computed response carries a
    velocity and a prediction. *)
Theorem alerts_have_predictions (w : World) (req : Request) :
  req_include_no_sales req = false ->
  Forall (fun item => 0 <= soi_quantity item) (sales_order_items (db w)) ->
  Forall (fun a => exists d v, days_until_stockout a = Some d /\
                               avg_daily_sales a = Some v)
         (alerts (compute_response w req)).
Proof.
  intros Hinc Hq. apply compute_response_Forall. intros row a _ Hb.
  destruct (build_alert_computed _ _ _ _ _ Hb) as [Hskip [Hd [Hv _]]].
  rewrite Hinc in Hskip. cbn [negb andb] in Hskip.
  apply (velocity_positive _ _ _ _ Hq) in Hskip.
  rewrite Hd, Hv, (days_of_positive_velocity _ _ Hskip).
  rewrite (proj2 (Qle_bool_false _ _) Hskip). eauto.
Qed.

Lemma alerts_have_predictions_witness :
  Forall (fun a => exists d v, days_until_stockout a = Some d /\
                               avg_daily_sales a = Some v)
         (alerts (compute_response Fixtures.supplier_world
                                   Scenarios.default_request)).
Proof.
  assert (Hq : Forall (fun item => 0 <= soi_quantity item)
                      (sales_order_items (db Fixtures.supplier_world))).
  { repeat constructor; simpl; lia. }
  exact (alerts_have_predictions Fixtures.supplier_world
           Scenarios.default_request eq_refl Hq).
Defined.

Lemma no_supplier_iff_no_active_relation_witness :
  get_preferred_supplier Scenarios.slow_mover_db 1 = None.
Proof.
  apply (proj2 (no_supplier_iff_no_active_relation Scenarios.slow_mover_db 1)).
  intros ps s [Hps _]. exact Hps.
Defined.

(** ** Filter, limit and order of a computed response *)

(** The sorted list of all the alerts of a request, before the limit. *)
Lemma compute_response_alerts (w : World) (req : Request) :
  alerts (compute_response w req)
  = Py.slice_to (req_limit req)
      (list_sort sort_key
         (flat_map
            (fun row =>
               match build_alert (db w)
                       (get_recent_sales_data (db w) (utcnow w)
                                              (req_company_id req) 30)
                       (req_include_no_sales req) row with
               | Some alert => [alert]
               | None => []
               end)
            (low_stock_query (db w) (req_company_id req) (req_warehouse_id req)
                             (req_threshold_multiplier req)))).
Proof.
  unfold compute_response.
  rewrite <- build_alerts_fst with (warehouse_id := req_warehouse_id req).
  destruct (build_alerts _ _ _ _ _) as [built wid]. reflexivity.
Qed.

Lemma compute_response_total (w : World) (req : Request) :
  total_alerts (compute_response w req)
  = Z.of_nat (List.length (alerts (compute_response w req))).
Proof.
  unfold compute_response.
  destruct (build_alerts _ _ _ _ _) as [built wid]. reflexivity.
Qed.

(** X11: a warehouse filter of 0 is no filter: the alerts are those of the
    request without a filter. *)
Theorem warehouse_zero_is_no_filter (w : World) (req : Request) :
  alerts (compute_response w (Notions.with_warehouse req (Some 0)))
  = alerts (compute_response w (Notions.with_warehouse req None)).
Proof. rewrite !compute_response_alerts. reflexivity. Qed.

(** X12: a limit that is not negative bounds the number of alerts, which
    [total_alerts] counts after the cut; and the response for a limit is the
    beginning of the response for any larger limit. *)
Theorem limit_takes_a_prefix (w : World) (req : Request) (larger : Z) :
  0 <= req_limit req -> req_limit req <= larger ->
  total_alerts (compute_response w req)
    = Z.of_nat (List.length (alerts (compute_response w req))) /\
  total_alerts (compute_response w req) <= req_limit req /\
  alerts (compute_response w req)
    = firstn (Z.to_nat (req_limit req))
             (alerts (compute_response w (with_limit req larger))).
Proof.
  intros H0 Hle. rewrite compute_response_total.
  split; [reflexivity|].
  rewrite !compute_response_alerts. cbn [with_limit req_company_id
    req_warehouse_id req_threshold_multiplier req_include_no_sales req_limit].
  unfold Py.slice_to.
  destruct (Z.leb_spec 0 (req_limit req)); [|lia].
  destruct (Z.leb_spec 0 larger); [|lia].
  split.
  - pose proof (firstn_le_length (Z.to_nat (req_limit req))
                  (list_sort sort_key
                     (flat_map
                        (fun row =>
                           match build_alert (db w)
                                   (get_recent_sales_data (db w) (utcnow w)
                                      (req_company_id req) 30)
                                   (req_include_no_sales req) row with
                           | Some alert => [alert]
                           | None => []
                           end)
                        (low_stock_query (db w) (req_company_id req)
                           (req_warehouse_id req)
                           (req_threshold_multiplier req))))).
    lia.
  - rewrite firstn_firstn. f_equal. lia.
Qed.

Lemma limit_takes_a_prefix_witness :
  total_alerts (compute_response Scenarios.slow_mover_world (Scenarios.all_rows 1))
    <= 1 /\
  alerts (compute_response Scenarios.slow_mover_world (Scenarios.all_rows 1))
    = firstn 1 (alerts (compute_response Scenarios.slow_mover_world
                                         (Scenarios.all_rows 2))).
Proof.
  assert (H0 : 0 <= req_limit (Scenarios.all_rows 1)) by (simpl; lia).
  assert (Hle : req_limit (Scenarios.all_rows 1) <= 2) by (simpl; lia).
  exact (proj2 (limit_takes_a_prefix Scenarios.slow_mover_world
                  (Scenarios.all_rows 1) 2 H0 Hle)).
Defined.

(** X13: a negative limit is not refused by the slice: it drops that many
    alerts from the end of the list that a limit large enough to bind
    nothing returns. *)
Theorem negative_limit_drops_the_tail (w : World) (req : Request) (large : Z) :
  req_limit req < 0 ->
  total_alerts (compute_response w (with_limit req large)) < large ->
  let full := alerts (compute_response w (with_limit req large)) in
  alerts (compute_response w req)
    = firstn (Z.to_nat (Z.of_nat (List.length full) + req_limit req)) full /\
  total_alerts (compute_response w req)
    = Z.max 0 (Z.of_nat (List.length full) + req_limit req).
Proof.
  intros Hneg Hlarge. cbv zeta.
  rewrite !compute_response_total in *. revert Hlarge.
  rewrite !compute_response_alerts. cbn [with_limit req_company_id
    req_warehouse_id req_threshold_multiplier req_include_no_sales req_limit].
  set (sorted := list_sort sort_key _).
  unfold Py.slice_to.
  destruct (Z.leb_spec 0 (req_limit req)); [lia|].
  destruct (Z.leb_spec 0 large) as [Hpos | Hlt].
  - intros Hlarge. rewrite length_firstn in Hlarge.
    assert (Hall : firstn (Z.to_nat large) sorted = sorted)
      by (apply firstn_all2; lia).
    rewrite Hall. split; [reflexivity|]. rewrite length_firstn. lia.
  - intros Hlarge. lia.
Qed.

Lemma negative_limit_drops_the_tail_witness :
  let full :=
    alerts (compute_response Scenarios.slow_mover_world (Scenarios.all_rows 100)) in
  alerts (compute_response Scenarios.slow_mover_world (Scenarios.all_rows (-1)))
    = firstn (Z.to_nat (Z.of_nat (List.length full) + -1)) full /\
  total_alerts (compute_response Scenarios.slow_mover_world
                                 (Scenarios.all_rows (-1)))
    = Z.max 0 (Z.of_nat (List.length full) + -1).
Proof.
  assert (Hneg : req_limit (Scenarios.all_rows (-1)) < 0) by (simpl; lia).
  assert (Hlarge : total_alerts
                     (compute_response Scenarios.slow_mover_world
                        (with_limit (Scenarios.all_rows (-1)) 100)) < 100)
    by (vm_compute; reflexivity).
  exact (negative_limit_drops_the_tail Scenarios.slow_mover_world
           (Scenarios.all_rows (-1)) 100 Hneg Hlarge).
Defined.

Lemma in_order_tuple_leb {A : Type} (key : A -> Z * Z) (a b : A) :
  in_order key a b -> Notions.tuple_leb (key a) (key b) = true.
Proof.
  unfold in_order, Notions.tuple_leb. intros H. apply tuple_ltb_ge in H.
  rewrite orb_true_iff, andb_true_iff, Z.ltb_lt, Z.eqb_eq, Z.leb_le. lia.
Qed.

Lemma StronglySorted_weaken {A : Type} (R R' : A -> A -> Prop) (l : list A) :
  (forall a b, R a b -> R' a b) -> StronglySorted R l -> StronglySorted R' l.
Proof.
  intros HR. induction 1 as [| x l Hs IH Hx]; constructor; [exact IH|].
  eapply List.Forall_impl; [|exact Hx]. intros y. apply HR.
Qed.

(** X14: the alerts of a computed response are in ascending order of the
    pair (days to stockout, or 999 when there is no prediction; current
    stock): each alert's pair is at most the pair of every alert after it. *)
Theorem alerts_ascend_by_sort_key (w : World) (req : Request) :
  StronglySorted
    (fun a b => Notions.tuple_leb (sort_key a) (sort_key b) = true)
    (alerts (compute_response w req)).
Proof.
  eapply StronglySorted_weaken; [|apply compute_response_sorted].
  intros a b. apply in_order_tuple_leb.
Qed.

Lemma build_alerts_loop_snd
    (d : Database) (sales_data : gmap (Z * Z) Q) (include_no_sales : bool)
    (rows : list StockRow) (acc : list Alert) (wid : option Z) :
  snd (fold_left
         (fun (st : list Alert * option Z) item =>
            (match build_alert d sales_data include_no_sales item with
             | Some alert => fst st ++ [alert]
             | None => fst st
             end,
             Some (row_warehouse_id item)))
         rows (acc, wid))
  = match last rows with
    | Some row => Some (row_warehouse_id row)
    | None => wid
    end.
Proof.
  revert acc wid.
  induction rows as [| row rows IH]; intros acc wid; [reflexivity|].
  simpl fold_left. rewrite IH, last_cons.
  destruct (last rows); reflexivity.
Qed.

Lemma build_alerts_snd
    (d : Database) (sales_data : gmap (Z * Z) Q) (include_no_sales : bool)
    (warehouse_id : option Z) (rows : list StockRow) :
  snd (build_alerts d sales_data include_no_sales warehouse_id rows)
  = match last rows with
    | Some row => Some (row_warehouse_id row)
    | None => warehouse_id
    end.
Proof. unfold build_alerts. apply build_alerts_loop_snd. Qed.

(** X15: the parameters echoed in a computed response repeat the request's
    organization, multiplier and flag and the fixed window of 30 days; the
    echoed warehouse is the warehouse of the last row the query returned,
    whatever was requested (the loop reuses the variable), and the requested
    one when the query returns no row. *)
Theorem echoed_warehouse_is_last_row (w : World) (req : Request) :
  let echoed := parameters (compute_response w req) in
  par_organization_id echoed = req_company_id req /\
  par_threshold_multiplier echoed = req_threshold_multiplier req /\
  par_include_no_sales echoed = req_include_no_sales req /\
  par_sales_period_days echoed = 30 /\
  par_warehouse_id echoed
    = match last (low_stock_query (db w) (req_company_id req)
                                  (req_warehouse_id req)
                                  (req_threshold_multiplier req)) with
      | Some row => Some (row_warehouse_id row)
      | None => req_warehouse_id req
      end.
Proof.
  cbv zeta. unfold compute_response.
  rewrite <- build_alerts_snd with
    (d := db w)
    (sales_data := get_recent_sales_data (db w) (utcnow w) (req_company_id req) 30)
    (include_no_sales := req_include_no_sales req).
  destruct (build_alerts _ _ _ _ _) as [built wid].
  refine (conj eq_refl (conj eq_refl (conj eq_refl (conj eq_refl eq_refl)))).
Qed.

(** The request names no warehouse; the response says warehouse 7. *)
Example echoed_warehouse_of_unfiltered_request :
  req_warehouse_id (Scenarios.all_rows 100) = None /\
  par_warehouse_id
    (parameters (compute_response Scenarios.slow_mover_world
                                  (Scenarios.all_rows 100))) = Some 7.
Proof. split; vm_compute; reflexivity. Qed.

(** ** What a request does to the cache *)

(** A request leaves the cache as it was, or answers with the envelope it
    computed and leaves the cache that storing this envelope gives. *)
Lemma cache_after_request (w : World) (req : Request) :
  snd (get_low_stock_alerts w req) = redis_client w \/
  (fst (get_low_stock_alerts w req) = (AlertsBody (compute_response w req), 200) /\
   redis_get (redis_client w) (utcnow w) (make_cache_key req) = Return None /\
   redis_setex (redis_client w) (utcnow w) (make_cache_key req) cache_ttl
               (compute_response w req)
     = Return (snd (get_low_stock_alerts w req))).
Proof.
  unfold get_low_stock_alerts, try_get_low_stock_alerts.
  destruct (current_user w) as [user|]; [|now left].
  destruct (negb (has_access_to_organization user (req_company_id req)));
    [now left|].
  destruct (Qle_bool (req_threshold_multiplier req) 0); [now left|].
  destruct (req_limit req >? 1000); [now left|].
  destruct (Organization_get (db w) (req_company_id req)) as [org|];
    [|now left].
  destruct (negb (org_is_active org)); [now left|].
  unfold cache_step.
  destruct (redis_get _ _ _) as [[cached|]|]; [now left| |now left].
  destruct (redis_setex _ _ _ _ _) as [redis'|]; [|now left].
  right. repeat split.
Qed.

(** X16: a response has one of six statuses, and the cache is written in one
    case only: the response is the envelope computed for this request, with
    status 200, and the cache is the old one with this envelope stored under
    the request's key for 300 seconds.  Every error response, and every
    answer taken from the cache, leaves the cache as it was. *)
Theorem cache_written_only_with_computed_envelope (w : World) (req : Request) :
  let out := get_low_stock_alerts w req in
  In (status (fst out)) [200; 400; 401; 403; 404; 500] /\
  (snd out = redis_client w \/
   (fst out = (AlertsBody (compute_response w req), 200) /\
    redis_setex (redis_client w) (utcnow w) (make_cache_key req) cache_ttl
                (compute_response w req) = Return (snd out))).
Proof.
  cbv zeta. split.
  - unfold get_low_stock_alerts, try_get_low_stock_alerts.
    destruct (current_user w) as [user|]; [|simpl; tauto].
    destruct (negb (has_access_to_organization user (req_company_id req)));
      [simpl; tauto|].
    destruct (Qle_bool (req_threshold_multiplier req) 0); [simpl; tauto|].
    destruct (req_limit req >? 1000); [simpl; tauto|].
    destruct (Organization_get (db w) (req_company_id req)) as [org|];
      [|simpl; tauto].
    destruct (negb (org_is_active org)); [simpl; tauto|].
    unfold cache_step.
    destruct (redis_get _ _ _) as [[cached|]|]; [simpl; tauto| |simpl; tauto].
    destruct (redis_setex _ _ _ _ _) as [redis'|]; simpl; tauto.
  - destruct (cache_after_request w req) as [H | [H1 [_ H2]]];
      [now left | right; now split].
Qed.

Lemma find_after_replace (entries : list CacheEntry) (key : CacheKey) (t : Z) :
  find (fun e => cache_key_eqb (entry_key e) key && (t <? entry_expires_at e))
       (List.filter (fun e => negb (cache_key_eqb (entry_key e) key)) entries)
  = None.
Proof.
  induction entries as [| e entries IH]; simpl; [reflexivity|].
  destruct (cache_key_eqb (entry_key e) key) eqn:E; simpl; [exact IH|].
  now rewrite E.
Qed.

Lemma later_checks (w : World) (req : Request) (r : Redis) (t : Z) :
  (Spec.authorised w req -> Spec.authorised (later w r t) req) /\
  (Spec.organization_active w req -> Spec.organization_active (later w r t) req).
Proof. split; intros H; exact H. Qed.

(** X17: an entry lives 300 seconds.  When a request has computed and stored
    its envelope, the same request made 300 seconds later or more is not
    answered from the cache: its envelope is computed anew, at the new
    time. *)
Theorem expired_entry_is_recomputed (w : World) (req : Request) (t : Z) :
  Spec.authorised w req -> Spec.valid_parameters req ->
  Spec.organization_active w req ->
  redis_get (redis_client w) (utcnow w) (make_cache_key req) = Return None ->
  write_fails (redis_client w) = false ->
  utcnow w + cache_ttl <= t ->
  let first := get_low_stock_alerts w req in
  let w' := later w (snd first) t in
  fst first = (AlertsBody (compute_response w req), 200) /\
  fst (get_low_stock_alerts w' req) = (AlertsBody (compute_response w' req), 200) /\
  generated_at (compute_response w' req) = t.
Proof.
  intros Ha Hv Ho Hg Hw Ht. cbv zeta.
  assert (Hr : read_fails (redis_client w) = false).
  { unfold redis_get in Hg. destruct (read_fails (redis_client w));
      [discriminate | reflexivity]. }
  destruct (cache_miss w req Hg Hw) as [redis' [Hset Hstep]].
  assert (Hfirst : get_low_stock_alerts w req
                   = ((AlertsBody (compute_response w req), 200), redis')).
  { unfold get_low_stock_alerts.
    rewrite (checks_passed w req Ha Hv Ho). now rewrite Hstep. }
  rewrite Hfirst. simpl fst. simpl snd. split; [reflexivity|].
  split.
  - unfold get_low_stock_alerts.
    rewrite (checks_passed (later w redis' t) req Ha Hv Ho).
    unfold redis_setex in Hset. rewrite Hw in Hset.
    injection Hset as Hset.
    assert (Hmiss : redis_get redis' t (make_cache_key req) = Return None).
    { rewrite <- Hset. unfold redis_get. simpl. rewrite Hr, cache_key_eqb_refl.
      destruct (Z.ltb_spec t (utcnow w + cache_ttl)); [lia|].
      simpl. now rewrite find_after_replace. }
    assert (Hw' : write_fails redis' = false) by (now rewrite <- Hset).
    destruct (cache_miss (later w redis' t) req Hmiss Hw') as [redis'' [_ ->]].
    reflexivity.
  - unfold compute_response.
    destruct (build_alerts _ _ _ _ _) as [built wid]. reflexivity.
Qed.

Lemma expired_entry_is_recomputed_witness :
  let first :=
    get_low_stock_alerts Scenarios.slow_mover_world (Scenarios.all_rows 100) in
  let w' := later Scenarios.slow_mover_world (snd first) (Scenarios.today + 300) in
  fst first = (AlertsBody (compute_response Scenarios.slow_mover_world
                                            (Scenarios.all_rows 100)), 200) /\
  fst (get_low_stock_alerts w' (Scenarios.all_rows 100))
    = (AlertsBody (compute_response w' (Scenarios.all_rows 100)), 200) /\
  generated_at (compute_response w' (Scenarios.all_rows 100))
    = Scenarios.today + 300.
Proof.
  destruct (scenario_checks Scenarios.empty_redis Scenarios.today 100
                            ltac:(lia)) as [Ha [Hv Ho]].
  assert (Ht : utcnow Scenarios.slow_mover_world + cache_ttl
               <= Scenarios.today + 300) by (vm_compute; discriminate).
  exact (expired_entry_is_recomputed Scenarios.slow_mover_world
           (Scenarios.all_rows 100) (Scenarios.today + 300)
           Ha Hv Ho eq_refl eq_refl Ht).
Defined.

Lemma option_Z_eqb_eq (a b : option Z) : option_Z_eqb a b = true <-> a = b.
Proof.
  destruct a as [x|], b as [y|]; simpl; try (split; [discriminate|discriminate]).
  - rewrite Z.eqb_eq. split; [now intros -> | now intros [= ->]].
  - split; reflexivity.
Qed.

Lemma cache_key_eqb_true (a b : CacheKey) :
  cache_key_eqb a b = true <->
  key_company_id a = key_company_id b /\
  key_warehouse_id a = key_warehouse_id b /\
  (key_threshold_multiplier a == key_threshold_multiplier b)%Q /\
  key_include_no_sales a = key_include_no_sales b.
Proof.
  unfold cache_key_eqb.
  rewrite !andb_true_iff, Z.eqb_eq, option_Z_eqb_eq, Qeq_bool_iff, eqb_true_iff.
  tauto.
Qed.

(** An entry stored under one key is not found under a different key. *)
Lemma cache_key_eqb_other (e k k' : CacheKey) :
  cache_key_eqb e k = true -> cache_key_eqb k k' = false ->
  cache_key_eqb e k' = false.
Proof.
  intros He Hk. destruct (cache_key_eqb e k') eqn:He'; [|reflexivity].
  apply cache_key_eqb_true in He, He'.
  destruct He as [H1 [H2 [H3 H4]]], He' as [H1' [H2' [H3' H4']]].
  assert (cache_key_eqb k k' = true); [|congruence].
  apply cache_key_eqb_true. repeat split; try congruence.
  now rewrite <- H3, H3'.
Qed.

Lemma find_filter_same {A : Type} (p f : A -> bool) (l : list A) :
  (forall x, f x = false -> p x = false) ->
  find p (List.filter f l) = find p l.
Proof.
  intros H. induction l as [| x l IH]; simpl; [reflexivity|].
  destruct (f x) eqn:Hf; simpl; [now rewrite IH|].
  now rewrite (H x Hf).
Qed.

Lemma redis_get_other_key
    (r r' : Redis) (now t ttl : Z) (k k' : CacheKey) (value : Envelope) :
  redis_setex r now k ttl value = Return r' ->
  cache_key_eqb k k' = false ->
  redis_get r' t k' = redis_get r t k' /\ write_fails r' = write_fails r.
Proof.
  unfold redis_setex. destruct (write_fails r) eqn:Hw; [discriminate|].
  intros H Hk. injection H as <-. split; [|reflexivity].
  unfold redis_get. simpl. rewrite Hk. simpl.
  rewrite find_filter_same; [reflexivity|].
  intros e He. apply negb_false_iff in He.
  now rewrite (cache_key_eqb_other _ _ _ He Hk).
Qed.

(** The response depends on the cache through the lookup of the request's
    key and through whether writing fails. *)
Lemma response_from_lookup (w : World) (req : Request) (r1 r2 : Redis) (t : Z) :
  redis_get r1 t (make_cache_key req) = redis_get r2 t (make_cache_key req) ->
  write_fails r1 = write_fails r2 ->
  fst (get_low_stock_alerts (later w r1 t) req)
  = fst (get_low_stock_alerts (later w r2 t) req).
Proof.
  intros Hg Hw. unfold get_low_stock_alerts, try_get_low_stock_alerts. simpl.
  destruct (current_user w) as [user|]; [|reflexivity].
  destruct (negb (has_access_to_organization user (req_company_id req)));
    [reflexivity|].
  destruct (Qle_bool (req_threshold_multiplier req) 0); [reflexivity|].
  destruct (req_limit req >? 1000); [reflexivity|].
  destruct (Organization_get (db w) (req_company_id req)) as [org|];
    [|reflexivity].
  destruct (negb (org_is_active org)); [reflexivity|].
  unfold cache_step. simpl. rewrite Hg.
  destruct (redis_get r2 t (make_cache_key req)) as [[cached|]|];
    [reflexivity| |reflexivity].
  unfold redis_setex. rewrite Hw.
  destruct (write_fails r2); reflexivity.
Qed.

(** X18: what a request stores is found under its own key only: a later
    request whose key differs (another organization, warehouse filter,
    multiplier or flag) is answered exactly as if the first request had not
    been made. *)
Theorem other_keys_are_unaffected (w : World) (req1 req2 : Request) (t : Z) :
  cache_key_eqb (make_cache_key req1) (make_cache_key req2) = false ->
  fst (get_low_stock_alerts (later w (snd (get_low_stock_alerts w req1)) t) req2)
  = fst (get_low_stock_alerts (later w (redis_client w) t) req2).
Proof.
  intros Hk.
  destruct (cache_after_request w req1) as [-> | [_ [_ Hset]]]; [reflexivity|].
  destruct (redis_get_other_key _ _ _ t _ _ _ _ Hset Hk) as [Hg Hw].
  now apply response_from_lookup.
Qed.

Lemma other_keys_are_unaffected_witness :
  fst (get_low_stock_alerts
         (later Scenarios.slow_mover_world
                (snd (get_low_stock_alerts Scenarios.slow_mover_world
                                           (Scenarios.all_rows 100)))
                (Scenarios.today + 10))
         Scenarios.default_request)
  = fst (get_low_stock_alerts
           (later Scenarios.slow_mover_world
                  (redis_client Scenarios.slow_mover_world)
                  (Scenarios.today + 10))
           Scenarios.default_request).
Proof.
  exact (other_keys_are_unaffected Scenarios.slow_mover_world
           (Scenarios.all_rows 100) Scenarios.default_request
           (Scenarios.today + 10) eq_refl).
Defined.

Lemma second_request_served_from_cache_witness :
  let first :=
    get_low_stock_alerts Scenarios.slow_mover_world
                         (with_limit (Scenarios.all_rows 1) 1) in
  fst first
    = (AlertsBody (compute_response Scenarios.slow_mover_world
                                    (with_limit (Scenarios.all_rows 1) 1)), 200) /\
  get_low_stock_alerts
    (later Scenarios.slow_mover_world (snd first) (Scenarios.today + 299))
    (with_limit (Scenarios.all_rows 1) 2) = first.
Proof.
  destruct (scenario_checks Scenarios.empty_redis Scenarios.today 1
                            ltac:(lia)) as [Ha [_ Ho]].
  assert (H1 : 1 <= 1000) by lia.
  assert (H2 : 2 <= 1000) by lia.
  assert (Ht : Scenarios.today + 299 < utcnow Scenarios.slow_mover_world + cache_ttl)
    by (vm_compute; reflexivity).
  exact (second_request_served_from_cache Scenarios.slow_mover_world
           (Scenarios.all_rows 1) 1 2 (Scenarios.today + 299)
           Ha Ho eq_refl H1 H2 eq_refl eq_refl Ht).
Defined.

(** X20: status 200 is given only to a caller who has access to the
    organization, for an active organization, with a multiplier that the
    guard [threshold_multiplier <= 0] does not refuse and a limit of 1000 at
    most. *)
Theorem success_requires_all_checks (w : World) (req : Request) :
  status (fst (get_low_stock_alerts w req)) = 200 ->
  Spec.authorised w req /\
  ~ (req_threshold_multiplier req <= 0)%Q /\
  req_limit req <= 1000 /\
  Spec.organization_active w req.
Proof.
  unfold get_low_stock_alerts, try_get_low_stock_alerts.
  destruct (current_user w) as [user|] eqn:Hu; [|simpl; discriminate].
  destruct (has_access_to_organization user (req_company_id req)) eqn:Hacc;
    [|simpl; discriminate].
  simpl negb. cbv iota.
  destruct (Qle_bool (req_threshold_multiplier req) 0) eqn:Hm;
    [simpl; discriminate|].
  destruct (Z.gtb_spec (req_limit req) 1000) as [Hl | Hl]; [simpl; discriminate|].
  destruct (Organization_get (db w) (req_company_id req)) as [org|] eqn:Ho;
    [|simpl; discriminate].
  destruct (org_is_active org) eqn:Hact; [|simpl; discriminate].
  intros _. split; [|split; [|split]].
  - exists user. now split.
  - intros Hle. apply Qle_bool_iff in Hle. congruence.
  - exact Hl.
  - exists org. now split.
Qed.

Lemma success_requires_all_checks_witness :
  Spec.authorised Scenarios.slow_mover_world (Scenarios.all_rows 100) /\
  ~ (req_threshold_multiplier (Scenarios.all_rows 100) <= 0)%Q /\
  req_limit (Scenarios.all_rows 100) <= 1000 /\
  Spec.organization_active Scenarios.slow_mover_world (Scenarios.all_rows 100).
Proof.
  exact (success_requires_all_checks Scenarios.slow_mover_world
           (Scenarios.all_rows 100) eq_refl).
Defined.

End LowStockAlertFacts.

(** * Properties of productapi.py *)

Module ProductApiFacts.

Import ProductApi.

(** The pre-check looks the raw text up: it finds nothing as soon as no stored
    SKU is that text, whatever the text normalises to. *)
Lemma precheck_compares_raw_text (d : Database) (raw : string) :
  (forall p, In p (products d) -> prod_sku p <> raw) ->
  Product_first_by_sku d (JStr raw) = None.
Proof.
  intros H. simpl.
  destruct (find _ (products d)) as [p|] eqn:E; [|reflexivity].
  apply find_some in E. destruct E as [Hin Heq].
  apply String.eqb_eq in Heq. exfalso. exact (H p Hin Heq).
Qed.

(** The row that is stored carries the normalised text. *)
Lemma stored_sku_is_normalised
    (d d' : Database) (name sku : string) (price : Q) (user now : Z)
    (product : Product) :
  add_product d name sku price user now = Return (product, d') ->
  prod_sku product = sku /\ products d' = products d ++ [product].
Proof.
  unfold add_product.
  destruct (sku_unique d && existsb _ (products d)); [discriminate|].
  intros H. injection H as <- <-. split; reflexivity.
Qed.

(** With a unique SKU column the same request is refused by the database,
    not by the pre-check. *)
Lemma constrained_column_refuses_duplicate
    (Decimal_of_string : string -> option Q)
    (int_of_string : string -> option Z) :
  fst (create_product Decimal_of_string int_of_string
         (ProductScenarios.shop (ProductScenarios.constrained
                                   ProductScenarios.catalogue))
         (ProductScenarios.new_product "abc"))
  = (ConstraintBody "Database constraint violation", 409).
Proof. reflexivity. Qed.

(** C10: the pre-check compares the raw SKU, the stored SKU is the raw one
    stripped and upper-cased; a request with SKU [abc] (or [ ABC ] between
    blanks) when [ABC] is stored passes the pre-check and a second product
    with SKU [ABC] is created. *)
Theorem sku_check_misses_normalised_duplicate
    (Decimal_of_string : string -> option Q)
    (int_of_string : string -> option Z) :
  exists (w : World) (data : JsonObject) (raw : string) (existing : Product),
    dict_get data "sku" = Some (JStr raw) /\
    In existing (products (db w)) /\
    raw <> prod_sku existing /\
    Py.upper (Py.strip raw) = prod_sku existing /\
    Py.upper (Py.strip " ABC ") = prod_sku existing /\
    Product_first_by_sku (db w) (JStr raw) = None /\
    Product_first_by_sku (db w) (JStr " ABC ") = None /\
    let out := create_product Decimal_of_string int_of_string w data in
    status (fst out) = 201 /\
    exists created,
      products (snd out) = products (db w) ++ [created] /\
      prod_sku created = prod_sku existing /\
      prod_id created <> prod_id existing.
Proof.
  exists (ProductScenarios.shop ProductScenarios.catalogue),
         (ProductScenarios.new_product "abc"), "abc"%string.
  eexists. split; [reflexivity|].
  split; [left; reflexivity|].
  split; [discriminate|].
  split; [reflexivity|]. split; [reflexivity|].
  split; [reflexivity|]. split; [reflexivity|].
  cbv zeta. split; [reflexivity|].
  eexists. split; [reflexivity|]. split; [reflexivity | discriminate].
Qed.

(** ** Further properties of product creation *)

(** Past the checks, the outcome is decided by the SKU pre-check and the
    transaction. *)
Lemma validated_request
    (Decimal_of_string : string -> option Q) (int_of_string : string -> option Z)
    (w : World) (data : JsonObject) (user : User)
    (name_field sku_field warehouse_field : json)
    (price : Q) (initial_quantity : Z) (warehouse : Warehouse) :
  ProductNotions.passes_validation Decimal_of_string int_of_string w data user
    name_field sku_field warehouse_field price initial_quantity warehouse ->
  create_product Decimal_of_string int_of_string w data
  = match Product_first_by_sku (db w) sku_field with
    | Some existing_product =>
        ((SkuExistsBody "SKU already exists" (prod_id existing_product), 409),
         db w)
    | None =>
        match create_transaction w user name_field sku_field warehouse_field
                                 warehouse price initial_quantity with
        | Return out => out
        | Raise IntegrityError =>
            ((ConstraintBody "Database constraint violation", 409), db w)
        | Raise SQLAlchemyError =>
            ((ErrorMessageBody "Database error occurred"
                               "Please try again or contact support", 500), db w)
        | Raise AttributeError =>
            ((ErrorMessageBody "An unexpected error occurred"
                               "Please contact support", 500), db w)
        end
    end.
Proof.
  intros [Hu [Hn [Hs [[pv [Hp Hpp]] [Hp0 [Hw [[qv [Hq Hqp]] [Hq0 [Hwh Hacc]]]]]]]]].
  unfold create_product. rewrite Hu.
  unfold required_fields. cbn [List.filter]. unfold dict_in.
  rewrite Hn, Hs, Hp, Hw, Hq. cbn [negb].
  rewrite Hpp. rewrite (proj2 (Qle_bool_iff _ _) Hp0). cbn [negb].
  rewrite Hqp. destruct (Z.ltb_spec initial_quantity 0); [lia|].
  rewrite Hwh, Hacc. cbn [negb]. reflexivity.
Qed.

(** What a transaction that commits has done. *)
Lemma create_transaction_commits
    (w : World) (user : User) (name_field sku_field warehouse_field : json)
    (warehouse : Warehouse) (price : Q) (initial_quantity : Z)
    (response : Response) (d' : Database) :
  create_transaction w user name_field sku_field warehouse_field warehouse
                     price initial_quantity = Return (response, d') ->
  status response = 201 /\
  exists name raw product,
    name_field = JStr name /\ sku_field = JStr raw /\
    add_product (db w) (Py.strip name) (ProductNotions.normalise raw) price
                (user_id user) (utcnow w)
      = Return (product,
                {| products := products (db w) ++ [product];
                   inventory := inventory (db w);
                   warehouses := warehouses (db w);
                   next_product_id := next_product_id (db w) + 1;
                   sku_unique := sku_unique (db w) |}) /\
    prod_sku product = ProductNotions.normalise raw /\
    prod_id product = next_product_id (db w) /\
    d' = upsert_inventory
           {| products := products (db w) ++ [product];
              inventory := inventory (db w);
              warehouses := warehouses (db w);
              next_product_id := next_product_id (db w) + 1;
              sku_unique := sku_unique (db w) |}
           (prod_id product) (wh_id warehouse) initial_quantity
           (user_id user) (utcnow w).
Proof.
  unfold create_transaction, json_strip.
  destruct name_field as [| | | |name]; try discriminate.
  destruct sku_field as [| | | |raw]; try discriminate.
  destruct (add_product (db w) (Py.strip name) (Py.upper (Py.strip raw)) price
                        (user_id user) (utcnow w))
    as [[product d1]|e] eqn:Hadd; [|discriminate].
  intros H. injection H as <- <-. split; [reflexivity|].
  exists name, raw, product.
  assert (Hd1 : d1 = {| products := products (db w) ++ [product];
                        inventory := inventory (db w);
                        warehouses := warehouses (db w);
                        next_product_id := next_product_id (db w) + 1;
                        sku_unique := sku_unique (db w) |} /\
                prod_sku product = ProductNotions.normalise raw /\
                prod_id product = next_product_id (db w)).
  { unfold add_product in Hadd.
    destruct (sku_unique (db w) && existsb _ (products (db w)));
      [discriminate|].
    injection Hadd as <- <-. repeat split. }
  destruct Hd1 as [-> [Hsku Hid]].
  unfold ProductNotions.normalise.
  repeat split; assumption.
Qed.

(** Every outcome of the view: the database untouched and a status other
    than 201, or status 201 and one product added. *)
Lemma creation_effect
    (Decimal_of_string : string -> option Q) (int_of_string : string -> option Z)
    (w : World) (data : JsonObject) :
  let out := create_product Decimal_of_string int_of_string w data in
  (status (fst out) <> 201 /\ snd out = db w) \/
  (status (fst out) = 201 /\
   exists user name raw warehouse_field warehouse quantity_field
          initial_quantity product,
     get_current_user w = Some user /\
     dict_get data "name" = Some (JStr name) /\
     dict_get data "sku" = Some (JStr raw) /\
     dict_get data "warehouse_id" = Some warehouse_field /\
     Warehouse_get (db w) warehouse_field = Some warehouse /\
     dict_get data "initial_quantity" = Some quantity_field /\
     parse_quantity int_of_string quantity_field = Some initial_quantity /\
     Product_first_by_sku (db w) (JStr raw) = None /\
     0 <= initial_quantity /\
     prod_sku product = ProductNotions.normalise raw /\
     prod_id product = next_product_id (db w) /\
     (sku_unique (db w) = true ->
      forall p, In p (products (db w)) -> prod_sku p <> prod_sku product) /\
     snd out
     = upsert_inventory
         {| products := products (db w) ++ [product];
            inventory := inventory (db w);
            warehouses := warehouses (db w);
            next_product_id := next_product_id (db w) + 1;
            sku_unique := sku_unique (db w) |}
         (prod_id product) (wh_id warehouse) initial_quantity
         (user_id user) (utcnow w)).
Proof.
  cbv zeta. unfold create_product.
  destruct (get_current_user w) as [user|];
    [|left; split; [simpl; discriminate | reflexivity]].
  destruct (List.filter _ required_fields);
    [|left; split; [simpl; discriminate | reflexivity]].
  destruct (dict_get data "name") as [name_field|];
    [|left; split; [simpl; discriminate | reflexivity]].
  destruct (dict_get data "sku") as [sku_field|];
    [|left; split; [simpl; discriminate | reflexivity]].
  destruct (dict_get data "price") as [price_field|];
    [|left; split; [simpl; discriminate | reflexivity]].
  destruct (dict_get data "warehouse_id") as [warehouse_field|];
    [|left; split; [simpl; discriminate | reflexivity]].
  destruct (dict_get data "initial_quantity") as [quantity_field|];
    [|left; split; [simpl; discriminate | reflexivity]].
  destruct (parse_price _ price_field) as [price|];
    [|left; split; [simpl; discriminate | reflexivity]].
  destruct (negb (Qle_bool 0 price));
    [left; split; [simpl; discriminate | reflexivity]|].
  destruct (parse_quantity _ quantity_field) as [initial_quantity|] eqn:Hqty;
    [|left; split; [simpl; discriminate | reflexivity]].
  destruct (Z.ltb_spec initial_quantity 0);
    [left; split; [simpl; discriminate | reflexivity]|].
  destruct (Warehouse_get (db w) warehouse_field) as [warehouse|] eqn:Hwh;
    [|left; split; [simpl; discriminate | reflexivity]].
  destruct (negb (has_access_to_warehouse user (wh_id warehouse)));
    [left; split; [simpl; discriminate | reflexivity]|].
  destruct (Product_first_by_sku (db w) sku_field) as [existing|] eqn:Hpre;
    [left; split; [simpl; discriminate | reflexivity]|].
  destruct (create_transaction w user name_field sku_field warehouse_field
                               warehouse price initial_quantity)
    as [[response d']|e] eqn:Ht;
    [|destruct e; left; split; solve [simpl; discriminate | reflexivity]].
  apply create_transaction_commits in Ht.
  destruct Ht as [Hst [name [raw [product [-> [-> [Hadd [Hsku [Hid ->]]]]]]]]].
  right. split; [exact Hst|].
  exists user, name, raw, warehouse_field, warehouse, quantity_field,
         initial_quantity, product.
  repeat (split; [first [reflexivity | assumption]|]).
  split; [|reflexivity].
  intros Hu p Hp E. unfold add_product in Hadd. rewrite Hu in Hadd.
  destruct (existsb _ (products (db w))) eqn:Hex; [discriminate|].
  assert (Hin : existsb (fun p => String.eqb (prod_sku p)
                                    (ProductNotions.normalise raw))
                        (products (db w)) = true).
  { apply existsb_exists. exists p. split; [exact Hp|].
    apply String.eqb_eq. now rewrite E. }
  rewrite Hin in Hex. discriminate Hex.
Qed.

(** X21: creation is all or nothing: any response other than 201 leaves the
    database exactly as it was; a 201 adds one product, with the next id of
    the sequence, after the existing ones, and touches no warehouse. *)
Theorem create_product_is_atomic
    (Decimal_of_string : string -> option Q) (int_of_string : string -> option Z)
    (w : World) (data : JsonObject) :
  let out := create_product Decimal_of_string int_of_string w data in
  (status (fst out) <> 201 -> snd out = db w) /\
  (status (fst out) = 201 ->
   exists product,
     products (snd out) = products (db w) ++ [product] /\
     prod_id product = next_product_id (db w) /\
     next_product_id (snd out) = next_product_id (db w) + 1 /\
     warehouses (snd out) = warehouses (db w)).
Proof.
  cbv zeta.
  destruct (creation_effect Decimal_of_string int_of_string w data)
    as [[Hst Hdb] | [Hst H]].
  - split; [intros _; exact Hdb | intros E; contradiction].
  - split; [intros E; contradiction|]. intros _.
    destruct H as [user [name [raw [wf [wh [qf [q [product H]]]]]]]].
    decompose [and] H. exists product.
    match goal with E : snd _ = _ |- _ => rewrite E end.
    repeat split; assumption.
Qed.

Lemma create_product_is_atomic_witness :
  let out :=
    create_product (fun _ => None) (fun _ => None)
      (ProductScenarios.shop ProductScenarios.catalogue)
      (ProductScenarios.new_product "ABC") in
  snd out = ProductScenarios.catalogue.
Proof.
  apply (proj1 (create_product_is_atomic (fun _ => None) (fun _ => None)
                  (ProductScenarios.shop ProductScenarios.catalogue)
                  (ProductScenarios.new_product "ABC"))).
  vm_compute. discriminate.
Defined.

(** X22: when required fields are absent the answer is 400 with the list of
    exactly those fields, in the order name, sku, price, warehouse_id,
    initial_quantity, and nothing is written. *)
Theorem missing_fields_are_reported
    (Decimal_of_string : string -> option Q) (int_of_string : string -> option Z)
    (w : World) (data : JsonObject) (user : User) :
  get_current_user w = Some user ->
  let missing :=
    List.filter (fun field => negb (dict_in field data)) required_fields in
  missing <> [] ->
  create_product Decimal_of_string int_of_string w data
    = ((MissingFieldsBody "Missing required fields" missing, 400), db w) /\
  (forall field,
      In field missing <->
      In field required_fields /\ dict_get data field = None).
Proof.
  intros Hu missing Hne. split.
  - unfold create_product. rewrite Hu. fold missing.
    destruct missing as [| f fs]; [contradiction | reflexivity].
  - intros field. subst missing. rewrite List.filter_In. unfold dict_in.
    destruct (dict_get data field); simpl; split;
      intros [H1 H2]; (split; [exact H1|]); congruence.
Qed.

Lemma missing_fields_are_reported_witness :
  create_product (fun _ => None) (fun _ => None)
    (ProductScenarios.shop ProductScenarios.catalogue)
    [("sku", JStr "abc"); ("price", JInt 3)]%string
  = ((MissingFieldsBody "Missing required fields"
        ["name"; "warehouse_id"; "initial_quantity"]%string, 400),
     ProductScenarios.catalogue).
Proof.
  apply (missing_fields_are_reported (fun _ => None) (fun _ => None)
           (ProductScenarios.shop ProductScenarios.catalogue)
           [("sku", JStr "abc"); ("price", JInt 3)]%string
           {| user_id := 1; user_warehouses := [7] |} eq_refl).
  discriminate.
Defined.

(** X23: a request that passes validation and whose SKU text is, as given,
    the SKU of a stored product is refused with 409, the body naming the id
    of the first such product, and nothing is written. *)
Theorem duplicate_sku_is_conflict
    (Decimal_of_string : string -> option Q) (int_of_string : string -> option Z)
    (w : World) (data : JsonObject) (user : User)
    (name_field warehouse_field : json) (raw : string)
    (price : Q) (initial_quantity : Z) (warehouse : Warehouse) (p : Product) :
  ProductNotions.passes_validation Decimal_of_string int_of_string w data user
    name_field (JStr raw) warehouse_field price initial_quantity warehouse ->
  In p (products (db w)) -> prod_sku p = raw ->
  exists existing,
    In existing (products (db w)) /\ prod_sku existing = raw /\
    create_product Decimal_of_string int_of_string w data
      = ((SkuExistsBody "SKU already exists" (prod_id existing), 409), db w).
Proof.
  intros Hv Hp Hsku. rewrite (validated_request _ _ _ _ _ _ _ _ _ _ _ Hv).
  simpl. destruct (find _ (products (db w))) as [existing|] eqn:Hf.
  - exists existing. apply find_some in Hf. destruct Hf as [Hin Heq].
    apply String.eqb_eq in Heq. repeat split; assumption.
  - exfalso. apply (find_none _ _ Hf) in Hp.
    apply String.eqb_neq in Hp. contradiction.
Qed.

Lemma duplicate_sku_is_conflict_witness :
  exists existing,
    In existing (products ProductScenarios.catalogue) /\
    prod_sku existing = "ABC"%string /\
    create_product (fun _ => None) (fun _ => None)
      (ProductScenarios.shop ProductScenarios.catalogue)
      (ProductScenarios.new_product "ABC")
    = ((SkuExistsBody "SKU already exists" (prod_id existing), 409),
       ProductScenarios.catalogue).
Proof.
  assert (Hv : ProductNotions.passes_validation (fun _ => None) (fun _ => None)
                 (ProductScenarios.shop ProductScenarios.catalogue)
                 (ProductScenarios.new_product "ABC")
                 {| user_id := 1; user_warehouses := [7] |}
                 (JStr "Widget again") (JStr "ABC") (JInt 7)
                 (inject_Z 12) 5 {| wh_id := 7 |}).
  { unfold ProductNotions.passes_validation.
    refine (conj eq_refl (conj eq_refl (conj eq_refl (conj _ (conj _
             (conj eq_refl (conj _ (conj _ (conj eq_refl eq_refl))))))))).
    - exists (JInt 12). split; reflexivity.
    - discriminate.
    - exists (JInt 5). split; reflexivity.
    - lia. }
  exact (duplicate_sku_is_conflict _ _ _ _ _ _ _ _ _ _ _
           {| prod_id := 1; prod_name := "Widget"; prod_sku := "ABC";
              prod_price := 10; prod_created_by := 1; prod_created_at := 0 |}
           Hv (or_introl eq_refl) eq_refl).
Defined.

Lemma NoDup_snoc {A : Type} (l : list A) (x : A) :
  List.NoDup l -> ~ In x l -> List.NoDup (l ++ [x]).
Proof.
  induction 1 as [| y l Hy Hl IH]; intros Hx; simpl.
  - constructor; [intros [] | constructor].
  - constructor.
    + intros H. apply in_app_or in H. destruct H as [H | [-> | []]].
      * contradiction.
      * apply Hx. now left.
    + apply IH. intros H. apply Hx. now right.
Qed.

(** X24: over a unique SKU column, creation keeps the stored SKUs pairwise
    distinct, whatever the request. *)
Theorem unique_column_keeps_skus_distinct
    (Decimal_of_string : string -> option Q) (int_of_string : string -> option Z)
    (w : World) (data : JsonObject) :
  sku_unique (db w) = true ->
  List.NoDup (map prod_sku (products (db w))) ->
  let out := create_product Decimal_of_string int_of_string w data in
  sku_unique (snd out) = true /\
  List.NoDup (map prod_sku (products (snd out))).
Proof.
  intros Hu Hnd. cbv zeta.
  destruct (creation_effect Decimal_of_string int_of_string w data)
    as [[_ ->] | [_ H]]; [now split|].
  destruct H as [user [name [raw [wf [wh [qf [q [product H]]]]]]]].
  decompose [and] H.
  match goal with E : snd _ = _ |- _ => rewrite E end.
  split; [exact Hu|].
  change (List.NoDup (map prod_sku (products (db w) ++ [product]))).
  rewrite map_app. apply NoDup_snoc; [exact Hnd|].
  intros Hin. apply List.in_map_iff in Hin. destruct Hin as [p [E Hp]].
  match goal with Hd : sku_unique (db w) = true -> _ |- _ =>
    exact (Hd Hu p Hp E) end.
Qed.

Lemma unique_column_keeps_skus_distinct_witness :
  let out :=
    create_product (fun _ => None) (fun _ => None)
      (ProductScenarios.shop (ProductScenarios.constrained
                                ProductScenarios.catalogue))
      (ProductScenarios.new_product "abc") in
  sku_unique (snd out) = true /\
  List.NoDup (map prod_sku (products (snd out))).
Proof.
  assert (Hnd : List.NoDup
                  (map prod_sku
                     (products (db (ProductScenarios.shop
                                      (ProductScenarios.constrained
                                         ProductScenarios.catalogue))))))
    by (repeat constructor; intros []).
  exact (unique_column_keeps_skus_distinct (fun _ => None) (fun _ => None)
           (ProductScenarios.shop (ProductScenarios.constrained
                                     ProductScenarios.catalogue))
           (ProductScenarios.new_product "abc") eq_refl Hnd).
Defined.

(** *** The normal form of a SKU *)

Lemma upper_char_idem (c : ascii) : Py.upper_char (Py.upper_char c) = Py.upper_char c.
Proof. destruct c as [[] [] [] [] [] [] [] []]; reflexivity. Qed.

Lemma isspace_upper_char (c : ascii) : Py.isspace (Py.upper_char c) = Py.isspace c.
Proof. destruct c as [[] [] [] [] [] [] [] []]; reflexivity. Qed.

Lemma upper_idem (s : string) : Py.upper (Py.upper s) = Py.upper s.
Proof.
  induction s as [| c s IH]; simpl; [reflexivity|].
  now rewrite upper_char_idem, IH.
Qed.

Lemma lstrip_upper (s : string) : Py.lstrip (Py.upper s) = Py.upper (Py.lstrip s).
Proof.
  induction s as [| c s IH]; simpl; [reflexivity|].
  rewrite isspace_upper_char. destruct (Py.isspace c); [exact IH | reflexivity].
Qed.

Lemma rstrip_upper (s : string) : Py.rstrip (Py.upper s) = Py.upper (Py.rstrip s).
Proof.
  induction s as [| c s IH]; simpl; [reflexivity|].
  rewrite IH, isspace_upper_char.
  destruct (Py.rstrip s); simpl; [destruct (Py.isspace c)|]; reflexivity.
Qed.

Lemma lstrip_idem (s : string) : Py.lstrip (Py.lstrip s) = Py.lstrip s.
Proof.
  induction s as [| c s IH]; simpl; [reflexivity|].
  destruct (Py.isspace c) eqn:E; [exact IH|]. simpl. now rewrite E.
Qed.

Lemma rstrip_idem (s : string) : Py.rstrip (Py.rstrip s) = Py.rstrip s.
Proof.
  induction s as [| c s IH]; simpl; [reflexivity|].
  destruct (Py.rstrip s) as [| a r] eqn:E.
  - destruct (Py.isspace c) eqn:Ec; simpl; [reflexivity | now rewrite Ec].
  - change (Py.rstrip (String c (String a r))) with
      (match Py.rstrip (String a r) with
       | EmptyString =>
           if Py.isspace c then EmptyString else String c EmptyString
       | r' => String c r'
       end).
    now rewrite IH.
Qed.

(** Stripping on the right keeps a first character that is not a blank. *)
Lemma lstrip_rstrip_lstrip (s : string) :
  Py.lstrip (Py.rstrip (Py.lstrip s)) = Py.rstrip (Py.lstrip s).
Proof.
  induction s as [| c s IH]; simpl; [reflexivity|].
  destruct (Py.isspace c) eqn:E; [exact IH|].
  simpl. destruct (Py.rstrip s); rewrite ?E; simpl; now rewrite E.
Qed.

Lemma strip_idem (s : string) : Py.strip (Py.strip s) = Py.strip s.
Proof.
  unfold Py.strip. now rewrite lstrip_rstrip_lstrip, rstrip_idem.
Qed.

Lemma normalise_idem (s : string) :
  ProductNotions.normalise (ProductNotions.normalise s)
  = ProductNotions.normalise s.
Proof.
  unfold ProductNotions.normalise, Py.strip.
  now rewrite lstrip_upper, rstrip_upper, upper_idem,
    lstrip_rstrip_lstrip, rstrip_idem.
Qed.

Lemma is_ascii_upper_char (c : ascii) :
  ProductNotions.is_ascii_char (Py.upper_char c) = ProductNotions.is_ascii_char c.
Proof. destruct c as [[] [] [] [] [] [] [] []]; reflexivity. Qed.

Lemma is_ascii_upper (s : string) :
  ProductNotions.is_ascii (Py.upper s) = ProductNotions.is_ascii s.
Proof.
  induction s as [| c s IH]; simpl; [reflexivity|].
  now rewrite is_ascii_upper_char, IH.
Qed.

Lemma is_ascii_lstrip (s : string) :
  ProductNotions.is_ascii s = true -> ProductNotions.is_ascii (Py.lstrip s) = true.
Proof.
  induction s as [| c s IH]; simpl; [reflexivity|].
  intros H. apply andb_prop in H. destruct H as [Hc Hs].
  destruct (Py.isspace c); [exact (IH Hs)|].
  simpl. now rewrite Hc, Hs.
Qed.

Lemma is_ascii_rstrip (s : string) :
  ProductNotions.is_ascii s = true -> ProductNotions.is_ascii (Py.rstrip s) = true.
Proof.
  induction s as [| c s IH]; simpl; [reflexivity|].
  intros H. apply andb_prop in H. destruct H as [Hc Hs].
  specialize (IH Hs).
  destruct (Py.rstrip s) as [| a r].
  - destruct (Py.isspace c); simpl; [reflexivity | now rewrite Hc].
  - change (ProductNotions.is_ascii (String c (String a r)))
      with (ProductNotions.is_ascii_char c
            && ProductNotions.is_ascii (String a r)).
    now rewrite Hc, IH.
Qed.

Lemma is_ascii_normalise (s : string) :
  ProductNotions.is_ascii s = true ->
  ProductNotions.is_ascii (ProductNotions.normalise s) = true.
Proof.
  intros H. unfold ProductNotions.normalise, Py.strip.
  rewrite is_ascii_upper. now apply is_ascii_rstrip, is_ascii_lstrip.
Qed.

(** X25: when the SKU of the request is text of the ASCII range, the SKU of
    the created product is that text stripped and upper-cased, it is again
    text of the ASCII range, and it is in normal form: stripping and
    upper-casing it again changes nothing. *)
Theorem stored_sku_is_in_normal_form
    (Decimal_of_string : string -> option Q) (int_of_string : string -> option Z)
    (w : World) (data : JsonObject) (raw : string) :
  let out := create_product Decimal_of_string int_of_string w data in
  status (fst out) = 201 ->
  dict_get data "sku" = Some (JStr raw) ->
  ProductNotions.is_ascii raw = true ->
  exists product,
    products (snd out) = products (db w) ++ [product] /\
    prod_sku product = Py.upper (Py.strip raw) /\
    ProductNotions.is_ascii (prod_sku product) = true /\
    Py.upper (Py.strip (prod_sku product)) = prod_sku product.
Proof.
  cbv zeta. intros Hst Hsku Hascii.
  destruct (creation_effect Decimal_of_string int_of_string w data)
    as [[Hne _] | [_ H]]; [contradiction|].
  destruct H as [user [name [raw' [wf [wh [qf [q [product H]]]]]]]].
  decompose [and] H. exists product.
  assert (Hraw : raw' = raw) by congruence. subst raw'.
  match goal with E : snd _ = _ |- _ => rewrite E end.
  match goal with E : prod_sku product = _ |- _ => rewrite E end.
  split; [reflexivity|]. split; [reflexivity|].
  split; [exact (is_ascii_normalise raw Hascii) | apply normalise_idem].
Qed.

Lemma stored_sku_is_in_normal_form_witness :
  let out :=
    create_product (fun _ => None) (fun _ => None)
      (ProductScenarios.shop ProductScenarios.catalogue)
      (ProductScenarios.new_product "  xy-9 ") in
  exists product,
    products (snd out) = products ProductScenarios.catalogue ++ [product] /\
    prod_sku product = Py.upper (Py.strip "  xy-9 ") /\
    ProductNotions.is_ascii (prod_sku product) = true /\
    Py.upper (Py.strip (prod_sku product)) = prod_sku product.
Proof.
  exact (stored_sku_is_in_normal_form (fun _ => None) (fun _ => None)
           (ProductScenarios.shop ProductScenarios.catalogue)
           (ProductScenarios.new_product "  xy-9 ") "  xy-9 "
           eq_refl eq_refl eq_refl).
Defined.

(** X26: a request that passes validation with a SKU that is text and that
    no product carries, but whose name is not text (a number, a boolean,
    null), is not refused as invalid: [strip] fails on the name, and the
    answer is the generic 500 with nothing written. *)
Theorem non_text_name_is_internal_error
    (Decimal_of_string : string -> option Q) (int_of_string : string -> option Z)
    (w : World) (data : JsonObject) (user : User)
    (name_field warehouse_field : json) (sku : string)
    (price : Q) (initial_quantity : Z) (warehouse : Warehouse) :
  ProductNotions.passes_validation Decimal_of_string int_of_string w data user
    name_field (JStr sku) warehouse_field price initial_quantity warehouse ->
  (forall s, name_field <> JStr s) ->
  Product_first_by_sku (db w) (JStr sku) = None ->
  create_product Decimal_of_string int_of_string w data
    = ((ErrorMessageBody "An unexpected error occurred" "Please contact support",
        500), db w).
Proof.
  intros Hv Hname Hpre. rewrite (validated_request _ _ _ _ _ _ _ _ _ _ _ Hv).
  rewrite Hpre.
  destruct name_field as [| | | |s]; try reflexivity.
  exfalso. exact (Hname s eq_refl).
Qed.

Lemma non_text_name_is_internal_error_witness :
  create_product (fun _ => None) (fun _ => None)
    (ProductScenarios.shop ProductScenarios.catalogue)
    [ ("name", JInt 123); ("sku", JStr "XY-9"); ("price", JInt 12);
      ("warehouse_id", JInt 7); ("initial_quantity", JInt 5) ]%string
  = ((ErrorMessageBody "An unexpected error occurred" "Please contact support",
      500), ProductScenarios.catalogue).
Proof.
  assert (Hv : ProductNotions.passes_validation (fun _ => None) (fun _ => None)
                 (ProductScenarios.shop ProductScenarios.catalogue)
                 [ ("name", JInt 123); ("sku", JStr "XY-9");
                   ("price", JInt 12); ("warehouse_id", JInt 7);
                   ("initial_quantity", JInt 5) ]%string
                 {| user_id := 1; user_warehouses := [7] |}
                 (JInt 123) (JStr "XY-9") (JInt 7)
                 (inject_Z 12) 5 {| wh_id := 7 |}).
  { unfold ProductNotions.passes_validation.
    refine (conj eq_refl (conj eq_refl (conj eq_refl (conj _ (conj _
             (conj eq_refl (conj _ (conj _ (conj eq_refl eq_refl))))))))).
    - exists (JInt 12). split; reflexivity.
    - discriminate.
    - exists (JInt 5). split; reflexivity.
    - lia. }
  assert (Hname : forall s, JInt 123 <> JStr s) by discriminate.
  exact (non_text_name_is_internal_error _ _ _ _ _ _ _ _ _ _ _
           Hv Hname eq_refl).
Defined.

Lemma find_all_false {A : Type} (f : A -> bool) (l : list A) :
  (forall x, In x l -> f x = false) -> find f l = None.
Proof.
  induction l as [| x l IH]; intros H; simpl; [reflexivity|].
  rewrite (H x (or_introl eq_refl)). apply IH. intros y Hy. apply H. now right.
Qed.

(** X27: when no inventory row refers to the id the new product takes, a 201
    adds exactly one inventory row, after the existing ones: the new product
    in the requested warehouse with the requested quantity, created by the
    caller at the time of the call. *)
Theorem new_product_gets_inventory_row
    (Decimal_of_string : string -> option Q) (int_of_string : string -> option Z)
    (w : World) (data : JsonObject) :
  (forall i, In i (inventory (db w)) ->
             inv_product_id i <> next_product_id (db w)) ->
  let out := create_product Decimal_of_string int_of_string w data in
  status (fst out) = 201 ->
  exists user warehouse_field warehouse quantity_field initial_quantity,
    get_current_user w = Some user /\
    dict_get data "warehouse_id" = Some warehouse_field /\
    Warehouse_get (db w) warehouse_field = Some warehouse /\
    dict_get data "initial_quantity" = Some quantity_field /\
    parse_quantity int_of_string quantity_field = Some initial_quantity /\
    inventory (snd out)
    = inventory (db w) ++
      [ {| inv_product_id := next_product_id (db w);
           inv_warehouse_id := wh_id warehouse;
           inv_quantity := initial_quantity;
           inv_created_by := user_id user;
           inv_created_at := utcnow w;
           inv_updated_by := None;
           inv_updated_at := None |} ].
Proof.
  intros Hfresh. cbv zeta. intros Hst.
  destruct (creation_effect Decimal_of_string int_of_string w data)
    as [[Hne _] | [_ H]]; [contradiction|].
  destruct H as [user [name [raw [wf [wh [qf [q [product H]]]]]]]].
  destruct H as [Hu [_ [_ [Hwf [Hwh [Hqf [Hq [_ [_ [_ [Hid [_ Hout]]]]]]]]]]]].
  exists user, wf, wh, qf, q.
  repeat (split; [assumption|]).
  rewrite Hout, Hid. unfold upsert_inventory, Inventory_first.
  cbn [inventory].
  rewrite find_all_false; [reflexivity|].
  intros i Hi. apply andb_false_iff. left. apply Z.eqb_neq.
  now apply Hfresh.
Qed.

Lemma new_product_gets_inventory_row_witness :
  let out :=
    create_product (fun _ => None) (fun _ => None)
      (ProductScenarios.shop ProductScenarios.catalogue)
      (ProductScenarios.new_product "xyz") in
  exists user warehouse_field warehouse quantity_field initial_quantity,
    get_current_user (ProductScenarios.shop ProductScenarios.catalogue)
      = Some user /\
    dict_get (ProductScenarios.new_product "xyz") "warehouse_id"
      = Some warehouse_field /\
    Warehouse_get ProductScenarios.catalogue warehouse_field = Some warehouse /\
    dict_get (ProductScenarios.new_product "xyz") "initial_quantity"
      = Some quantity_field /\
    parse_quantity (fun _ => None) quantity_field = Some initial_quantity /\
    inventory (snd out)
    = inventory ProductScenarios.catalogue ++
      [ {| inv_product_id := 2;
           inv_warehouse_id := wh_id warehouse;
           inv_quantity := initial_quantity;
           inv_created_by := user_id user;
           inv_created_at := 1000;
           inv_updated_by := None;
           inv_updated_at := None |} ].
Proof.
  assert (Hfresh : forall i,
             In i (inventory (db (ProductScenarios.shop
                                    ProductScenarios.catalogue))) ->
             inv_product_id i
             <> next_product_id (db (ProductScenarios.shop
                                       ProductScenarios.catalogue))).
  { intros i [<- | []]. discriminate. }
  exact (new_product_gets_inventory_row (fun _ => None) (fun _ => None)
           (ProductScenarios.shop ProductScenarios.catalogue)
           (ProductScenarios.new_product "xyz") Hfresh eq_refl).
Defined.

End ProductApiFacts.
